(** * node-cubrid: the CAS broker protocol client

    A shallow embedding of the connection core ([CUBRIDConnection.js]), of
    the fetch packet ([packets/FetchPacket.js]), of the open-database packet
    ([packets/OpenDatabasePacket.js]) and of the error-code table
    ([constants/ErrorMessages.js]), with the properties the specification
    states about them.

    Byte buffers are lists of integers (one [Z] per byte); the 32-bit
    integers of the wire are [Z] with their two's-complement wrap-around
    written out.  The connection object is a record that every method
    threads through a small state-and-output monad: the output is the
    sequence of socket writes, emitted events and callback invocations,
    in program order. *)

From Stdlib Require Import ZArith Lia String Ascii.
From stdpp Require Import base numbers option list strings gmap.

Local Open Scope Z_scope.

(** ** Values of the host language *)

(** The constants of [ErrorMessages] that [CUBRIDConnection.js] names.  Their
    texts are not needed: only their identity is observed. *)
Inductive ErrorMessage :=
| ERROR_NEW_BROKER_PORT
| ERROR_CONNECTION_ALREADY_PENDING
| ERROR_QUERY_ALREADY_PENDING
| ERROR_INPUT_VALIDATION
| ERROR_NO_ACTIVE_QUERY
| ERROR_ON_CLOSE_QUERY_HANDLE.

(** [new Error(ErrorMessages.X)] and [new Error(errorCode + ':' + errorMsg)].
    The message of a server error is [None] where the source would
    concatenate [undefined]; [Error_undefined] is the error built from an
    [errorCode] and an [errorMsg] that are both [undefined], whose message
    is ['undefined:undefined']. *)
Inductive JsError :=
| Error_of (m : ErrorMessage)
| Error_server (errorCode : Z) (errorMsg : option string)
| Error_undefined.

Inductive JsVal :=
| JsUndefined
| JsNull
| JsBool (b : bool)
| JsNum (z : Z)
| JsStr (s : string)
| JsErr (e : JsError).

#[global] Instance ErrorMessage_eq_dec : EqDecision ErrorMessage.
Proof. solve_decision. Defined.
#[global] Instance JsError_eq_dec : EqDecision JsError.
Proof. solve_decision. Defined.
#[global] Instance JsVal_eq_dec : EqDecision JsVal.
Proof. solve_decision. Defined.

(** [a === b] on the values above. *)
Definition js_strict_eq (a b : JsVal) : bool := bool_decide (a = b).

(** [typeof err != 'undefined' && err != null] *)
Definition is_error (err : JsVal) : bool :=
  match err with
  | JsUndefined | JsNull => false
  | _ => true
  end.

(** The condition of [if (v)]. *)
Definition truthy (v : JsVal) : bool :=
  match v with
  | JsUndefined | JsNull => false
  | JsBool b => b
  | JsNum z => negb (z =? 0)
  | JsStr s => negb (String.eqb s "")
  | JsErr _ => true
  end.

(** The [i]-th actual argument of a call; a missing one is [undefined]. *)
Definition arg (i : nat) (args : list JsVal) : JsVal := default JsUndefined (args !! i).

(** ** Constants *)

(** Modelled from the spec: [constants/DataTypes.js] is not among the
    sources.  The frame has a 4-byte length and a 4-byte CAS info, integers
    are 32 bits wide, and the broker info has 8 bytes. *)
Module DATA_TYPES.
Definition DATA_LENGTH_SIZEOF : Z := 4.
Definition CAS_INFO_SIZE : Z := 4.
Definition BYTE_SIZEOF : Z := 1.
Definition INT_SIZEOF : Z := 4.
Definition BROKER_INFO_SIZEOF : Z := 8.
End DATA_TYPES.

(** ** Strings as bytes *)

Definition bytes_of_string (s : string) : list Z :=
  (fun c => Z.of_nat (nat_of_ascii c)) <$> list_ascii_of_string s.

Definition string_of_bytes (bs : list Z) : string :=
  string_of_list_ascii ((fun b => ascii_of_nat (Z.to_nat b)) <$> bs).

(** ** The frame writer *)

(** Modelled from the spec: [packets/PacketWriter.js] is not among the
    sources.  The writer accumulates into a growable byte buffer and writes
    signed 32-bit big-endian integers, single bytes, fixed-length strings
    (truncated or padded to exactly [N] bytes), filler bytes and raw blocks
    of exactly [N] bytes. *)
Record PacketWriter := { _buffer : list Z }.

(** [new PacketWriter()] *)
Definition new_PacketWriter : PacketWriter := {| _buffer := [] |}.

(** Modelled from the spec: the buffer grows by the bytes written. *)
Definition put (bs : list Z) (writer : PacketWriter) : PacketWriter :=
  {| _buffer := _buffer writer ++ bs |}.

(** Modelled from the spec: the four bytes of a signed 32-bit big-endian
    integer (two's complement, so a value outside the range wraps around). *)
Definition int32_bytes (value : Z) : list Z :=
  [ Z.land (Z.shiftr value 24) 255;
    Z.land (Z.shiftr value 16) 255;
    Z.land (Z.shiftr value 8) 255;
    Z.land value 255 ].

(** Modelled from the spec: write signed 32-bit big-endian int. *)
Definition _writeInt (value : Z) : PacketWriter -> PacketWriter :=
  put (int32_bytes value).

(** Modelled from the spec: write single byte. *)
Definition _writeByte (value : Z) : PacketWriter -> PacketWriter :=
  put [Z.land value 255].

(** Modelled from the spec: a raw byte block of exactly [bytesCount] bytes;
    a missing element reads as 0. *)
Definition block (bytesCount : Z) (value : list Z) : list Z :=
  (fun i => Z.land (default 0 (value !! i)) 255) <$> seq 0 (Z.to_nat bytesCount).

(** Modelled from the spec: write a raw byte block of exactly N bytes. *)
Definition _writeBytes (bytesCount : Z) (value : list Z) : PacketWriter -> PacketWriter :=
  put (block bytesCount value).

(** Modelled from the spec: write a fixed number of filler bytes of a given
    value. *)
Definition _writeFiller (fillerLength : Z) (fillerValue : Z) : PacketWriter -> PacketWriter :=
  put (replicate (Z.to_nat fillerLength) (Z.land fillerValue 255)).

(** Modelled from the spec: truncate or pad to exactly [fixedLength] bytes. *)
Definition fixed_length (value : list Z) (fillerValue : Z) (fixedLength : Z) : list Z :=
  take (Z.to_nat fixedLength) value
    ++ replicate (Z.to_nat fixedLength - length value)%nat (Z.land fillerValue 255).

(** Modelled from the spec: write fixed-length padded string. *)
Definition _writeFixedLengthString (value : string) (fillerValue : Z) (fixedLength : Z)
  : PacketWriter -> PacketWriter :=
  put (fixed_length (bytes_of_string value) fillerValue fixedLength).

(** ** The frame reader *)

(** Modelled from the spec: [packets/PacketReader.js] is not among the
    sources.  The reader holds the assembled bytes and a cursor, and has the
    primitive parsers that mirror the writer.  A read past the end of the
    buffer has no result here (the spec's malformed frame). *)
Record PacketReader := { r_buffer : list Z; _offset : nat }.

(** [new PacketReader()] followed by [write(data)]. *)
Definition new_PacketReader (data : list Z) : PacketReader :=
  {| r_buffer := data; _offset := 0 |}.

(** A parser yields a value and moves the cursor, or has no result. *)
Definition Parser (A : Type) : Type := PacketReader -> option (A * PacketReader).

#[global] Instance Parser_ret : MRet Parser := fun A a r => Some (a, r).
#[global] Instance Parser_bind : MBind Parser := fun A B f p r =>
  match p r with
  | Some (a, r') => f a r'
  | None => None
  end.

(** Modelled from the spec: read a raw byte block of exactly N bytes. *)
Definition _parseBytes (bytesCount : Z) : Parser (list Z) := fun r =>
  let n := Z.to_nat bytesCount in
  let bs := take n (drop (_offset r) (r_buffer r)) in
  if bool_decide (length bs = n)
  then Some (bs, {| r_buffer := r_buffer r; _offset := (_offset r + n)%nat |})
  else None.

(** Modelled from the spec: [read_be_u32], the big-endian value of bytes. *)
Definition be_u32 (bs : list Z) : Z :=
  foldl (fun acc b => acc * 256 + b) 0 bs.

(** Modelled from the spec: the signed reading of an unsigned 32-bit value. *)
Definition to_int32 (u : Z) : Z :=
  if Z.testbit u 31 then u - 4294967296 else u.

(** Modelled from the spec: read signed 32-bit big-endian int. *)
Definition _parseInt : Parser Z :=
  bs ← _parseBytes DATA_TYPES.INT_SIZEOF; mret (to_int32 (be_u32 bs)).

(** Modelled from the spec: read single byte. *)
Definition _parseByte : Parser Z :=
  bs ← _parseBytes DATA_TYPES.BYTE_SIZEOF; mret (default 0 (bs !! 0%nat)).

(** Modelled from the spec: read a null-terminated string that takes
    [length] bytes with its terminator; the text has [length - 1] bytes. *)
Definition _parseNullTerminatedString (length : Z) : Parser string :=
  if length <=? 0 then mret EmptyString
  else bs ← _parseBytes (length - 1); _ ← _parseByte; mret (string_of_bytes bs).

(** The bytes that the reader has not consumed yet. *)
Definition remaining (r : PacketReader) : list Z := drop (_offset r) (r_buffer r).

(** ** The error-code table ([constants/ErrorMessages.js]) *)

Definition CASErrorMsgId : list (string * Z) :=
  [ ("CAS_ER_DBMS", -1000);
    ("CAS_ER_INTERNAL", -1001);
    ("CAS_ER_NO_MORE_MEMORY", -1002);
    ("CAS_ER_COMMUNICATION", -1003);
    ("CAS_ER_ARGS", -1004);
    ("CAS_ER_TRAN_TYPE", -1005);
    ("CAS_ER_SRV_HANDLE", -1006);
    ("CAS_ER_NUM_BIND", -1007);
    ("CAS_ER_UNKNOWN_U_TYPE", -1008);
    ("CAS_ER_DB_VALUE", -1009);
    ("CAS_ER_TYPE_CONVERSION", -1010);
    ("CAS_ER_PARAM_NAME", -1011);
    ("CAS_ER_NO_MORE_DATA", -1012);
    ("CAS_ER_OBJECT", -1013);
    ("CAS_ER_OPEN_FILE", -1014);
    ("CAS_ER_SCHEMA_TYPE", -1015);
    ("CAS_ER_VERSION", -1016);
    ("CAS_ER_FREE_SERVER", -1017);
    ("CAS_ER_NOT_AUTHORIZED_CLIENT", -1018);
    ("CAS_ER_QUERY_CANCEL", -1019);
    ("CAS_ER_NOT_COLLECTION", -1020);
    ("CAS_ER_COLLECTION_DOMAIN", -1021);
    ("CAS_ER_NO_MORE_RESULT_SET", -1022);
    ("CAS_ER_INVALID_CALL_STMT", -1023);
    ("CAS_ER_STMT_POOLING", -1024);
    ("CAS_ER_DBSERVER_DISCONNECTED", -1025);
    ("CAS_ER_MAX_PREPARED_STMT_COUNT_EXCEEDED", -1026);
    ("CAS_ER_HOLDABLE_NOT_ALLOWED", -1027);
    ("CAS_ER_NOT_IMPLEMENTED", -1100);
    ("CAS_ER_IS", -1200) ]%string.

(** Modelled from the spec: [utils/Helpers.js] is not among the sources.
    When the error message is empty, the decoder resolves a human-readable
    text from the error-code table; a code outside the table has none. *)
Definition _resolveErrorCode (errorCode : Z) : option string :=
  fst <$> (snd <$> list_find (fun e => errorCode = snd e) CASErrorMsgId).

(** Modelled from the spec: [readError(responseLength)] of the reader is not
    among the sources.  It reads the tail of a response whose code is
    negative: an error code (int) followed by a null-terminated message, the
    text of which is resolved from the error-code table when the message is
    empty.  The decoded error is the pair of the code and the text. *)
Definition readError (responseLength : Z) : Parser (Z * option string) :=
  errorCode ← _parseInt;
  errorMsg ← _parseNullTerminatedString (responseLength - 2 * DATA_TYPES.INT_SIZEOF);
  mret (errorCode,
        if bool_decide (String.length errorMsg = 0%nat)
        then _resolveErrorCode errorCode
        else Some errorMsg).

(** ** Objects that can be frozen *)

Record JsObject (A : Type) := { fields : A; frozen : bool }.
Arguments fields {A} _.
Arguments frozen {A} _.

Definition Object_freeze {A} (fs : A) : JsObject A := {| fields := fs; frozen := true |}.

(** An assignment to a property.  On a frozen object it changes nothing
    (and throws in strict code). *)
Definition Object_set {A} (upd : A -> A) (o : JsObject A) : JsObject A :=
  if frozen o then o else {| fields := upd (fields o); frozen := false |}.

(** ** What the sources leave out *)

(** The execute-query packet object as the connection keeps it in its list
    of query handles (the class itself is not among the sources). *)
Module ExecuteQueryPacket.
Record t := {
  errorCode : Z;
  errorMsg : option string;
  handle : Z;
  currentTupleCount : Z;
  totalTupleCount : Z
}.
End ExecuteQueryPacket.
Definition QueryHandle : Type := ExecuteQueryPacket.t.

(** Constants, validators and packet classes that the sources use and do not
    contain: the function codes of [constants/CASConstants.js] (only
    [CAS_FC_FETCH] and [CAS_FC_CON_CLOSE] are named in the sources, the other
    four are named here after their operation), [CAS.getProtocolVersion], the
    input validators of [utils/Helpers.js], the client-info-exchange request,
    the execute-query encoder and decoder and the row decoder [_getData] of
    a query handle, which yields the JSON text of the rows.  The last field
    stands for [ActionQueue.while], of [utils/ActionQueue.js]: neither the
    sources nor the specification say whether the loop ends when an
    iteration reports an error, passing the error to its completion
    function, or tests again and goes on. *)
Class Collaborators := {
  CAS_FC_FETCH : Z;
  CAS_FC_CON_CLOSE : Z;
  CAS_FC_COMMIT : Z;
  CAS_FC_ROLLBACK : Z;
  CAS_FC_CLOSE_QUERY : Z;
  CAS_FC_SET_AUTOCOMMIT : Z;
  getProtocolVersion : Z -> Z;
  _validateInputSQLString : string -> bool;
  _validateInputTimeout : Z -> bool;
  _validateInputBoolean : JsVal -> bool;
  ClientInfoExchangePacket_write : PacketWriter -> PacketWriter;
  ExecuteQueryPacket_write : string -> list Z -> JsVal -> PacketWriter -> PacketWriter;
  ExecuteQueryPacket_parse : Parser (QueryHandle * JsVal);
  _getData : QueryHandle -> Z -> Parser (string * QueryHandle);
  while_ends_at_error : bool
}.

(** ** [packets/FetchPacket.js] *)

Module FetchPacket.
Import DATA_TYPES.

Record t := {
  casInfo : list Z;
  responseCode : Z;
  errorCode : Z;
  errorMsg : option string;
  tupleCount : option Z
}.

(** [function FetchPacket(options)] *)
Definition new (options_casInfo : list Z) : t :=
  {| casInfo := options_casInfo; responseCode := 0; errorCode := 0;
     errorMsg := Some EmptyString; tupleCount := None |}.

Definition bufferLength : Z :=
  DATA_LENGTH_SIZEOF + CAS_INFO_SIZE +
  BYTE_SIZEOF + INT_SIZEOF + INT_SIZEOF +
  INT_SIZEOF + INT_SIZEOF + INT_SIZEOF + INT_SIZEOF +
  INT_SIZEOF + BYTE_SIZEOF + INT_SIZEOF + INT_SIZEOF.

(** [JSON.stringify({ColumnValues : ...})], on the JSON text of the rows:
    the key is written between double quotes (character 34). *)
Definition JSON_ColumnValues (rows : string) : JsVal :=
  JsStr (String "{" (String "034" ("ColumnValues" ++ String "034" (":" ++ rows ++ "}"))))%string.

Section with_collaborators.
Context `{Collaborators}.

Definition write (this : t) (writer : PacketWriter) (queryHandle : QueryHandle)
  : PacketWriter :=
  let writer := _writeInt (bufferLength - DATA_LENGTH_SIZEOF - CAS_INFO_SIZE) writer in
  let writer := _writeBytes CAS_INFO_SIZE (casInfo this) writer in
  let writer := _writeByte CAS_FC_FETCH writer in
  let writer := _writeInt INT_SIZEOF writer in
  let writer := _writeInt (ExecuteQueryPacket.handle queryHandle) writer in
  let writer := _writeInt INT_SIZEOF writer in
  let writer := _writeInt (ExecuteQueryPacket.currentTupleCount queryHandle + 1) writer in
  let writer := _writeInt INT_SIZEOF writer in
  let writer := _writeInt 100 writer in
  let writer := _writeInt BYTE_SIZEOF writer in
  let writer := _writeByte 0 writer in
  let writer := _writeInt INT_SIZEOF writer in
  let writer := _writeInt 0 writer in
  writer.

(** The packet after the call, the value returned ([None] for
    [undefined]) and the query handle, which [_getData] advances. *)
Definition parse (this : t) (queryHandle : QueryHandle)
  : Parser (t * option JsVal * QueryHandle) :=
  responseLength ← _parseInt;
  casInfo' ← _parseBytes CAS_INFO_SIZE;
  responseCode' ← _parseInt;
  if negb (responseCode' =? 0) then
    errorCode' ← _parseInt;
    errorMsg' ← _parseNullTerminatedString (responseLength - 2 * INT_SIZEOF);
    let errorMsg'' :=
      if bool_decide (String.length errorMsg' = 0%nat)
      then _resolveErrorCode errorCode'
      else Some errorMsg' in
    mret ({| casInfo := casInfo'; responseCode := responseCode';
             errorCode := errorCode'; errorMsg := errorMsg'';
             tupleCount := tupleCount this |}, None, queryHandle)
  else
    tupleCount' ← _parseInt;
    '(rows, queryHandle') ← _getData queryHandle tupleCount';
    mret ({| casInfo := casInfo'; responseCode := responseCode';
             errorCode := errorCode this; errorMsg := errorMsg this;
             tupleCount := Some tupleCount' |},
          Some (JSON_ColumnValues rows), queryHandle').

(** [parse] called with a query handle that is [undefined].  The branch of
    a non-zero response code never reads the handle and decodes as above;
    the other branch reads the tuple count and fails on
    [queryHandle._getData], which is [None] here. *)
Definition parse_undefined_handle (this : t) : Parser (option t) :=
  responseLength ← _parseInt;
  casInfo' ← _parseBytes CAS_INFO_SIZE;
  responseCode' ← _parseInt;
  if negb (responseCode' =? 0) then
    errorCode' ← _parseInt;
    errorMsg' ← _parseNullTerminatedString (responseLength - 2 * INT_SIZEOF);
    let errorMsg'' :=
      if bool_decide (String.length errorMsg' = 0%nat)
      then _resolveErrorCode errorCode'
      else Some errorMsg' in
    mret (Some {| casInfo := casInfo'; responseCode := responseCode';
                  errorCode := errorCode'; errorMsg := errorMsg'';
                  tupleCount := tupleCount this |})
  else
    tupleCount' ← _parseInt;
    mret None.
End with_collaborators.
End FetchPacket.

(** ** [packets/OpenDatabasePacket.js] *)

Module OpenDatabasePacket.
Import DATA_TYPES.

Record options := { database : string; user : string; password : string }.

Record BrokerInfo := { dbType : Z; protocolVersion : Z; statementPolling : Z }.

(** The properties [parse] assigns are absent before it has run. *)
Record t := {
  opts : options;
  casInfo : option (list Z);
  responseCode : option Z;
  brokerInfo : option (JsObject BrokerInfo);
  sessionId : option Z
}.

(** [function OpenDatabasePacket(options)] *)
Definition new (o : options) : t :=
  {| opts := o; casInfo := None; responseCode := None; brokerInfo := None;
     sessionId := None |}.

Definition write (this : t) (writer : PacketWriter) : PacketWriter :=
  let writer := _writeFixedLengthString (database (opts this)) 0 32 writer in
  let writer := _writeFixedLengthString (user (opts this)) 0 32 writer in
  let writer := _writeFixedLengthString (password (opts this)) 0 32 writer in
  let writer := _writeFiller 512 0 writer in
  let writer := _writeFiller 20 0 writer in
  writer.

Definition getBufferLength : Z := 32 * 3 + 512 + 20.

Section with_collaborators.
Context `{Collaborators}.

(** The packet after the call and the value returned: the decoded error
    when the response code is negative, [undefined] ([None]) otherwise. *)
Definition parse (this : t) : Parser (t * option (Z * option string)) :=
  responseLength ← _parseInt;
  casInfo' ← _parseBytes CAS_INFO_SIZE;
  responseCode' ← _parseInt;
  let this := {| opts := opts this; casInfo := Some casInfo';
                 responseCode := Some responseCode';
                 brokerInfo := brokerInfo this; sessionId := sessionId this |} in
  if responseCode' <? 0 then
    e ← readError responseLength; mret (this, Some e)
  else
    brokerInfo' ← _parseBytes BROKER_INFO_SIZEOF;
    let protocolVersion' := getProtocolVersion (default 0 (brokerInfo' !! 4%nat)) in
    let frozenInfo := Object_freeze
      {| dbType := default 0 (brokerInfo' !! 0%nat);
         protocolVersion := protocolVersion';
         statementPolling := default 0 (brokerInfo' !! 2%nat) |} in
    sessionId' ← _parseInt;
    mret ({| opts := opts this; casInfo := casInfo this;
             responseCode := responseCode this;
             brokerInfo := Some frozenInfo; sessionId := Some sessionId' |}, None).
End with_collaborators.
End OpenDatabasePacket.

(** ** Request and acknowledgement packets that are not among the sources *)

(** Modelled from the spec: the classes [CommitPacket], [RollbackPacket],
    [CloseDatabasePacket], [CloseQueryPacket] and [SetAutoCommitModePacket]
    are not among the sources.  A request is a frame whose body starts with
    the function code; the commit, rollback and close-database bodies are
    empty after it, the close-query body has the server handle (int) and the
    set-auto-commit body has the mode byte (1 = on, 0 = off).  A response is
    an acknowledgement: the response code and, when it is negative, the
    error code and message. *)
Module AckPacket.
Import DATA_TYPES.

Record t := {
  casInfo : list Z;
  responseCode : Z;
  errorCode : Z;
  errorMsg : option string
}.

(** Modelled from the spec: the length of the body, the CAS info, the function
    code and the rest of the body. *)
Definition write (casInfo : list Z) (functionCode : Z) (body : list Z)
    (writer : PacketWriter) : PacketWriter :=
  let writer := _writeInt (BYTE_SIZEOF + Z.of_nat (length body)) writer in
  let writer := _writeBytes CAS_INFO_SIZE casInfo writer in
  let writer := _writeByte functionCode writer in
  put body writer.

(** Modelled from the spec: the decoded state of a response without error is
    [errorCode = 0] and an empty [errorMsg]. *)
Definition parse : Parser t :=
  responseLength ← _parseInt;
  casInfo' ← _parseBytes CAS_INFO_SIZE;
  responseCode' ← _parseInt;
  if responseCode' <? 0 then
    '(errorCode', errorMsg') ← readError responseLength;
    mret {| casInfo := casInfo'; responseCode := responseCode';
            errorCode := errorCode'; errorMsg := errorMsg' |}
  else
    mret {| casInfo := casInfo'; responseCode := responseCode';
            errorCode := 0; errorMsg := Some EmptyString |}.

Section with_collaborators.
Context `{Collaborators}.

(** Modelled from the spec: the five requests. *)
Definition CommitPacket_write (casInfo : list Z) := write casInfo CAS_FC_COMMIT [].
Definition RollbackPacket_write (casInfo : list Z) := write casInfo CAS_FC_ROLLBACK [].
Definition CloseDatabasePacket_write (casInfo : list Z) := write casInfo CAS_FC_CON_CLOSE [].
Definition CloseQueryPacket_write (casInfo : list Z) (reqHandle : Z) :=
  write casInfo CAS_FC_CLOSE_QUERY (int32_bytes reqHandle).
Definition SetAutoCommitModePacket_write (casInfo : list Z) (autoCommitMode : JsVal) :=
  write casInfo CAS_FC_SET_AUTOCOMMIT [if truthy autoCommitMode then 1 else 0].
End with_collaborators.
End AckPacket.

(** Modelled from the spec: [ClientInfoExchangePacket] is not among the
    sources; its response is the new connection port (int). *)
Definition ClientInfoExchangePacket_parse : Parser Z := _parseInt.

(** ** The connection object *)

(** Caller-supplied completion callbacks are opaque: [Some id] is a function,
    [None] anything else (the guard
    [callback && typeof(callback) === 'function'] fails). *)
Definition UserCallback : Type := option nat.

(** The functions that [CUBRIDConnection.js] hands to [ActionQueue.enqueue]. *)
Inductive Action :=
| act_getBrokerPort                                   (* connect, first *)
| act_databaseLogin                                   (* connect, second *)
| act_ensureConnected                                 (* query, first *)
| act_executeQuery (sql : string) (callback : UserCallback)  (* query, second *)
| act_closeHandles                                    (* close, first *)
| act_closeDatabase.                                  (* close, second *)

(** The functions that are passed around as callbacks. *)
Inductive Callback :=
| cb_user (callback : UserCallback)
| cb_next (rest : list Action) (final : Callback)     (* the queue's [cb] *)
| cb_connect (callback : Callback)                    (* connect: function (err) *)
| cb_query (callback : UserCallback)                  (* query: function (err, result, handle) *)
| cb_close (callback : UserCallback)                  (* close: function (err) *)
| cb_whileNext (final : Callback)                     (* the [callb] of ActionQueue.while *)
| cb_closeHandlesDone (cb : Callback)                 (* close: the end of the while loop *)
| cb_beginTransaction (callback : UserCallback)
| cb_setAutoCommitMode (callback : UserCallback).

Definition is_function (callback : Callback) : bool :=
  match callback with
  | cb_user None => false
  | _ => true
  end.

(** The closures registered with [self._socket.on('data', ...)]; each keeps
    its own [responseData] and [expectedResponseLength]. *)
Inductive ListenerKind :=
| on_brokerPort (callback : Callback)
| on_login (packet : OpenDatabasePacket.t) (callback : Callback)
| on_query (sql : string) (cb : Callback)
| on_fetch (fetchPacket : option (FetchPacket.t * nat)) (callback : UserCallback)
| on_closeQuery (queryHandle : Z) (callback : Callback)
| on_closeDatabase (cb : Callback)
| on_rollback (rollbackPacket : bool) (callback : UserCallback)
| on_commit (commitPacket : bool) (callback : UserCallback)
| on_toggle (autoCommitMode : JsVal) (callback : Callback).

Record DataListener := {
  kind : ListenerKind;
  responseData : list Z;
  expectedResponseLength : Z
}.

(** The listeners of the ['data'] event, in the order of registration, each
    with the number it was registered under. *)
Record Socket := { dataListeners : list (nat * DataListener) }.

Record CUBRIDConnection := {
  _queryCache : option (gmap string JsVal);
  _socket : Socket;
  brokerServer : string;
  initialBrokerPort : Z;
  connectionBrokerPort : Z;
  user : string;
  password : string;
  database : string;
  autoCommitMode : JsVal;
  sessionId : Z;
  connectionOpened : bool;
  connectionPending : bool;
  queryPending : bool;
  _CASInfo : list Z;
  _queriesHandleList : list QueryHandle;
  registered : nat   (* how many listeners have been registered so far *)
}.

Definition _INVALID_RESPONSE_LENGTH : Z := -1.

(** [function CUBRIDConnection(brokerServer, brokerPort, user, password,
    database, cacheTimeout)]; an argument that is not passed is [None]. *)
Definition new_CUBRIDConnection (brokerServer' : option string) (brokerPort : option Z)
    (user' password' database' : option string) (cacheTimeout : option Z)
  : CUBRIDConnection :=
  let or_string (v : option string) (d : string) : string :=
    match v with Some s => if String.eqb s "" then d else s | None => d end in
  let or_int (v : option Z) (d : Z) : Z :=
    match v with Some z => if z =? 0 then d else z | None => d end in
  {| _queryCache :=
       match cacheTimeout with
       | Some t => if 0 <? t then Some ∅ else None
       | None => None
       end;
     _socket := {| dataListeners := [] |};
     brokerServer := or_string brokerServer' "localhost";
     initialBrokerPort := or_int brokerPort 33000;
     connectionBrokerPort := -1;
     user := or_string user' "public";
     password := or_string password' "";
     database := or_string database' "demodb";
     autoCommitMode := JsNull;
     sessionId := 0;
     connectionOpened := false;
     connectionPending := false;
     queryPending := false;
     _CASInfo := [0; 255; 255; 255];
     _queriesHandleList := [];
     registered := 0 |}.

(** Assignments to the properties that the methods change. *)
Definition set__queryCache (v : option (gmap string JsVal)) (s : CUBRIDConnection) :=
  {| _queryCache := v; _socket := _socket s; brokerServer := brokerServer s;
     initialBrokerPort := initialBrokerPort s;
     connectionBrokerPort := connectionBrokerPort s; user := user s;
     password := password s; database := database s;
     autoCommitMode := autoCommitMode s; sessionId := sessionId s;
     connectionOpened := connectionOpened s; connectionPending := connectionPending s;
     queryPending := queryPending s; _CASInfo := _CASInfo s;
     _queriesHandleList := _queriesHandleList s; registered := registered s |}.

Definition set__socket (v : Socket) (n : nat) (s : CUBRIDConnection) :=
  {| _queryCache := _queryCache s; _socket := v; brokerServer := brokerServer s;
     initialBrokerPort := initialBrokerPort s;
     connectionBrokerPort := connectionBrokerPort s; user := user s;
     password := password s; database := database s;
     autoCommitMode := autoCommitMode s; sessionId := sessionId s;
     connectionOpened := connectionOpened s; connectionPending := connectionPending s;
     queryPending := queryPending s; _CASInfo := _CASInfo s;
     _queriesHandleList := _queriesHandleList s; registered := n |}.

Definition set_connectionBrokerPort (v : Z) (s : CUBRIDConnection) :=
  {| _queryCache := _queryCache s; _socket := _socket s; brokerServer := brokerServer s;
     initialBrokerPort := initialBrokerPort s;
     connectionBrokerPort := v; user := user s;
     password := password s; database := database s;
     autoCommitMode := autoCommitMode s; sessionId := sessionId s;
     connectionOpened := connectionOpened s; connectionPending := connectionPending s;
     queryPending := queryPending s; _CASInfo := _CASInfo s;
     _queriesHandleList := _queriesHandleList s; registered := registered s |}.

Definition set_autoCommitMode (v : JsVal) (s : CUBRIDConnection) :=
  {| _queryCache := _queryCache s; _socket := _socket s; brokerServer := brokerServer s;
     initialBrokerPort := initialBrokerPort s;
     connectionBrokerPort := connectionBrokerPort s; user := user s;
     password := password s; database := database s;
     autoCommitMode := v; sessionId := sessionId s;
     connectionOpened := connectionOpened s; connectionPending := connectionPending s;
     queryPending := queryPending s; _CASInfo := _CASInfo s;
     _queriesHandleList := _queriesHandleList s; registered := registered s |}.

Definition set_sessionId (v : Z) (s : CUBRIDConnection) :=
  {| _queryCache := _queryCache s; _socket := _socket s; brokerServer := brokerServer s;
     initialBrokerPort := initialBrokerPort s;
     connectionBrokerPort := connectionBrokerPort s; user := user s;
     password := password s; database := database s;
     autoCommitMode := autoCommitMode s; sessionId := v;
     connectionOpened := connectionOpened s; connectionPending := connectionPending s;
     queryPending := queryPending s; _CASInfo := _CASInfo s;
     _queriesHandleList := _queriesHandleList s; registered := registered s |}.

Definition set_connectionOpened (v : bool) (s : CUBRIDConnection) :=
  {| _queryCache := _queryCache s; _socket := _socket s; brokerServer := brokerServer s;
     initialBrokerPort := initialBrokerPort s;
     connectionBrokerPort := connectionBrokerPort s; user := user s;
     password := password s; database := database s;
     autoCommitMode := autoCommitMode s; sessionId := sessionId s;
     connectionOpened := v; connectionPending := connectionPending s;
     queryPending := queryPending s; _CASInfo := _CASInfo s;
     _queriesHandleList := _queriesHandleList s; registered := registered s |}.

Definition set_connectionPending (v : bool) (s : CUBRIDConnection) :=
  {| _queryCache := _queryCache s; _socket := _socket s; brokerServer := brokerServer s;
     initialBrokerPort := initialBrokerPort s;
     connectionBrokerPort := connectionBrokerPort s; user := user s;
     password := password s; database := database s;
     autoCommitMode := autoCommitMode s; sessionId := sessionId s;
     connectionOpened := connectionOpened s; connectionPending := v;
     queryPending := queryPending s; _CASInfo := _CASInfo s;
     _queriesHandleList := _queriesHandleList s; registered := registered s |}.

Definition set_queryPending (v : bool) (s : CUBRIDConnection) :=
  {| _queryCache := _queryCache s; _socket := _socket s; brokerServer := brokerServer s;
     initialBrokerPort := initialBrokerPort s;
     connectionBrokerPort := connectionBrokerPort s; user := user s;
     password := password s; database := database s;
     autoCommitMode := autoCommitMode s; sessionId := sessionId s;
     connectionOpened := connectionOpened s; connectionPending := connectionPending s;
     queryPending := v; _CASInfo := _CASInfo s;
     _queriesHandleList := _queriesHandleList s; registered := registered s |}.

Definition set__CASInfo (v : list Z) (s : CUBRIDConnection) :=
  {| _queryCache := _queryCache s; _socket := _socket s; brokerServer := brokerServer s;
     initialBrokerPort := initialBrokerPort s;
     connectionBrokerPort := connectionBrokerPort s; user := user s;
     password := password s; database := database s;
     autoCommitMode := autoCommitMode s; sessionId := sessionId s;
     connectionOpened := connectionOpened s; connectionPending := connectionPending s;
     queryPending := queryPending s; _CASInfo := v;
     _queriesHandleList := _queriesHandleList s; registered := registered s |}.

Definition set__queriesHandleList (v : list QueryHandle) (s : CUBRIDConnection) :=
  {| _queryCache := _queryCache s; _socket := _socket s; brokerServer := brokerServer s;
     initialBrokerPort := initialBrokerPort s;
     connectionBrokerPort := connectionBrokerPort s; user := user s;
     password := password s; database := database s;
     autoCommitMode := autoCommitMode s; sessionId := sessionId s;
     connectionOpened := connectionOpened s; connectionPending := connectionPending s;
     queryPending := queryPending s; _CASInfo := _CASInfo s;
     _queriesHandleList := v; registered := registered s |}.

(** ** Effects *)

(** What a method does to the outside, in program order. *)
Inductive Effect :=
| SocketConnect (port : Z) (host : string)   (* Net.createConnection *)
| SocketWrite (buffer : list Z)              (* self._socket.write *)
| SocketEnd                                  (* self._socket.end *)
| SocketDestroy                              (* self._socket.destroy *)
| Emit (event : string) (args : list JsVal)  (* an event of the connection *)
| Invoke (callback : nat) (args : list JsVal) (* a caller's callback is called *)
| LogError (m : ErrorMessage) (err : JsVal). (* Helpers.logError *)

Inductive Thrown := TypeError | MalformedFrame.

Inductive Outcome (A : Type) :=
| Done (a : A)
| Threw (e : Thrown)
| OutOfFuel.
Arguments Done {A} _.
Arguments Threw {A} _.
Arguments OutOfFuel {A}.

(** A method runs on the connection and yields its outcome, the connection
    afterwards and what it did. *)
Definition M (A : Type) : Type :=
  CUBRIDConnection -> Outcome A * CUBRIDConnection * list Effect.

#[global] Instance M_ret : MRet M := fun A a self => (Done a, self, []).
#[global] Instance M_bind : MBind M := fun A B f m self =>
  match m self with
  | (Done a, self', out) =>
      let '(o, self'', out') := f a self' in (o, self'', out ++ out')
  | (Threw e, self', out) => (Threw e, self', out)
  | (OutOfFuel, self', out) => (OutOfFuel, self', out)
  end.

Definition get : M CUBRIDConnection := fun self => (Done self, self, []).
Definition modify (f : CUBRIDConnection -> CUBRIDConnection) : M unit :=
  fun self => (Done tt, f self, []).
Definition tell (out : list Effect) : M unit := fun self => (Done tt, self, out).
Definition throw {A} (e : Thrown) : M A := fun self => (Threw e, self, []).
Definition out_of_fuel {A} : M A := fun self => (OutOfFuel, self, []).

Definition state_of {A} (r : Outcome A * CUBRIDConnection * list Effect) : CUBRIDConnection :=
  snd (fst r).
Definition effects_of {A} (r : Outcome A * CUBRIDConnection * list Effect) : list Effect :=
  snd r.
Definition outcome_of {A} (r : Outcome A * CUBRIDConnection * list Effect) : Outcome A :=
  fst (fst r).

(** The buffers written to the socket, the calls of the caller's callbacks
    and the events, among the effects. *)
Definition socket_writes (out : list Effect) : list (list Z) :=
  omap (fun e => match e with SocketWrite b => Some b | _ => None end) out.
Definition invocations (out : list Effect) : list (nat * list JsVal) :=
  omap (fun e => match e with Invoke c args => Some (c, args) | _ => None end) out.

(** ** Event names *)

Definition EVENT_ERROR : string := "error".
Definition EVENT_CONNECTED : string := "connect".
Definition EVENT_QUERY_DATA_AVAILABLE : string := "query data".
Definition EVENT_FETCH_DATA_AVAILABLE : string := "fetch".
Definition EVENT_FETCH_NO_MORE_DATA_AVAILABLE : string := "fetch done".
Definition EVENT_BEGIN_TRANSACTION : string := "begin transaction".
Definition EVENT_SET_AUTOCOMMIT_MODE_COMPLETED : string := "set autocommit mode".
Definition EVENT_COMMIT_COMPLETED : string := "commit".
Definition EVENT_ROLLBACK_COMPLETED : string := "rollback".
Definition EVENT_QUERY_CLOSED : string := "close query".
Definition EVENT_CONNECTION_CLOSED : string := "close".

(** ** Helpers *)

(** Modelled from the spec: [utils/Helpers.js] is not among the sources.
    An operation delivers its outcome through an event: the error event with
    the error when there is one, the success event with its arguments
    otherwise; an event that is [null] is not emitted. *)
Definition _emitEvent (err : JsVal) (errorEvent successEvent : option string)
    (args : list JsVal) : M unit :=
  if is_error err then
    match errorEvent with Some ev => tell [Emit ev [err]] | None => mret tt end
  else
    match successEvent with Some ev => tell [Emit ev args] | None => mret tt end.

Definition _combineData (responseData data : list Z) : list Z := responseData ++ data.

(** Modelled from the spec: the total expected frame length is
    [4 + read_be_u32(first 4 bytes) + CAS_INFO_SIZE]. *)
Definition _getExpectedResponseLength (responseData : list Z) : Z :=
  DATA_TYPES.DATA_LENGTH_SIZEOF + be_u32 (take 4 responseData) + DATA_TYPES.CAS_INFO_SIZE.

(** [if (callback && typeof(callback) === 'function') callback.call(self, ...)]
    on a caller's callback. *)
Definition invoke_user (callback : UserCallback) (args : list JsVal) : M unit :=
  match callback with
  | Some id => tell [Invoke id args]
  | None => mret tt
  end.

(** [new Error(errorCode + ':' + errorMsg)] when [errorCode !== 0]. *)
Definition error_of_code (err : JsVal) (errorCode : Z) (errorMsg : option string) : JsVal :=
  if negb (errorCode =? 0) then JsErr (Error_server errorCode errorMsg) else err.

(** ** The socket *)

(** [Net.createConnection(port, host)]: a new socket, without listeners. *)
Definition createConnection (port : Z) : M unit :=
  self ← get;
  _ ← modify (fun self => set__socket {| dataListeners := [] |} (registered self) self);
  tell [SocketConnect port (brokerServer self)].

Definition socket_write (writer : PacketWriter) : M unit :=
  tell [SocketWrite (_buffer writer)].

(** [self._socket.on('data', ...)], with fresh [responseData] and
    [expectedResponseLength]; yields the number of the registration. *)
Definition on_data (k : ListenerKind) : M nat :=
  self ← get;
  let id := registered self in
  let l := {| kind := k; responseData := [];
              expectedResponseLength := _INVALID_RESPONSE_LENGTH |} in
  _ ← modify (set__socket
                {| dataListeners := dataListeners (_socket self) ++ [(id, l)] |} (S id));
  mret id.

Definition removeAllListeners : M unit :=
  modify (fun self => set__socket {| dataListeners := [] |} (registered self) self).

Definition removeListener (id : nat) : M unit :=
  modify (fun self =>
    set__socket
      {| dataListeners := filter (fun e => fst e ≠ id) (dataListeners (_socket self)) |}
      (registered self) self).

(** The variables of a closure change where it is registered. *)
Definition store_listener (id : nat) (l : DataListener) : M unit :=
  modify (fun self =>
    set__socket
      {| dataListeners :=
           (fun e => if bool_decide (fst e = id) then (id, l) else e)
             <$> dataListeners (_socket self) |}
      (registered self) self).

(** Modelled from the spec: [utils/Cache.js] is not among the sources.  The
    cache maps the exact SQL text to a result; an insertion never replaces
    an entry that is there.  An entry that expires leaves the map. *)
Definition Cache_contains (key : string) (c : gmap string JsVal) : bool :=
  bool_decide (is_Some (c !! key)).
Definition Cache_get (key : string) (c : gmap string JsVal) : JsVal :=
  default JsUndefined (c !! key).
Definition Cache_getSet (key : string) (value : JsVal) (c : gmap string JsVal)
  : gmap string JsVal :=
  if Cache_contains key c then c else <[key := value]> c.

(** ** The methods of [CUBRIDConnection.js] *)

(** The socket's ['error'] listeners and [setNoDelay] are left out.  The
    methods call the functions they are given through [call], which is
    defined after them. *)
Section methods.
Context `{Collaborators}.
Variable call : Callback -> list JsVal -> M unit.

Definition if_function (callback : Callback) (args : list JsVal) : M unit :=
  if is_function callback then call callback args else mret tt.

(** Modelled from the spec: [utils/ActionQueue.js] is not among the
    sources.  The queue is a FIFO of single-shot closures sharing one
    completion channel, with one action in flight at a time: [enqueue]
    starts the first action, and the [cb] an action is given ([cb_next])
    starts the next one, or ends the queue at the first error and after
    the last action. *)
Definition enqueue (actions : list Action) (callback : Callback) : M unit :=
  call (cb_next actions callback) [].

Definition _doGetBrokerPort (callback : Callback) : M unit :=
  self ← get;
  _ ← createConnection (initialBrokerPort self);
  let packetWriter := ClientInfoExchangePacket_write new_PacketWriter in
  _ ← socket_write packetWriter;
  _ ← on_data (on_brokerPort callback);
  mret tt.

(** The listener of [_doGetBrokerPort]. *)
Definition brokerPort_data (callback : Callback) (data : list Z) : M unit :=
  match ClientInfoExchangePacket_parse (new_PacketReader data) with
  | None => throw MalformedFrame
  | Some (newPort, _) =>
      _ ← modify (set_connectionBrokerPort newPort);
      _ ← tell [SocketEnd];
      if is_function callback then
        if 0 <? newPort
        then call callback []   (* callback.call(null) *)
        else call callback []   (* callback.call(err): the error is [this] *)
      else mret tt
  end.

Definition _doDatabaseLogin (callback : Callback) : M unit :=
  self ← get;
  _ ← createConnection (connectionBrokerPort self);
  let openDatabasePacket := OpenDatabasePacket.new
    {| OpenDatabasePacket.database := database self;
       OpenDatabasePacket.user := user self;
       OpenDatabasePacket.password := password self |} in
  let packetWriter := OpenDatabasePacket.write openDatabasePacket new_PacketWriter in
  _ ← socket_write packetWriter;
  _ ← on_data (on_login openDatabasePacket callback);
  mret tt.

(** The listener of [_doDatabaseLogin], once the frame is complete.  The
    value that [parse] returns is dropped.  The connection reads
    [errorCode] and [errorMsg] from the packet, and the decoder of
    [OpenDatabasePacket.js] assigns neither: both are [undefined],
    [errorCode !== 0] holds for every response, and the session id and the
    auto-commit mode are never taken from the response. *)
Definition login_complete (openDatabasePacket : OpenDatabasePacket.t) (callback : Callback)
    (responseData : list Z) : M unit :=
  match OpenDatabasePacket.parse openDatabasePacket (new_PacketReader responseData) with
  | None => throw MalformedFrame
  | Some (openDatabasePacket, _, _) =>
      let casInfo := default [] (OpenDatabasePacket.casInfo openDatabasePacket) in
      _ ← modify (set__CASInfo casInfo);
      let errorCode : option Z := None in   (* openDatabasePacket.errorCode *)
      let err :=
        match errorCode with
        | Some code => error_of_code JsNull code None
        | None => JsErr Error_undefined
        end in
      _ ← (if is_error err then mret tt
           else
             _ ← modify (set_sessionId
                           (default 0 (OpenDatabasePacket.sessionId openDatabasePacket)));
             modify (set_autoCommitMode
                       (JsBool (negb (Z.land (default 0 (casInfo !! 3%nat)) 1 =? 0)))));
      call callback [err]
  end.

Definition connect (callback : Callback) : M unit :=
  self ← get;
  if connectionPending self then
    let err := JsErr (Error_of ERROR_CONNECTION_ALREADY_PENDING) in
    _ ← _emitEvent err (Some EVENT_ERROR) None [];
    if_function callback [err]
  else
    _ ← modify (set_connectionPending true);
    enqueue [act_getBrokerPort; act_databaseLogin] (cb_connect callback).

Definition query (sql : string) (callback : UserCallback) : M unit :=
  self ← get;
  if queryPending self then
    let err := JsErr (Error_of ERROR_QUERY_ALREADY_PENDING) in
    _ ← _emitEvent err (Some EVENT_ERROR) None [];
    invoke_user callback [err]
  else if negb (_validateInputSQLString sql) then
    _ ← _emitEvent (JsErr (Error_of ERROR_INPUT_VALIDATION)) (Some EVENT_ERROR) None [];
    invoke_user callback [JsNull]
  else
    _ ← modify (set_queryPending true);
    enqueue [act_ensureConnected; act_executeQuery sql callback] (cb_query callback).

(** The second function of [query]. *)
Definition executeQuery (sql : string) (callback : UserCallback) (cb : Callback) : M unit :=
  self ← get;
  if match _queryCache self with
     | Some cache => Cache_contains sql cache
     | None => false
     end
  then
    let cached := Cache_get sql (default ∅ (_queryCache self)) in
    _ ← modify (set_queryPending false);
    _ ← _emitEvent JsNull None (Some EVENT_QUERY_DATA_AVAILABLE) [cached; JsNull];
    invoke_user callback [JsNull; cached; JsNull]
  else
    let packetWriter :=
      ExecuteQueryPacket_write sql (_CASInfo self) (autoCommitMode self) new_PacketWriter in
    _ ← socket_write packetWriter;
    _ ← on_data (on_query sql cb);
    mret tt.

(** The listener of [query], once the frame is complete. *)
Definition query_complete (sql : string) (cb : Callback) (responseData : list Z) : M unit :=
  match ExecuteQueryPacket_parse (new_PacketReader responseData) with
  | None => throw MalformedFrame
  | Some ((executeQueryPacket, result), _) =>
      let errorCode := ExecuteQueryPacket.errorCode executeQueryPacket in
      let errorMsg := ExecuteQueryPacket.errorMsg executeQueryPacket in
      let err := error_of_code JsNull errorCode errorMsg in
      _ ← (if negb (errorCode =? 0) then mret tt
           else modify (fun self =>
                  set__queriesHandleList (_queriesHandleList self ++ [executeQueryPacket]) self));
      if is_function cb then
        _ ← (if is_error err then modify (set_queryPending false)
             else modify (fun self =>
                    match _queryCache self with
                    | Some cache => set__queryCache (Some (Cache_getSet sql result cache)) self
                    | None => self
                    end));
        call cb [err; result; JsNum (ExecuteQueryPacket.handle executeQueryPacket)]
      else mret tt
  end.

Definition fetch (queryHandle : Z) (callback : UserCallback) : M unit :=
  id ← on_data (on_fetch None callback);
  self ← get;
  match list_find (fun q => ExecuteQueryPacket.handle q = queryHandle)
                  (_queriesHandleList self) with
  | None =>
      let err := JsErr (Error_of ERROR_NO_ACTIVE_QUERY) in
      _ ← removeAllListeners;
      _ ← _emitEvent err (Some EVENT_ERROR) None [];
      invoke_user callback [err; JsNull]
  | Some (i, q) =>
      if bool_decide (ExecuteQueryPacket.currentTupleCount q
                      = ExecuteQueryPacket.totalTupleCount q)
      then
        _ ← removeAllListeners;
        _ ← _emitEvent JsNull None (Some EVENT_FETCH_NO_MORE_DATA_AVAILABLE) [];
        invoke_user callback [JsNull; JsNull]
      else
        let fetchPacket := FetchPacket.new (_CASInfo self) in
        let packetWriter := FetchPacket.write fetchPacket new_PacketWriter q in
        _ ← store_listener id
              {| kind := on_fetch (Some (fetchPacket, i)) callback; responseData := [];
                 expectedResponseLength := _INVALID_RESPONSE_LENGTH |};
        socket_write packetWriter
  end.

(** The listener of [fetch], once the frame is complete.  Without a fetch
    packet the call of its [parse] fails.  When the handle at [i] has been
    closed in the meantime, [parse] is called with [undefined]: a response
    with an error is decoded all the same and the handle list stays as it
    is, a response with rows fails on [_getData]. *)
Definition fetch_complete (fetchPacket : option (FetchPacket.t * nat))
    (callback : UserCallback) (responseData : list Z) : M unit :=
  match fetchPacket with
  | None => throw TypeError
  | Some (fetchPacket, i) =>
      self ← get;
      match _queriesHandleList self !! i with
      | None =>
          match FetchPacket.parse_undefined_handle fetchPacket
                  (new_PacketReader responseData) with
          | None => throw MalformedFrame
          | Some (None, _) => throw TypeError
          | Some (Some fetchPacket, _) =>
              let err := error_of_code JsNull (FetchPacket.errorCode fetchPacket)
                                       (FetchPacket.errorMsg fetchPacket) in
              _ ← _emitEvent err (Some EVENT_ERROR) (Some EVENT_FETCH_DATA_AVAILABLE)
                    [JsUndefined];
              invoke_user callback [err; JsUndefined]
          end
      | Some q =>
          match FetchPacket.parse fetchPacket q (new_PacketReader responseData) with
          | None => throw MalformedFrame
          | Some ((fetchPacket, returned, q'), _) =>
              let result := default JsUndefined returned in
              _ ← modify (set__queriesHandleList (<[i := q']> (_queriesHandleList self)));
              let err := error_of_code JsNull (FetchPacket.errorCode fetchPacket)
                                       (FetchPacket.errorMsg fetchPacket) in
              _ ← _emitEvent err (Some EVENT_ERROR) (Some EVENT_FETCH_DATA_AVAILABLE) [result];
              invoke_user callback [err; result]
          end
      end
  end.

(** [parse] of an acknowledgement, on the chunk a listener was called with. *)
Definition parse_ack (data : list Z) : M AckPacket.t :=
  match AckPacket.parse (new_PacketReader data) with
  | None => throw MalformedFrame
  | Some (packet, _) => mret packet
  end.

Definition ack_error (packet : AckPacket.t) : JsVal :=
  error_of_code JsNull (AckPacket.errorCode packet) (AckPacket.errorMsg packet).

Definition closeQuery (queryHandle : Z) (callback : Callback) : M unit :=
  if negb (_validateInputTimeout queryHandle) then
    _ ← _emitEvent (JsErr (Error_of ERROR_INPUT_VALIDATION)) (Some EVENT_ERROR) None [];
    if_function callback [JsNull]
  else
    _ ← modify (set_queryPending false);
    self ← get;
    let packetWriter :=
      AckPacket.CloseQueryPacket_write (_CASInfo self) queryHandle new_PacketWriter in
    _ ← match list_find (fun q => ExecuteQueryPacket.handle q = queryHandle)
                        (_queriesHandleList self) with
        | Some (i, _) => modify (set__queriesHandleList (delete i (_queriesHandleList self)))
        | None => mret tt
        end;
    _ ← socket_write packetWriter;
    _ ← on_data (on_closeQuery queryHandle callback);
    mret tt.

Definition closeQuery_complete (queryHandle : Z) (callback : Callback) (data : list Z)
  : M unit :=
  packet ← parse_ack data;
  let err := ack_error packet in
  _ ← _emitEvent err (Some EVENT_ERROR) (Some EVENT_QUERY_CLOSED) [JsNum queryHandle];
  if_function callback [err].

(** Modelled from the spec: [ActionQueue.while] is not among the sources.
    The session closes all open query handles one after the other; the
    loop ends when the test fails.  What it does when an iteration reports
    an error is the parameter [while_ends_at_error], read where the
    iteration calls back ([cb_whileNext]). *)
Definition while_handles (callback : Callback) : M unit :=
  self ← get;
  match _queriesHandleList self with
  | q :: _ => closeQuery (ExecuteQueryPacket.handle q) (cb_whileNext callback)
  | [] => call callback []
  end.

Definition closeDatabase (cb : Callback) : M unit :=
  self ← get;
  let packetWriter := AckPacket.CloseDatabasePacket_write (_CASInfo self) new_PacketWriter in
  _ ← socket_write packetWriter;
  _ ← on_data (on_closeDatabase cb);
  mret tt.

Definition closeDatabase_complete (cb : Callback) (data : list Z) : M unit :=
  packet ← parse_ack data;
  _ ← tell [SocketDestroy];
  if_function cb [ack_error packet].

Definition close (callback : UserCallback) : M unit :=
  _ ← modify (set_queryPending false);
  _ ← modify (set_connectionPending false);
  _ ← modify (set_connectionOpened false);
  enqueue [act_closeHandles; act_closeDatabase] (cb_close callback).

Definition _toggleAutoCommitMode (autoCommitMode' : JsVal) (callback : Callback) : M unit :=
  if negb (_validateInputBoolean autoCommitMode') then
    _ ← _emitEvent (JsErr (Error_of ERROR_INPUT_VALIDATION)) (Some EVENT_ERROR) None [];
    if_function callback [JsNull]
  else
    self ← get;
    if js_strict_eq (autoCommitMode self) autoCommitMode' && is_function callback then
      call callback [JsNull]
    else
      let packetWriter :=
        AckPacket.SetAutoCommitModePacket_write (_CASInfo self) autoCommitMode'
                                                new_PacketWriter in
      _ ← socket_write packetWriter;
      _ ← on_data (on_toggle autoCommitMode' callback);
      mret tt.

Definition toggle_complete (autoCommitMode' : JsVal) (callback : Callback) (data : list Z)
  : M unit :=
  packet ← parse_ack data;
  let err := ack_error packet in
  _ ← (if negb (AckPacket.errorCode packet =? 0) then mret tt
       else modify (set_autoCommitMode autoCommitMode'));
  if_function callback [err].

Definition beginTransaction (callback : UserCallback) : M unit :=
  _toggleAutoCommitMode (JsBool false) (cb_beginTransaction callback).

Definition setAutoCommitMode (autoCommitMode' : JsVal) (callback : UserCallback) : M unit :=
  _toggleAutoCommitMode autoCommitMode' (cb_setAutoCommitMode callback).

Definition rollback (callback : UserCallback) : M unit :=
  self ← get;
  let sent := js_strict_eq (autoCommitMode self) (JsBool false) in
  _ ← (if sent then
         let packetWriter := AckPacket.RollbackPacket_write (_CASInfo self) new_PacketWriter in
         socket_write packetWriter
       else
         _ ← removeAllListeners;
         _ ← _emitEvent JsNull (Some EVENT_ERROR) None [];
         invoke_user callback [JsNull]);
  _ ← on_data (on_rollback sent callback);
  mret tt.

Definition commit (callback : UserCallback) : M unit :=
  self ← get;
  let sent := js_strict_eq (autoCommitMode self) (JsBool false) in
  _ ← (if sent then
         let packetWriter := AckPacket.CommitPacket_write (_CASInfo self) new_PacketWriter in
         socket_write packetWriter
       else
         _ ← removeAllListeners;
         _ ← _emitEvent JsNull (Some EVENT_ERROR) None [];
         invoke_user callback [JsNull]);
  _ ← on_data (on_commit sent callback);
  mret tt.

(** The listeners of [rollback] and [commit], once the frame is complete.
    The packet exists only when the request has been sent; the call of
    [parse] fails otherwise. *)
Definition end_tran_complete (packet_defined : bool) (successEvent : string)
    (callback : UserCallback) (data : list Z) : M unit :=
  if packet_defined then
    packet ← parse_ack data;
    let err := ack_error packet in
    _ ← _emitEvent err (Some EVENT_ERROR) (Some successEvent) [];
    invoke_user callback [err]
  else throw TypeError.

(** What the listeners share: the chunk is appended to [responseData], the
    expected length is read once four bytes are there, and the frame is
    complete when the lengths agree; the listeners are removed then.
    Yields the assembled bytes of a complete frame. *)
Definition receive (id : nat) (l : DataListener) (data : list Z) : M (option (list Z)) :=
  let responseData' := _combineData (responseData l) data in
  let expectedResponseLength' :=
    if bool_decide (expectedResponseLength l = _INVALID_RESPONSE_LENGTH)
       && bool_decide (DATA_TYPES.DATA_LENGTH_SIZEOF <= Z.of_nat (length responseData'))
    then _getExpectedResponseLength responseData'
    else expectedResponseLength l in
  _ ← store_listener id {| kind := kind l; responseData := responseData';
                           expectedResponseLength := expectedResponseLength' |};
  if bool_decide (Z.of_nat (length responseData') = expectedResponseLength') then
    _ ← removeAllListeners; mret (Some responseData')
  else mret None.

(** A listener is called with a chunk.  The listener of
    [_doGetBrokerPort] is registered with [once]. *)
Definition listener_data (data : list Z) (entry : nat * DataListener) : M unit :=
  let '(id, l) := entry in
  match kind l with
  | on_brokerPort callback =>
      _ ← removeListener id; brokerPort_data callback data
  | k =>
      complete ← receive id l data;
      match complete with
      | None => mret tt
      | Some responseData' =>
          match k with
          | on_brokerPort callback => mret tt
          | on_login packet callback => login_complete packet callback responseData'
          | on_query sql cb => query_complete sql cb responseData'
          | on_fetch fetchPacket callback => fetch_complete fetchPacket callback responseData'
          | on_closeQuery queryHandle callback => closeQuery_complete queryHandle callback data
          | on_closeDatabase cb => closeDatabase_complete cb data
          | on_rollback packet callback =>
              end_tran_complete packet EVENT_ROLLBACK_COMPLETED callback data
          | on_commit packet callback =>
              end_tran_complete packet EVENT_COMMIT_COMPLETED callback data
          | on_toggle autoCommitMode' callback => toggle_complete autoCommitMode' callback data
          end
      end
  end.

Fixpoint for_each {A} (f : A -> M unit) (l : list A) : M unit :=
  match l with
  | [] => mret tt
  | x :: l' => _ ← f x; for_each f l'
  end.

(** The socket receives a chunk: the listeners registered at that moment
    are called in the order of their registration. *)
Definition socket_data (data : list Z) : M unit :=
  self ← get;
  for_each (listener_data data) (dataListeners (_socket self)).

(** An action of a queue is started with its [cb]. *)
Definition run_action (a : Action) (cb : Callback) : M unit :=
  match a with
  | act_getBrokerPort => _doGetBrokerPort cb
  | act_databaseLogin => _doDatabaseLogin cb
  | act_ensureConnected =>
      self ← get;
      if negb (connectionOpened self) then connect cb else call cb []
  | act_executeQuery sql callback => executeQuery sql callback cb
  | act_closeHandles => while_handles (cb_closeHandlesDone cb)
  | act_closeDatabase => closeDatabase cb
  end.

(** A function of [Callback] is called with [args]. *)
Definition call_body (callback : Callback) (args : list JsVal) : M unit :=
  let err := arg 0 args in
  match callback with
  | cb_user (Some id) => tell [Invoke id args]
  | cb_user None => throw TypeError
  | cb_next rest final =>
      if is_error err then call final args
      else match rest with
           | a :: rest' => run_action a (cb_next rest' final)
           | [] => call final args
           end
  | cb_connect callback' =>
      _ ← modify (set_queryPending false);
      _ ← modify (set_connectionPending false);
      _ ← modify (set_connectionOpened (negb (is_error err)));
      _ ← _emitEvent err (Some EVENT_ERROR) (Some EVENT_CONNECTED) [];
      if_function callback' [err]
  | cb_query callback' =>
      let result := arg 1 args in
      let handle := arg 2 args in
      _ ← (if is_error err then modify (set_queryPending false) else mret tt);
      _ ← _emitEvent err (Some EVENT_ERROR) (Some EVENT_QUERY_DATA_AVAILABLE) [result; handle];
      invoke_user callback' [err; result; handle]
  | cb_close callback' =>
      _ ← _emitEvent err (Some EVENT_ERROR) (Some EVENT_CONNECTION_CLOSED) [];
      invoke_user callback' [err]
  | cb_whileNext final =>
      if is_error err && while_ends_at_error then call final [err] else while_handles final
  | cb_closeHandlesDone cb =>
      _ ← (if is_error err then tell [LogError ERROR_ON_CLOSE_QUERY_HANDLE err] else mret tt);
      call cb []
  | cb_beginTransaction callback' =>
      _ ← _emitEvent err (Some EVENT_ERROR) (Some EVENT_BEGIN_TRANSACTION) [];
      invoke_user callback' [err]
  | cb_setAutoCommitMode callback' =>
      _ ← _emitEvent err (Some EVENT_ERROR) (Some EVENT_SET_AUTOCOMMIT_MODE_COMPLETED) [];
      invoke_user callback' [err]
  end.
End methods.

(** Calls nest only as deep as the queues are long, but for the loop of
    [close]; [fuel] bounds the depth. *)
Fixpoint call `{Collaborators} (fuel : nat) (callback : Callback) (args : list JsVal)
  : M unit :=
  match fuel with
  | O => out_of_fuel
  | S fuel' => call_body (call fuel') callback args
  end.

(** The effect of [invoke_user]. *)
Definition invoked (callback : UserCallback) (args : list JsVal) : list Effect :=
  match callback with
  | Some id => [Invoke id args]
  | None => []
  end.

(** ** Properties of frames and flags *)

(** The declared length of a frame and the number of body bytes that follow
    its CAS info. *)
Definition length_field (frame : list Z) : Z := be_u32 (take 4 frame).
Definition body_bytes (frame : list Z) : Z :=
  Z.of_nat (length frame) - DATA_TYPES.DATA_LENGTH_SIZEOF - DATA_TYPES.CAS_INFO_SIZE.
Definition length_counts_body (frame : list Z) : Prop :=
  length_field frame = body_bytes frame.

Definition int32 (v : Z) : Prop := -2147483648 <= v < 2147483648.
Definition is_byte (b : Z) : Prop := 0 <= b < 256.

(** At most one of [connectionPending] and [queryPending] is true. *)
Definition at_most_one_pending (self : CUBRIDConnection) : Prop :=
  ~ (connectionPending self = true /\ queryPending self = true).

(** One method after the other: the effects add up. *)
Definition and_then {A B} (r : Outcome A * CUBRIDConnection * list Effect) (m : M B)
  : Outcome B * CUBRIDConnection * list Effect :=
  let '(o, self, out) := m (state_of r) in (o, self, effects_of r ++ out).


(** The frame of a listener is complete with the chunk [data]. *)
Definition frame_complete (l : DataListener) (data : list Z) : Prop :=
  let responseData' := _combineData (responseData l) data in
  Z.of_nat (length responseData')
  = if bool_decide (expectedResponseLength l = _INVALID_RESPONSE_LENGTH)
       && bool_decide (DATA_TYPES.DATA_LENGTH_SIZEOF <= Z.of_nat (length responseData'))
    then _getExpectedResponseLength responseData'
    else expectedResponseLength l.

(** The requests read back with the primitive parsers of the reader, in the
    order in which the encoders write: the three fixed-length strings of the
    open-database request, and the length, CAS info, function code, server
    handle, start position, fetch size, case-sensitivity byte and result-set
    index of the fetch request. *)
Definition read_open_database_request : Parser (list Z * list Z * list Z) :=
  database ← _parseBytes 32;
  user ← _parseBytes 32;
  password ← _parseBytes 32;
  _ ← _parseBytes 512;
  _ ← _parseBytes 20;
  mret (database, user, password).

Definition read_fetch_request : Parser (Z * list Z * Z * Z * Z * Z * Z * Z) :=
  len ← _parseInt;
  casInfo ← _parseBytes DATA_TYPES.CAS_INFO_SIZE;
  functionCode ← _parseByte;
  _ ← _parseInt; handle ← _parseInt;
  _ ← _parseInt; start ← _parseInt;
  _ ← _parseInt; fetchSize ← _parseInt;
  _ ← _parseInt; caseSensitive ← _parseByte;
  _ ← _parseInt; resultSetIndex ← _parseInt;
  mret (len, casInfo, functionCode, handle, start, fetchSize, caseSensitive, resultSetIndex).

(** A method keeps a property of the connection. *)
Definition keeps (P : CUBRIDConnection -> Prop) {A} (m : M A) : Prop :=
  forall self, P self -> P (state_of (m self)).

Definition not_query_pending (self : CUBRIDConnection) : Prop := queryPending self = false.

(** ** A reference instantiation *)

(** Values for what the sources leave out, for runs on concrete inputs: the
    close-database function code of the spec's first scenario, validators
    that reject the empty text, negative handles and non-booleans, and an
    execute-query response that carries the server handle in its response
    code, followed by the total and the current tuple count. *)
Definition reference_execute_parse : Parser (QueryHandle * JsVal) :=
  responseLength ← _parseInt;
  _ ← _parseBytes DATA_TYPES.CAS_INFO_SIZE;
  responseCode ← _parseInt;
  if responseCode <? 0 then
    '(errorCode, errorMsg) ← readError responseLength;
    mret ({| ExecuteQueryPacket.errorCode := errorCode;
             ExecuteQueryPacket.errorMsg := errorMsg;
             ExecuteQueryPacket.handle := 0;
             ExecuteQueryPacket.currentTupleCount := 0;
             ExecuteQueryPacket.totalTupleCount := 0 |}, JsUndefined)
  else
    total ← _parseInt;
    current ← _parseInt;
    mret ({| ExecuteQueryPacket.errorCode := 0;
             ExecuteQueryPacket.errorMsg := Some EmptyString;
             ExecuteQueryPacket.handle := responseCode;
             ExecuteQueryPacket.currentTupleCount := current;
             ExecuteQueryPacket.totalTupleCount := total |}, JsStr "rows").

Definition reference : Collaborators := {|
  CAS_FC_FETCH := 8;
  CAS_FC_CON_CLOSE := 7;
  CAS_FC_COMMIT := 1;
  CAS_FC_ROLLBACK := 2;
  CAS_FC_CLOSE_QUERY := 6;
  CAS_FC_SET_AUTOCOMMIT := 5;
  getProtocolVersion := fun b => Z.land b 63;
  _validateInputSQLString := fun sql => negb (String.eqb sql "");
  _validateInputTimeout := fun h => 0 <=? h;
  _validateInputBoolean := fun v => match v with JsBool _ => true | _ => false end;
  ClientInfoExchangePacket_write := put (bytes_of_string "CUBRK");
  ExecuteQueryPacket_write := fun sql casInfo autoCommitMode => put (bytes_of_string sql);
  ExecuteQueryPacket_parse := reference_execute_parse;
  _getData := fun q tupleCount => mret ("[]"%string, q);
  while_ends_at_error := true
|}.

(** A connection as the constructor leaves it, and one that is open. *)
Definition fresh : CUBRIDConnection :=
  new_CUBRIDConnection None None None None None None.

Definition handle42 : QueryHandle :=
  {| ExecuteQueryPacket.errorCode := 0;
     ExecuteQueryPacket.errorMsg := Some EmptyString;
     ExecuteQueryPacket.handle := 42;
     ExecuteQueryPacket.currentTupleCount := 100;
     ExecuteQueryPacket.totalTupleCount := 250 |}.

Definition handle42_done : QueryHandle :=
  {| ExecuteQueryPacket.errorCode := 0;
     ExecuteQueryPacket.errorMsg := Some EmptyString;
     ExecuteQueryPacket.handle := 42;
     ExecuteQueryPacket.currentTupleCount := 250;
     ExecuteQueryPacket.totalTupleCount := 250 |}.

Definition opened (mode : JsVal) (handles : list QueryHandle) : CUBRIDConnection :=
  set__queriesHandleList handles
    (set_autoCommitMode mode
       (set_sessionId 3 (set_connectionOpened true fresh))).

(** The response vectors of the spec's scenarios, a well-framed login
    response, a broker reply with port 32768, an execute response with
    handle 42, 250 tuples and 100 of them in the first page, and
    acknowledgements. *)
Definition close_database_response : list Z :=
  [0; 0; 0; 0;  0; 255; 255; 255;  0; 0; 0; 0].
Definition open_database_response : list Z :=
  [0; 0; 0; 15;  0; 255; 255; 255;  0; 0; 0; 0;  5; 5; 5; 5; 5; 5; 5; 5;  0; 0; 0; 3].
Definition login_response : list Z :=
  [0; 0; 0; 16;  0; 255; 255; 255;  0; 0; 0; 0;  5; 5; 5; 5; 5; 5; 5; 5;  0; 0; 0; 3].
Definition broker_port_response : list Z := [0; 0; 128; 0].
Definition execute_response : list Z :=
  [0; 0; 0; 12;  0; 255; 255; 255;  0; 0; 0; 42;  0; 0; 0; 250;  0; 0; 0; 100].
Definition ack_response : list Z :=
  [0; 0; 0; 4;  0; 255; 255; 255;  0; 0; 0; 0].
Definition no_more_data_response : list Z :=
  [0; 0; 0; 9;  0; 255; 255; 255;  255; 255; 255; 255;  255; 255; 252; 12;  0].

Definition test_options : OpenDatabasePacket.options :=
  {| OpenDatabasePacket.database := "manager_master";
     OpenDatabasePacket.user := "nsight";
     OpenDatabasePacket.password := "ns0)3#ht" |}.

(** ** Further runs and frames *)

(** The socket receives the chunks one after the other. *)
Fixpoint socket_chunks `{Collaborators} (fuel : nat) (chunks : list (list Z)) : M unit :=
  match chunks with
  | [] => mret tt
  | data :: chunks' => _ ← socket_data (call fuel) data; socket_chunks fuel chunks'
  end.

(** Frames as the server sends them: the open-database response, a response
    with a negative code and its error tail, and an acknowledgement. *)
Definition open_database_frame (casInfo : list Z) (responseCode : Z) (brokerInfo : list Z)
    (sessionId' : Z) : list Z :=
  int32_bytes 16 ++ casInfo ++ int32_bytes responseCode ++ brokerInfo
    ++ int32_bytes sessionId'.

Definition error_frame (casInfo : list Z) (responseCode errorCode : Z) (msg : string)
  : list Z :=
  int32_bytes (8 + Z.of_nat (String.length msg) + 1) ++ casInfo
    ++ int32_bytes responseCode ++ int32_bytes errorCode ++ bytes_of_string msg ++ [0].

(** A listener as [on('data', ...)] registers it. *)
Definition fresh_listener (k : ListenerKind) : DataListener :=
  {| kind := k; responseData := []; expectedResponseLength := _INVALID_RESPONSE_LENGTH |}.

(** The variables of a listener's closure agree with the bytes it has
    received: the expected length is unset while fewer than four bytes are
    there, and from the fourth byte on it is the length that the first
    four bytes give. *)
Definition listener_framed (l : DataListener) : Prop :=
  (expectedResponseLength l = _INVALID_RESPONSE_LENGTH
   /\ Z.of_nat (length (responseData l)) < DATA_TYPES.DATA_LENGTH_SIZEOF)
  \/ (DATA_TYPES.DATA_LENGTH_SIZEOF <= Z.of_nat (length (responseData l))
      /\ expectedResponseLength l = _getExpectedResponseLength (responseData l)).

(** The chunk [data] is a whole frame for a listener that has received
    nothing yet. *)
Definition whole_frame (data : list Z) : Prop :=
  DATA_TYPES.DATA_LENGTH_SIZEOF <= Z.of_nat (length data)
  /\ Z.of_nat (length data) = _getExpectedResponseLength data.

(** The connection once [removeAllListeners('data')] has run. *)
Definition without_listeners (self : CUBRIDConnection) : CUBRIDConnection :=
  set__socket {| dataListeners := [] |} (registered self) self.

(** The handles of the list other than [queryHandle], and those equal to it. *)
Definition other_handles (queryHandle : Z) (l : list QueryHandle) : list QueryHandle :=
  filter (fun q => ExecuteQueryPacket.handle q ≠ queryHandle) l.
Definition same_handles (queryHandle : Z) (l : list QueryHandle) : list QueryHandle :=
  filter (fun q => ExecuteQueryPacket.handle q = queryHandle) l.

(** A complete acknowledgement that reports no error. *)
Definition acknowledged (data : list Z) : Prop :=
  whole_frame data
  /\ exists packet rd,
       AckPacket.parse (new_PacketReader data) = Some (packet, rd)
       /\ AckPacket.errorCode packet = 0.

(** What [close] writes and emits while every request is acknowledged: a
    close-query request for each handle, in the order of the list, each
    followed by its event, and then the close-database request. *)
Fixpoint close_trace `{Collaborators} (casInfo : list Z) (handles : list QueryHandle)
  : list Effect :=
  match handles with
  | [] => [SocketWrite (_buffer (AckPacket.CloseDatabasePacket_write casInfo new_PacketWriter))]
  | q :: handles' =>
      SocketWrite (_buffer (AckPacket.CloseQueryPacket_write
                              casInfo (ExecuteQueryPacket.handle q) new_PacketWriter))
      :: Emit EVENT_QUERY_CLOSED [JsNum (ExecuteQueryPacket.handle q)]
      :: close_trace casInfo handles'
  end.

(** The listeners that decode the assembled bytes of a frame: those of the
    login, of [query] and of [fetch].  The others decode the last chunk. *)
Definition decodes_assembled (k : ListenerKind) : Prop :=
  match k with
  | on_login _ _ | on_query _ _ | on_fetch _ _ => True
  | _ => False
  end.

(** The listener of kind [k] once it has received the bytes [acc] of the
    frame [frame]: the expected length is known from the fourth byte on. *)
Definition listener_at (k : ListenerKind) (frame acc : list Z) : DataListener :=
  {| kind := k; responseData := acc;
     expectedResponseLength :=
       if bool_decide (DATA_TYPES.DATA_LENGTH_SIZEOF <= Z.of_nat (length acc))
       then Z.of_nat (length frame) else _INVALID_RESPONSE_LENGTH |}.

(** ** [batchExecuteNoQuery], up to its queue *)

Definition EVENT_BATCH_COMMANDS_COMPLETED : string := "batch execute done".

(** The statements of a call: an array ([inl]), or one statement ([inr]),
    which [new Array(sqls)] wraps. *)
Definition statements (sqls : list string + string) : list string :=
  match sqls with
  | inl sqlsArr => sqlsArr
  | inr sql => [sql]
  end.

(** The part of [batchExecuteNoQuery] that runs before
    [ActionQueue.enqueue]: the empty array completes at once, and the loop
    over the statements returns at the first one that fails validation.
    Yields the array that goes to the queue, or nothing when the method has
    returned.  The queue of the method, with the batch packet, is not
    modelled. *)
Definition batchExecuteNoQuery_checks `{Collaborators} (sqls : list string + string)
    (callback : UserCallback) : M (option (list string)) :=
  match sqls with
  | inl [] =>
      _ ← _emitEvent JsNull None (Some EVENT_BATCH_COMMANDS_COMPLETED) [];
      _ ← invoke_user callback [JsNull];
      mret None
  | _ =>
      let sqlsArr := statements sqls in
      if forallb _validateInputSQLString sqlsArr then mret (Some sqlsArr)
      else
        let err := JsErr (Error_of ERROR_INPUT_VALIDATION) in
        _ ← _emitEvent err (Some EVENT_ERROR) None [];
        _ ← invoke_user callback [err];
        mret None
  end.

(** ** Further reference values *)

(** An open connection with a query cache that holds one result, a response
    to a fetch request with a tuple count of 100, and an execute response
    cut into four chunks. *)
Definition cached : CUBRIDConnection :=
  set__queryCache (Some {[ "SELECT 1"%string := JsStr "rows" ]}) (opened (JsBool true) []).

Definition fetch_response_frame : list Z :=
  [0; 0; 0; 8;  0; 255; 255; 255;  0; 0; 0; 0;  0; 0; 0; 100].

Definition execute_response_chunks : list (list Z) :=
  [[0; 0]; [0; 12; 0; 255; 255]; [255; 0; 0; 0; 42; 0; 0; 0]].
Definition execute_response_last : list Z := [250; 0; 0; 0; 100].

(** * Properties *)

(** ** The primitives of the codec *)

Lemma be_u32_int32_bytes (v : Z) : be_u32 (int32_bytes v) = v mod 4294967296.
Proof.
  unfold be_u32, int32_bytes; simpl.
  change 255 with (Z.ones 8).
  rewrite !Z.land_ones, !Z.shiftr_div_pow2 by lia.
  change (2 ^ 8) with 256. change (2 ^ 24) with (256 * 256 * 256).
  change (2 ^ 16) with (256 * 256).
  change 4294967296 with (256 * (256 * (256 * 256))).
  rewrite (Z.rem_mul_r v 256 (256 * (256 * 256))) by lia.
  rewrite (Z.rem_mul_r (v / 256) 256 (256 * 256)) by lia.
  rewrite (Z.rem_mul_r (v / 256 / 256) 256 256) by lia.
  rewrite <- !Z.div_div by lia.
  ring.
Qed.

Lemma to_int32_mod (v : Z) : int32 v -> to_int32 (v mod 4294967296) = v.
Proof.
  unfold int32, to_int32. intros Hv.
  destruct (Z.testbit (v mod 4294967296) 31) eqn:Hb.
  - apply Z.testbit_true in Hb; [|lia].
    change (2 ^ 31) with 2147483648 in Hb.
    destruct (Z_lt_le_dec v 0) as [Hneg|Hpos].
    + rewrite <- (Z.mod_add v 1 4294967296) by lia.
      rewrite Z.mod_small by lia. lia.
    + rewrite (Z.mod_small v 4294967296) in Hb by lia.
      rewrite Z.div_small in Hb by lia. discriminate.
  - apply Z.testbit_false in Hb; [|lia].
    change (2 ^ 31) with 2147483648 in Hb.
    destruct (Z_lt_le_dec v 0) as [Hneg|Hpos].
    + rewrite <- (Z.mod_add v 1 4294967296) in Hb by lia.
      rewrite (Z.mod_small (v + 1 * 4294967296)) in Hb by lia.
      assert ((v + 1 * 4294967296) / 2147483648 = 1) as Hd by
        (symmetry; apply (Z.div_unique _ _ 1 (v + 2147483648)); lia).
      rewrite Hd in Hb. discriminate.
    + apply Z.mod_small. lia.
Qed.

(** What [_writeInt] writes reads back as the same 32-bit integer. *)
Lemma int32_roundtrip (v : Z) : int32 v -> to_int32 (be_u32 (int32_bytes v)) = v.
Proof. intros. rewrite be_u32_int32_bytes. by apply to_int32_mod. Qed.

Lemma parseBytes_remaining (n : Z) (r : PacketReader) (bs rest : list Z) :
  remaining r = bs ++ rest ->
  length bs = Z.to_nat n ->
  exists r', _parseBytes n r = Some (bs, r') /\ remaining r' = rest.
Proof.
  unfold remaining, _parseBytes. intros Hr Hn.
  rewrite Hr, <- Hn, take_app_length.
  rewrite bool_decide_eq_true_2 by done.
  eexists; split; [reflexivity|]. cbn.
  by rewrite <- drop_drop, Hr, drop_app_length.
Qed.

Lemma parseInt_remaining (v : Z) (r : PacketReader) (rest : list Z) :
  remaining r = int32_bytes v ++ rest ->
  int32 v ->
  exists r', _parseInt r = Some (v, r') /\ remaining r' = rest.
Proof.
  intros Hr Hv.
  destruct (parseBytes_remaining DATA_TYPES.INT_SIZEOF r _ _ Hr eq_refl) as (r' & Hp & Hr').
  exists r'. split; [|done].
  unfold _parseInt, mbind, Parser_bind, mret, Parser_ret. rewrite Hp.
  by rewrite int32_roundtrip.
Qed.

Lemma parseByte_remaining (b : Z) (r : PacketReader) (rest : list Z) :
  remaining r = b :: rest ->
  exists r', _parseByte r = Some (b, r') /\ remaining r' = rest.
Proof.
  intros Hr.
  destruct (parseBytes_remaining DATA_TYPES.BYTE_SIZEOF r [b] rest Hr eq_refl)
    as (r' & Hp & Hr').
  exists r'. split; [|done].
  unfold _parseByte, mbind, Parser_bind, mret, Parser_ret. by rewrite Hp.
Qed.

Lemma string_of_bytes_of_string (s : string) : string_of_bytes (bytes_of_string s) = s.
Proof.
  unfold string_of_bytes, bytes_of_string.
  rewrite <- list_fmap_compose.
  rewrite <- (string_of_list_ascii_of_string s) at 2. f_equal.
  induction (list_ascii_of_string s) as [|c l IH]; [done|].
  cbn. rewrite IH. f_equal.
  by rewrite Nat2Z.id, ascii_nat_embedding.
Qed.

Lemma length_bytes_of_string (s : string) : length (bytes_of_string s) = String.length s.
Proof.
  unfold bytes_of_string. rewrite length_fmap.
  induction s as [|c s IH]; [done|]. cbn. by rewrite IH.
Qed.

Lemma parseNullTerminatedString_remaining (msg : string) (t : Z) (r : PacketReader)
    (rest : list Z) :
  remaining r = bytes_of_string msg ++ t :: rest ->
  exists r', _parseNullTerminatedString (Z.of_nat (String.length msg) + 1) r = Some (msg, r')
             /\ remaining r' = rest.
Proof.
  intros Hr. unfold _parseNullTerminatedString.
  destruct (Z.leb_spec (Z.of_nat (String.length msg) + 1) 0) as [Hle|Hle]; [lia|].
  destruct (parseBytes_remaining (Z.of_nat (String.length msg) + 1 - 1) r _ _ Hr)
    as (r1 & Hp1 & Hr1).
  { rewrite length_bytes_of_string. lia. }
  destruct (parseByte_remaining t r1 rest Hr1) as (r2 & Hp2 & Hr2).
  exists r2. split; [|done].
  unfold mbind, Parser_bind, mret, Parser_ret. rewrite Hp1, Hp2.
  by rewrite string_of_bytes_of_string.
Qed.

(** ** Running the methods *)

Ltac run_M :=
  repeat (progress (unfold mbind, mret, M_bind, M_ret, get, modify, tell, throw, out_of_fuel,
                    invoke_user, invoked, _emitEvent, if_function, state_of, effects_of,
                    outcome_of, and_then, socket_write, on_data, removeAllListeners,
                    store_listener, createConnection in *; cbn in * )).

(** ** Fetch *)

Section fetch_properties.
Context `{Collaborators}.

Lemma fetch_packet_layout (casInfo : list Z) (q : QueryHandle) :
  _buffer (FetchPacket.write (FetchPacket.new casInfo) new_PacketWriter q)
  = int32_bytes 38 ++ block 4 casInfo ++ [Z.land CAS_FC_FETCH 255]
    ++ int32_bytes 4 ++ int32_bytes (ExecuteQueryPacket.handle q)
    ++ int32_bytes 4 ++ int32_bytes (ExecuteQueryPacket.currentTupleCount q + 1)
    ++ int32_bytes 4 ++ int32_bytes 100
    ++ int32_bytes 1 ++ [0]
    ++ int32_bytes 4 ++ int32_bytes 0.
Proof. reflexivity. Qed.

(** C3.  [fetch(h)] without a handle of identity [h] in the list fails with
    the no-active-query error and writes nothing; on a handle whose
    current count equals its total it completes with the fetch-done event
    and a null result and writes nothing; otherwise it writes exactly one
    fetch packet, whose start position is [current + 1] and whose fetch
    size is 100. *)
Theorem fetch_cases (self : CUBRIDConnection) (queryHandle : Z) (callback : UserCallback) :
  let r := fetch queryHandle callback self in
  let found := list_find (fun q => ExecuteQueryPacket.handle q = queryHandle)
                         (_queriesHandleList self) in
  let no_query := JsErr (Error_of ERROR_NO_ACTIVE_QUERY) in
  outcome_of r = Done tt /\
  (Forall (fun q => ExecuteQueryPacket.handle q ≠ queryHandle) (_queriesHandleList self) ->
     effects_of r = Emit EVENT_ERROR [no_query] :: invoked callback [no_query; JsNull]
     /\ socket_writes (effects_of r) = []) /\
  (forall i q, found = Some (i, q) ->
     ExecuteQueryPacket.currentTupleCount q = ExecuteQueryPacket.totalTupleCount q ->
     effects_of r = Emit EVENT_FETCH_NO_MORE_DATA_AVAILABLE []
                      :: invoked callback [JsNull; JsNull]
     /\ socket_writes (effects_of r) = []) /\
  (forall i q, found = Some (i, q) ->
     ExecuteQueryPacket.currentTupleCount q ≠ ExecuteQueryPacket.totalTupleCount q ->
     exists packet,
       effects_of r = [SocketWrite packet]
       /\ packet = _buffer (FetchPacket.write (FetchPacket.new (_CASInfo self))
                                              new_PacketWriter q)
       /\ take 4 (drop 21 packet) = int32_bytes (ExecuteQueryPacket.currentTupleCount q + 1)
       /\ take 4 (drop 29 packet) = int32_bytes 100
       /\ (int32 (ExecuteQueryPacket.currentTupleCount q + 1) ->
           to_int32 (be_u32 (take 4 (drop 21 packet)))
           = ExecuteQueryPacket.currentTupleCount q + 1)
       /\ to_int32 (be_u32 (take 4 (drop 29 packet))) = 100).
Proof.
  intros r found no_query. subst r found no_query. unfold fetch.
  split; [|split; [|split]].
  - run_M.
    destruct (list_find _ _) as [[i q]|]; [|by destruct callback].
    destruct (bool_decide _); [by destruct callback|done].
  - intros Hnone.
    assert (list_find (fun q => ExecuteQueryPacket.handle q = queryHandle)
                      (_queriesHandleList self) = None) as Hfind.
    { apply list_find_None. eapply Forall_impl; [exact Hnone|]. done. }
    run_M. rewrite Hfind. unfold socket_writes. by destruct callback.
  - intros i q Hfind Heq. run_M. rewrite Hfind.
    rewrite bool_decide_eq_true_2 by done.
    unfold socket_writes. by destruct callback.
  - intros i q Hfind Hne. run_M. rewrite Hfind.
    rewrite bool_decide_eq_false_2 by done.
    eexists. split; [reflexivity|]. split; [reflexivity|].
    split; [reflexivity|]. split; [reflexivity|].
    split; [intros Hr; by apply int32_roundtrip|reflexivity].
Qed.
End fetch_properties.

(** ** Frames *)

Lemma length_fixed_length (value : list Z) (fillerValue fixedLength : Z) :
  length (fixed_length value fillerValue fixedLength) = Z.to_nat fixedLength.
Proof. unfold fixed_length. rewrite length_app, length_take, length_replicate. lia. Qed.

Section frame_properties.
Context `{Collaborators}.

Lemma expected_length_of_prefix (responseData data : list Z) :
  DATA_TYPES.DATA_LENGTH_SIZEOF <= Z.of_nat (length responseData) ->
  _getExpectedResponseLength (_combineData responseData data)
  = _getExpectedResponseLength responseData.
Proof.
  unfold _getExpectedResponseLength, _combineData, DATA_TYPES.DATA_LENGTH_SIZEOF.
  intros Hlen. rewrite take_app_le; [done|lia].
Qed.

Lemma complete_frame_counts_body (frame : list Z) :
  Z.of_nat (length frame) = _getExpectedResponseLength frame -> length_counts_body frame.
Proof.
  unfold length_counts_body, length_field, body_bytes, _getExpectedResponseLength,
    DATA_TYPES.DATA_LENGTH_SIZEOF, DATA_TYPES.CAS_INFO_SIZE.
  lia.
Qed.

(** What [receive] leaves in the closure of a listener, and when it takes
    the frame for complete. *)
Lemma receive_framed (l : DataListener) (data : list Z) :
  listener_framed l ->
  let responseData' := _combineData (responseData l) data in
  let expectedResponseLength' :=
    if bool_decide (expectedResponseLength l = _INVALID_RESPONSE_LENGTH)
       && bool_decide (DATA_TYPES.DATA_LENGTH_SIZEOF <= Z.of_nat (length responseData'))
    then _getExpectedResponseLength responseData'
    else expectedResponseLength l in
  listener_framed {| kind := kind l; responseData := responseData';
                     expectedResponseLength := expectedResponseLength' |}
  /\ (Z.of_nat (length responseData') = expectedResponseLength' ->
      length_counts_body responseData').
Proof.
  intros Hf responseData' expectedResponseLength'.
  assert (Z.of_nat (length (responseData l)) <= Z.of_nat (length responseData')) as Hgrow
    by (subst responseData'; unfold _combineData; rewrite length_app; lia).
  pose proof (expected_length_of_prefix (responseData l) data) as Hprefix.
  fold responseData' in Hprefix.
  unfold listener_framed, _INVALID_RESPONSE_LENGTH, DATA_TYPES.DATA_LENGTH_SIZEOF in *.
  cbn [responseData expectedResponseLength].
  subst expectedResponseLength'.
  destruct Hf as [[He Hshort]|[Hlong He]].
  - rewrite He. rewrite (bool_decide_eq_true_2 (-1 = -1)) by done. cbn [andb].
    case_bool_decide as Hnow.
    + split; [by right|]. apply complete_frame_counts_body.
    + split; [left; split; [done|lia]|]. lia.
  - assert (_getExpectedResponseLength responseData' = expectedResponseLength l) as Hsame
      by (rewrite He; apply Hprefix; exact Hlong).
    assert ((if bool_decide (expectedResponseLength l = -1)
                && bool_decide (4 <= Z.of_nat (length responseData'))
             then _getExpectedResponseLength responseData'
             else expectedResponseLength l)
            = _getExpectedResponseLength responseData') as ->
      by (by destruct (_ && _)).
    split; [right; split; [lia|done]|]. apply complete_frame_counts_body.
Qed.

(** C4, as amended.  The 4-byte big-endian length field equals the number
    of body bytes that follow the 4-byte CAS info in the requests that an
    encoder writes with a length field, the fetch request among them, and
    in every frame that a data listener takes for complete: a listener
    that is registered fresh keeps its expected length in step with the
    bytes it has received, and when it hands the assembled bytes on, their
    length is the one their first four bytes give.  The open-database
    request is written without length field and CAS info: it has 628
    bytes, and the equation holds of it only when the first four bytes of
    the padded database name happen to encode 620. *)
Theorem request_length_counts_body (casInfo : list Z) (q : QueryHandle)
    (reqHandle : Z) (autoCommitMode' : JsVal) (o : OpenDatabasePacket.options) :
  length_counts_body (_buffer (FetchPacket.write (FetchPacket.new casInfo) new_PacketWriter q))
  /\ length_field (_buffer (FetchPacket.write (FetchPacket.new casInfo) new_PacketWriter q))
     = 38
  /\ length_counts_body (_buffer (AckPacket.CloseDatabasePacket_write casInfo new_PacketWriter))
  /\ length_counts_body (_buffer (AckPacket.CommitPacket_write casInfo new_PacketWriter))
  /\ length_counts_body (_buffer (AckPacket.RollbackPacket_write casInfo new_PacketWriter))
  /\ length_counts_body
       (_buffer (AckPacket.CloseQueryPacket_write casInfo reqHandle new_PacketWriter))
  /\ length_counts_body
       (_buffer (AckPacket.SetAutoCommitModePacket_write casInfo autoCommitMode'
                                                         new_PacketWriter))
  /\ (forall k, listener_framed (fresh_listener k))
  /\ (forall id l data self,
        listener_framed l ->
        dataListeners (_socket self) = [(id, l)] ->
        match receive id l data self with
        | (Done (Some frame), _, _) =>
            frame = _combineData (responseData l) data /\ length_counts_body frame
        | (Done None, self', _) =>
            exists l',
              dataListeners (_socket self') = [(id, l')]
              /\ kind l' = kind l
              /\ responseData l' = _combineData (responseData l) data
              /\ listener_framed l'
        | _ => False
        end)
  /\ (let request :=
        _buffer (OpenDatabasePacket.write (OpenDatabasePacket.new o) new_PacketWriter) in
      let name := fixed_length (bytes_of_string (OpenDatabasePacket.database o)) 0 32 in
      length request = 628%nat
      /\ body_bytes request = 620
      /\ length_field request = be_u32 (take 4 name)
      /\ (length_counts_body request <-> be_u32 (take 4 name) = 620)).
Proof.
  do 7 (split; [reflexivity|]). split; [|split].
  - intros k. unfold listener_framed. left. split; [reflexivity|].
    cbn. unfold DATA_TYPES.DATA_LENGTH_SIZEOF. lia.
  - intros id l data self Hf Hl.
    destruct (receive_framed l data Hf) as [Hframed Hcomplete]. cbv zeta in *.
    unfold receive, store_listener, removeAllListeners, mbind, M_bind, mret, M_ret, modify.
    rewrite Hl. cbn [fmap list_fmap fst].
    rewrite (bool_decide_eq_true_2 (id = id)) by done.
    set (responseData' := _combineData (responseData l) data) in *.
    set (expectedResponseLength' :=
           if bool_decide (expectedResponseLength l = _INVALID_RESPONSE_LENGTH)
              && bool_decide (DATA_TYPES.DATA_LENGTH_SIZEOF
                              <= Z.of_nat (length responseData'))
           then _getExpectedResponseLength responseData'
           else expectedResponseLength l) in *.
    destruct (bool_decide (Z.of_nat (length responseData') = expectedResponseLength'))
      eqn:Hnow; cbn.
    + apply bool_decide_eq_true_1 in Hnow. split; [reflexivity|]. by apply Hcomplete.
    + eexists. split; [reflexivity|]. split; [reflexivity|]. split; [reflexivity|].
      exact Hframed.
  - cbv zeta.
    assert (_buffer (OpenDatabasePacket.write (OpenDatabasePacket.new o) new_PacketWriter)
            = fixed_length (bytes_of_string (OpenDatabasePacket.database o)) 0 32
              ++ fixed_length (bytes_of_string (OpenDatabasePacket.user o)) 0 32
              ++ fixed_length (bytes_of_string (OpenDatabasePacket.password o)) 0 32
              ++ replicate 512 0 ++ replicate 20 0) as ->.
    { unfold OpenDatabasePacket.write, _writeFixedLengthString, _writeFiller, put,
        new_PacketWriter, OpenDatabasePacket.new.
      cbn [_buffer OpenDatabasePacket.opts app].
      change (Z.land 0 255) with 0.
      change (Z.to_nat 512) with 512%nat. change (Z.to_nat 20) with 20%nat.
      by rewrite <- !app_assoc. }
    assert (length (fixed_length (bytes_of_string (OpenDatabasePacket.database o)) 0 32
                    ++ fixed_length (bytes_of_string (OpenDatabasePacket.user o)) 0 32
                    ++ fixed_length (bytes_of_string (OpenDatabasePacket.password o)) 0 32
                    ++ replicate 512 0 ++ replicate 20 0) = 628%nat) as Hlen.
    { rewrite !length_app, !length_fixed_length, !length_replicate. reflexivity. }
    assert (length (fixed_length (bytes_of_string (OpenDatabasePacket.database o)) 0 32)
            = 32%nat) as Hname by (by rewrite length_fixed_length).
    unfold length_counts_body, length_field, body_bytes.
    rewrite Hlen, take_app_le by lia.
    unfold DATA_TYPES.DATA_LENGTH_SIZEOF, DATA_TYPES.CAS_INFO_SIZE.
    split; [done|]. split; [done|]. split; [done|]. split; intros Heq; rewrite Heq; done.
Qed.

(** C5.  The decoder of the open-database response takes the CAS info, the
    response code, the DBMS type from byte 0 of the broker info, the
    statement-polling flag from byte 2, the protocol version from byte 4
    and the session id; on the bytes of the spec's scenario this gives
    [0,255,255,255], 0, 5, the flag 5, the version of 5 and 3.  The broker
    info is frozen: an assignment to it changes nothing. *)
Theorem open_database_response_decoded (this : OpenDatabasePacket.t)
    (b0 b1 b2 b3 b4 b5 b6 b7 : Z) :
  let response := [0; 0; 0; 15; 0; 255; 255; 255; 0; 0; 0; 0]
                    ++ [b0; b1; b2; b3; b4; b5; b6; b7] ++ [0; 0; 0; 3] in
  (exists packet info r,
     OpenDatabasePacket.parse this (new_PacketReader response) = Some (packet, None, r)
     /\ OpenDatabasePacket.casInfo packet = Some [0; 255; 255; 255]
     /\ OpenDatabasePacket.responseCode packet = Some 0
     /\ OpenDatabasePacket.brokerInfo packet = Some info
     /\ OpenDatabasePacket.dbType (fields info) = b0
     /\ OpenDatabasePacket.statementPolling (fields info) = b2
     /\ OpenDatabasePacket.protocolVersion (fields info) = getProtocolVersion b4
     /\ OpenDatabasePacket.sessionId packet = Some 3
     /\ (forall upd, Object_set upd info = info))
  /\ (exists packet info r,
     OpenDatabasePacket.parse this (new_PacketReader open_database_response)
     = Some (packet, None, r)
     /\ OpenDatabasePacket.casInfo packet = Some [0; 255; 255; 255]
     /\ OpenDatabasePacket.responseCode packet = Some 0
     /\ OpenDatabasePacket.brokerInfo packet = Some info
     /\ OpenDatabasePacket.dbType (fields info) = 5
     /\ OpenDatabasePacket.statementPolling (fields info) = 5
     /\ OpenDatabasePacket.protocolVersion (fields info) = getProtocolVersion 5
     /\ OpenDatabasePacket.sessionId packet = Some 3
     /\ (forall upd, Object_set upd info = info)).
Proof.
  split; do 3 eexists; (split; [cbv; reflexivity|]); repeat split.
Qed.
End frame_properties.

(** ** The error tail of a response *)

Ltac parser_step H :=
  match type of H with
  | context [match ?p ?r with Some _ => _ | None => None end] =>
      let a := fresh "a" in let r' := fresh "r" in let E := fresh "E" in
      destruct (p r) as [[a r']|] eqn:E; [|discriminate H]
  end.

Section error_tail.
Context `{Collaborators}.

Lemma resolveErrorCode_table :
  Forall (fun e => _resolveErrorCode (snd e) = Some (fst e)) CASErrorMsgId.
Proof. repeat constructor. Qed.

Lemma fetch_parse_error (this : FetchPacket.t) (q : QueryHandle)
    (casInfo : list Z) (responseCode errorCode : Z) (msg : string) (t : Z) (rest : list Z) :
  length casInfo = 4%nat ->
  int32 responseCode -> responseCode ≠ 0 -> int32 errorCode ->
  int32 (8 + Z.of_nat (String.length msg) + 1) ->
  exists r',
    FetchPacket.parse this q
      (new_PacketReader
         (int32_bytes (8 + Z.of_nat (String.length msg) + 1) ++ casInfo
            ++ int32_bytes responseCode ++ int32_bytes errorCode
            ++ bytes_of_string msg ++ t :: rest))
    = Some ({| FetchPacket.casInfo := casInfo;
               FetchPacket.responseCode := responseCode;
               FetchPacket.errorCode := errorCode;
               FetchPacket.errorMsg :=
                 if bool_decide (String.length msg = 0%nat)
                 then _resolveErrorCode errorCode else Some msg;
               FetchPacket.tupleCount := FetchPacket.tupleCount this |}, None, q, r')
    /\ remaining r' = rest.
Proof.
  intros Hcas Hcode Hnz Hec Hlen.
  set (frame := _ ++ _).
  destruct (parseInt_remaining _ (new_PacketReader frame) _ eq_refl Hlen) as (r1 & E1 & R1).
  destruct (parseBytes_remaining DATA_TYPES.CAS_INFO_SIZE r1 _ _ R1 Hcas) as (r2 & E2 & R2).
  destruct (parseInt_remaining _ r2 _ R2 Hcode) as (r3 & E3 & R3).
  destruct (parseInt_remaining _ r3 _ R3 Hec) as (r4 & E4 & R4).
  destruct (parseNullTerminatedString_remaining msg t r4 rest R4) as (r5 & E5 & R5).
  exists r5. split; [|done].
  unfold FetchPacket.parse, mbind, Parser_bind.
  rewrite E1, E2, E3.
  destruct (responseCode =? 0) eqn:Ez; [by apply Z.eqb_eq in Ez|]. cbn [negb].
  rewrite E4.
  replace (8 + Z.of_nat (String.length msg) + 1 - 2 * DATA_TYPES.INT_SIZEOF)
    with (Z.of_nat (String.length msg) + 1) by (unfold DATA_TYPES.INT_SIZEOF; lia).
  by rewrite E5.
Qed.

Lemma fetch_parse_fields (this : FetchPacket.t) (q q' : QueryHandle) (r r' : PacketReader)
    (packet : FetchPacket.t) (returned : option JsVal) :
  FetchPacket.parse this q r = Some (packet, returned, q', r') ->
  (returned ≠ None \/ FetchPacket.tupleCount packet ≠ FetchPacket.tupleCount this) ->
  FetchPacket.responseCode packet = 0.
Proof.
  unfold FetchPacket.parse, mbind, Parser_bind. intros Hp Hfields.
  do 3 parser_step Hp.
  destruct (a1 =? 0) eqn:Ez; [apply Z.eqb_eq in Ez as ->|]; cbn [negb] in Hp.
  - do 2 parser_step Hp.
    repeat match goal with x : (_ * _)%type |- _ => destruct x end.
    by injection Hp as <- _ _ _.
  - do 2 parser_step Hp. injection Hp as <- <- _ _.
    destruct Hfields as [Hf|Hf]; by destruct Hf.
Qed.

(** C6.  A negative response code is followed by a 4-byte error code and a
    null-terminated error message, which the decoder takes; it exposes the
    fields of the packet (here the tuple count and the rows of a fetch)
    only when the code is not negative; and an empty message is replaced
    by the name that the error-code table has for the code, as
    [CAS_ER_NO_MORE_DATA] for -1012. *)
Theorem negative_response_decoded (this : FetchPacket.t) (q : QueryHandle)
    (casInfo : list Z) (responseCode errorCode : Z) (msg : string) (t : Z) (rest : list Z) :
  length casInfo = 4%nat ->
  int32 responseCode -> responseCode < 0 -> int32 errorCode ->
  int32 (8 + Z.of_nat (String.length msg) + 1) ->
  (exists r',
     FetchPacket.parse this q
       (new_PacketReader
          (int32_bytes (8 + Z.of_nat (String.length msg) + 1) ++ casInfo
             ++ int32_bytes responseCode ++ int32_bytes errorCode
             ++ bytes_of_string msg ++ t :: rest))
     = Some ({| FetchPacket.casInfo := casInfo;
                FetchPacket.responseCode := responseCode;
                FetchPacket.errorCode := errorCode;
                FetchPacket.errorMsg :=
                  if bool_decide (String.length msg = 0%nat)
                  then _resolveErrorCode errorCode else Some msg;
                FetchPacket.tupleCount := FetchPacket.tupleCount this |}, None, q, r')
     /\ remaining r' = rest)
  /\ (forall r packet returned q' r',
        FetchPacket.parse this q r = Some (packet, returned, q', r') ->
        returned ≠ None \/ FetchPacket.tupleCount packet ≠ FetchPacket.tupleCount this ->
        0 <= FetchPacket.responseCode packet)
  /\ Forall (fun e => _resolveErrorCode (snd e) = Some (fst e)) CASErrorMsgId
  /\ _resolveErrorCode (-1012) = Some "CAS_ER_NO_MORE_DATA"%string.
Proof.
  intros Hcas Hcode Hneg Hec Hlen. split; [|split; [|split]].
  - apply fetch_parse_error; [done|done|lia|done|done].
  - intros r packet returned q' r' Hp Hfields.
    rewrite (fetch_parse_fields _ _ _ _ _ _ _ Hp Hfields). lia.
  - apply resolveErrorCode_table.
  - reflexivity.
Qed.
End error_tail.

(** ** Writing and reading back *)

Lemma fixed_length_padding (value : list Z) (fixedLength : Z) :
  (length value <= Z.to_nat fixedLength)%nat ->
  fixed_length value 0 fixedLength
  = value ++ replicate (Z.to_nat fixedLength - length value) 0.
Proof. intros Hle. unfold fixed_length. by rewrite take_ge. Qed.

Lemma block_bytes (casInfo : list Z) :
  length casInfo = 4%nat -> Forall is_byte casInfo -> block 4 casInfo = casInfo.
Proof.
  intros Hlen Hb.
  destruct casInfo as [|c0 [|c1 [|c2 [|c3 [|]]]]]; try discriminate.
  unfold block. change (Z.to_nat 4) with 4%nat. change 255 with (Z.ones 8).
  cbn -[Z.land Z.ones].
  repeat match goal with
         | Hf : Forall _ (_ :: _) |- _ => apply Forall_cons in Hf as [? Hf]
         end.
  unfold is_byte in *.
  rewrite !Z.land_ones by lia. by rewrite !Z.mod_small by (simpl; lia).
Qed.

Section roundtrip.
Context `{Collaborators}.

Lemma open_database_request_layout (o : OpenDatabasePacket.options) :
  _buffer (OpenDatabasePacket.write (OpenDatabasePacket.new o) new_PacketWriter)
  = fixed_length (bytes_of_string (OpenDatabasePacket.database o)) 0 32
    ++ fixed_length (bytes_of_string (OpenDatabasePacket.user o)) 0 32
    ++ fixed_length (bytes_of_string (OpenDatabasePacket.password o)) 0 32
    ++ replicate 512 0 ++ replicate 20 0 ++ [].
Proof.
  unfold OpenDatabasePacket.write, _writeFixedLengthString, _writeFiller, put,
    new_PacketWriter, OpenDatabasePacket.new.
  cbn [_buffer OpenDatabasePacket.opts app].
  change (Z.land 0 255) with 0.
  change (Z.to_nat 512) with 512%nat. change (Z.to_nat 20) with 20%nat.
  by rewrite app_nil_r, <- !app_assoc.
Qed.

(** C8, as amended.  An encoder writes the request and a decoder reads the
    response, which are laid out differently; what holds is that the
    primitive parsers of the reader invert the writer: read in the order
    of the writes, the open-database request gives back the database name,
    the user and the password, each padded with zeros to 32 bytes, and the
    fetch request gives back its length, CAS info, function code, server
    handle, start position and fetch size. *)
Theorem requests_read_back (o : OpenDatabasePacket.options) (casInfo : list Z)
    (q : QueryHandle) :
  (String.length (OpenDatabasePacket.database o) <= 32)%nat ->
  (String.length (OpenDatabasePacket.user o) <= 32)%nat ->
  (String.length (OpenDatabasePacket.password o) <= 32)%nat ->
  length casInfo = 4%nat -> Forall is_byte casInfo -> is_byte CAS_FC_FETCH ->
  int32 (ExecuteQueryPacket.handle q) ->
  int32 (ExecuteQueryPacket.currentTupleCount q + 1) ->
  let padded (s : string) :=
    bytes_of_string s ++ replicate (32 - String.length s) 0 in
  (exists r,
     read_open_database_request
       (new_PacketReader
          (_buffer (OpenDatabasePacket.write (OpenDatabasePacket.new o) new_PacketWriter)))
     = Some ((padded (OpenDatabasePacket.database o),
              padded (OpenDatabasePacket.user o),
              padded (OpenDatabasePacket.password o)), r)
     /\ remaining r = [])
  /\ (exists r,
     read_fetch_request
       (new_PacketReader
          (_buffer (FetchPacket.write (FetchPacket.new casInfo) new_PacketWriter q)))
     = Some ((38, casInfo, CAS_FC_FETCH, ExecuteQueryPacket.handle q,
              ExecuteQueryPacket.currentTupleCount q + 1, 100, 0, 0), r)
     /\ remaining r = []).
Proof.
  intros Hd Hu Hp Hlen Hbytes Hfc Hh Hs padded. split.
  - rewrite open_database_request_layout.
    set (buf := _ ++ _).
    destruct (parseBytes_remaining 32 (new_PacketReader buf) _ _ eq_refl
                (length_fixed_length _ _ _)) as (r1 & E1 & R1).
    destruct (parseBytes_remaining 32 r1 _ _ R1 (length_fixed_length _ _ _))
      as (r2 & E2 & R2).
    destruct (parseBytes_remaining 32 r2 _ _ R2 (length_fixed_length _ _ _))
      as (r3 & E3 & R3).
    destruct (parseBytes_remaining 512 r3 _ _ R3 (length_replicate _ _)) as (r4 & E4 & R4).
    destruct (parseBytes_remaining 20 r4 _ _ R4 (length_replicate _ _)) as (r5 & E5 & R5).
    exists r5. split; [|done].
    unfold read_open_database_request, mbind, Parser_bind, mret, Parser_ret.
    rewrite E1, E2, E3, E4, E5.
    rewrite !fixed_length_padding by (rewrite length_bytes_of_string; simpl; lia).
    unfold padded. by rewrite !length_bytes_of_string.
  - rewrite fetch_packet_layout, (block_bytes casInfo Hlen Hbytes).
    assert (Z.land CAS_FC_FETCH 255 = CAS_FC_FETCH) as ->.
    { unfold is_byte in Hfc. change 255 with (Z.ones 8).
      rewrite Z.land_ones by lia. apply Z.mod_small. simpl; lia. }
    set (buf := _ ++ _).
    assert (forall v, v = 0 \/ v = 1 \/ v = 4 \/ v = 38 \/ v = 100 -> int32 v) as Hsmall
      by (unfold int32; lia).
    destruct (parseInt_remaining _ (new_PacketReader buf) _ eq_refl (Hsmall 38 ltac:(lia)))
      as (r1 & E1 & R1).
    destruct (parseBytes_remaining DATA_TYPES.CAS_INFO_SIZE r1 _ _ R1 Hlen)
      as (r2 & E2 & R2).
    destruct (parseByte_remaining _ r2 _ R2) as (r3 & E3 & R3).
    destruct (parseInt_remaining _ r3 _ R3 (Hsmall 4 ltac:(lia))) as (r4 & E4 & R4).
    destruct (parseInt_remaining _ r4 _ R4 Hh) as (r5 & E5 & R5).
    destruct (parseInt_remaining _ r5 _ R5 (Hsmall 4 ltac:(lia))) as (r6 & E6 & R6).
    destruct (parseInt_remaining _ r6 _ R6 Hs) as (r7 & E7 & R7).
    destruct (parseInt_remaining _ r7 _ R7 (Hsmall 4 ltac:(lia))) as (r8 & E8 & R8).
    destruct (parseInt_remaining _ r8 _ R8 (Hsmall 100 ltac:(lia))) as (r9 & E9 & R9).
    destruct (parseInt_remaining _ r9 _ R9 (Hsmall 1 ltac:(lia))) as (r10 & E10 & R10).
    destruct (parseByte_remaining _ r10 _ R10) as (r11 & E11 & R11).
    destruct (parseInt_remaining _ r11 _ R11 (Hsmall 4 ltac:(lia))) as (r12 & E12 & R12).
    destruct (parseInt_remaining 0 r12 [] R12 (Hsmall 0 ltac:(lia))) as (r13 & E13 & R13).
    exists r13. split; [|done].
    unfold read_fetch_request, mbind, Parser_bind, mret, Parser_ret.
    by rewrite E1, E2, E3, E4, E5, E6, E7, E8, E9, E10, E11, E12, E13.
Qed.
End roundtrip.

(** ** Transactions *)

Section transaction_properties.
Context `{Collaborators}.
Variable call : Callback -> list JsVal -> M unit.


End transaction_properties.

(** ** Validation *)

Section validation_properties.
Context `{Collaborators}.

(** C10.  When [query] rejects the SQL text, or [closeQuery] the handle, at
    validation, the validation error is emitted on the error event and the
    callback is called with a null error. *)
Theorem validation_error_callback_null (n : nat) (self : CUBRIDConnection) (sql : string)
    (queryHandle : Z) (id : nat) :
  let validation := JsErr (Error_of ERROR_INPUT_VALIDATION) in
  (queryPending self = false -> _validateInputSQLString sql = false ->
     query (call n) sql (Some id) self
     = (Done tt, self, [Emit EVENT_ERROR [validation]; Invoke id [JsNull]]))
  /\ (_validateInputTimeout queryHandle = false ->
     closeQuery (call (S n)) queryHandle (cb_user (Some id)) self
     = (Done tt, self, [Emit EVENT_ERROR [validation]; Invoke id [JsNull]])).
Proof.
  split.
  - intros Hq Hv. unfold query. run_M. by rewrite Hq, Hv.
  - intros Hv. unfold closeQuery. by rewrite Hv.
Qed.
End validation_properties.

(** ** The auto-commit mode *)

Section autocommit_properties.
Context `{Collaborators}.






End autocommit_properties.




Section autocommit_claim.
Context `{Collaborators}.

End autocommit_claim.

(** ** The pending flags *)

Section pending_flags.
Context `{Collaborators}.

Lemma connect_done_resets (n : nat) (sql : string) (callback : UserCallback)
    (args : list JsVal) (self : CUBRIDConnection) :
  let r := call (S n) (cb_connect (cb_next [act_executeQuery sql callback]
                                           (cb_query callback))) args self in
  connectionPending (state_of r) = false /\ queryPending (state_of r) = false.
Proof.
  cbn [call]. unfold call_body. generalize (arg 0 args). intros err.
  destruct (is_error err) eqn:He; run_M; rewrite ?He; run_M.
  - destruct n as [|n]; run_M; [done|]. rewrite He. run_M.
    destruct n as [|n]; run_M; [done|]. rewrite He. run_M.
    destruct err; try discriminate; by destruct callback.
  - destruct n as [|n]; run_M; [done|]. rewrite He. run_M.
    unfold executeQuery. run_M.
    destruct (_queryCache self) as [cache|]; run_M;
      [destruct (Cache_contains sql cache); run_M|]; try done.
    by destruct callback.
Qed.

(** C1, as amended.  [query] sets [queryPending] and [connect] sets
    [connectionPending], neither looking at the other flag: in a [query]
    call that triggers [connect] because the connection is not open, both
    flags are true from then on and throughout the handshake, until the
    completion function of [connect] runs, which resets both. *)
Theorem query_connect_both_pending (n : nat) (self : CUBRIDConnection) (sql : string)
    (callback : UserCallback) :
  connectionOpened self = false ->
  connectionPending self = false ->
  queryPending self = false ->
  _validateInputSQLString sql = true ->
  let after_connect := cb_next [act_executeQuery sql callback] (cb_query callback) in
  let r := query (call (2 + n)) sql callback self in
  (outcome_of r = Done tt
   /\ connectionPending (state_of r) = true
   /\ queryPending (state_of r) = true
   /\ dataListeners (_socket (state_of r))
      = [(registered self,
          {| kind := on_brokerPort (cb_next [act_databaseLogin] (cb_connect after_connect));
             responseData := [];
             expectedResponseLength := _INVALID_RESPONSE_LENGTH |})])
  /\ (forall data port rd,
        ClientInfoExchangePacket_parse (new_PacketReader data) = Some (port, rd) ->
        let r' := socket_data (call (2 + n)) data (state_of r) in
        outcome_of r' = Done tt
        /\ connectionPending (state_of r') = true
        /\ queryPending (state_of r') = true
        /\ exists packet,
             dataListeners (_socket (state_of r'))
             = [(S (registered self),
                 {| kind := on_login packet (cb_next [] (cb_connect after_connect));
                    responseData := [];
                    expectedResponseLength := _INVALID_RESPONSE_LENGTH |})])
  /\ (forall self' args,
        let r' := call (3 + n) (cb_next [] (cb_connect after_connect)) args self' in
        connectionPending (state_of r') = false
        /\ queryPending (state_of r') = false).
Proof.
  intros Ho Hc Hq Hv after_connect r. subst r after_connect.
  assert (query (call (2 + n)) sql callback self
          = (Done tt,
             set__socket
               {| dataListeners :=
                    [(registered self,
                      {| kind := on_brokerPort
                                   (cb_next [act_databaseLogin]
                                      (cb_connect
                                         (cb_next [act_executeQuery sql callback]
                                            (cb_query callback))));
                         responseData := [];
                         expectedResponseLength := _INVALID_RESPONSE_LENGTH |})] |}
               (S (registered self))
               (set_connectionPending true (set_queryPending true self)),
             [SocketConnect (initialBrokerPort self) (brokerServer self);
              SocketWrite (_buffer (ClientInfoExchangePacket_write new_PacketWriter))]))
    as Hquery.
  { unfold query, enqueue. run_M. rewrite Hq, Hv. run_M.
    unfold run_action, connect, enqueue. run_M. rewrite Ho. run_M. rewrite Hc. run_M.
    unfold _doGetBrokerPort. run_M. reflexivity. }
  rewrite Hquery. clear Hquery. split; [|split].
  - done.
  - intros data port rd Hport r'. subst r'.
    unfold socket_data, listener_data, brokerPort_data, removeListener. run_M.
    rewrite decide_False by (intros Hne; by apply Hne).
    run_M. rewrite Hport. run_M.
    destruct (0 <? port); unfold _doDatabaseLogin; run_M;
      (repeat split; eexists; reflexivity).
  - intros self' args r'. subst r'.
    change (call (3 + n) (cb_next [] (cb_connect (cb_next [act_executeQuery sql callback]
                                                         (cb_query callback)))) args self')
      with ((if is_error (arg 0 args)
             then call (S (S n)) (cb_connect (cb_next [act_executeQuery sql callback]
                                                      (cb_query callback))) args
             else call (S (S n)) (cb_connect (cb_next [act_executeQuery sql callback]
                                                      (cb_query callback))) args) self').
    destruct (is_error (arg 0 args)); apply connect_done_resets.
Qed.
End pending_flags.

(** ** Queries *)

Section keeps_lemmas.
Variable P : CUBRIDConnection -> Prop.

Lemma keeps_ret {A} (a : A) : keeps P (mret a).
Proof. by intros self. Qed.

Lemma keeps_bind {A B} (m : M A) (f : A -> M B) :
  keeps P m -> (forall a, keeps P (f a)) -> keeps P (m ≫= f).
Proof.
  intros Hm Hf self HP. specialize (Hm self HP).
  unfold mbind, M_bind, state_of in *.
  destruct (m self) as [[[a|e|] self'] out]; cbn in *; try done.
  specialize (Hf a self' Hm). by destruct (f a self') as [[o self''] out'].
Qed.

Lemma keeps_get : keeps P get.
Proof. by intros self. Qed.

Lemma keeps_tell (out : list Effect) : keeps P (tell out).
Proof. by intros self. Qed.

Lemma keeps_throw {A} (e : Thrown) : keeps P (@throw A e).
Proof. by intros self. Qed.

Lemma keeps_out_of_fuel {A} : keeps P (@out_of_fuel A).
Proof. by intros self. Qed.

Lemma keeps_modify (f : CUBRIDConnection -> CUBRIDConnection) :
  (forall self, P self -> P (f self)) -> keeps P (modify f).
Proof. intros Hf self HP. by apply Hf. Qed.
End keeps_lemmas.

Create HintDb keeps discriminated.
#[global] Hint Resolve keeps_ret keeps_get keeps_tell keeps_throw keeps_out_of_fuel : keeps.

Ltac keeps_step :=
  first
    [ apply keeps_bind; [|intros ?]
    | solve [auto with keeps]
    | apply keeps_modify; intros ? ?; solve [assumption | reflexivity]
    | match goal with
      | |- keeps _ (if ?b then _ else _) => destruct b
      | |- keeps _ (match ?x with _ => _ end) => destruct x
      end ].

Section query_properties.
Context `{Collaborators}.

Section methods_keep.
Variable call' : Callback -> list JsVal -> M unit.
Hypothesis call_keeps : forall callback args, keeps not_query_pending (call' callback args).

Lemma closeQuery_keeps (queryHandle : Z) (callback : Callback) :
  keeps not_query_pending (closeQuery call' queryHandle callback).
Proof using call_keeps.
  unfold closeQuery, if_function, _emitEvent, socket_write, on_data. repeat keeps_step.
Qed.

Lemma call_body_keeps (callback : Callback) (args : list JsVal) :
  keeps not_query_pending (call_body call' callback args).
Proof using call_keeps.
  pose proof closeQuery_keeps. unfold call_body.
  repeat first
    [ keeps_step
    | progress unfold run_action, connect, enqueue, if_function, invoke_user, _emitEvent,
        while_handles, executeQuery, closeDatabase, _doGetBrokerPort, _doDatabaseLogin,
        createConnection, socket_write, on_data ].
Qed.
End methods_keep.

(** No function that is passed as a callback sets [queryPending]. *)
Lemma call_keeps_not_query_pending (n : nat) (callback : Callback) (args : list JsVal) :
  keeps not_query_pending (call n callback args).
Proof.
  revert callback args. induction n as [|n IH]; intros callback args.
  - apply keeps_out_of_fuel.
  - cbn [call]. by apply call_body_keeps.
Qed.






Lemma query_sent (n : nat) (self : CUBRIDConnection) (sql : string)
    (callback : UserCallback) :
  connectionOpened self = true ->
  queryPending self = false ->
  _validateInputSQLString sql = true ->
  match _queryCache self with
  | Some cache => Cache_contains sql cache
  | None => false
  end = false ->
  query (call (2 + n)) sql callback self
  = (Done tt,
     set__socket
       {| dataListeners :=
            dataListeners (_socket self)
            ++ [(registered self,
                 {| kind := on_query sql (cb_next [] (cb_query callback));
                    responseData := [];
                    expectedResponseLength := _INVALID_RESPONSE_LENGTH |})] |}
       (S (registered self)) (set_queryPending true self),
     [SocketWrite
        (_buffer (ExecuteQueryPacket_write sql (_CASInfo self) (autoCommitMode self)
                                           new_PacketWriter))]).
Proof.
  intros Ho Hq Hv Hmiss. unfold query, enqueue. run_M. rewrite Hq, Hv. run_M.
  unfold run_action. run_M. rewrite Ho. run_M.
  unfold executeQuery. run_M. rewrite Hmiss. run_M. reflexivity.
Qed.


End query_properties.

(** * Runs on concrete inputs *)

Section concrete_runs.
#[local] Existing Instance reference.

(** C1, as stated, fails: on a connection that is not open yet, [query]
    calls [connect], and both flags are true. *)
Lemma both_flags_pending :
  let self := state_of (query (call 2) "SELECT 1" None fresh) in
  connectionPending self = true
  /\ queryPending self = true
  /\ ~ at_most_one_pending self.
Proof.
  cbv zeta. split; [reflexivity|]. split; [reflexivity|].
  intros Hone. apply Hone. split; reflexivity.
Qed.

Lemma query_connect_both_pending_witness :
  connectionOpened fresh = false
  /\ connectionPending fresh = false
  /\ queryPending fresh = false
  /\ _validateInputSQLString "SELECT 1" = true
  /\ connectionPending (state_of (query (call 2) "SELECT 1" None fresh)) = true
  /\ queryPending (state_of (query (call 2) "SELECT 1" None fresh)) = true.
Proof.
  destruct (@query_connect_both_pending reference 0 fresh "SELECT 1" None
              eq_refl eq_refl eq_refl eq_refl) as [(_ & Hc & Hq & _) _].
  do 4 (split; [reflexivity|]). split; [exact Hc|exact Hq].
Defined.


Lemma fetch_cases_witness :
  Forall (fun q => ExecuteQueryPacket.handle q ≠ 7)
         (_queriesHandleList (opened (JsBool true) [handle42]))
  /\ socket_writes (effects_of (fetch 7 (Some 1%nat) (opened (JsBool true) [handle42]))) = []
  /\ socket_writes (effects_of (fetch 42 (Some 1%nat) (opened (JsBool true) [handle42_done])))
     = []
  /\ exists packet,
       effects_of (fetch 42 (Some 1%nat) (opened (JsBool true) [handle42]))
       = [SocketWrite packet]
       /\ to_int32 (be_u32 (take 4 (drop 21 packet))) = 101
       /\ to_int32 (be_u32 (take 4 (drop 29 packet))) = 100.
Proof.
  assert (Forall (fun q => ExecuteQueryPacket.handle q ≠ 7)
                 (_queriesHandleList (opened (JsBool true) [handle42]))) as Hnone
    by (repeat constructor; cbn; lia).
  destruct (@fetch_cases reference (opened (JsBool true) [handle42]) 7 (Some 1%nat))
    as (_ & Hmissing & _).
  destruct (@fetch_cases reference (opened (JsBool true) [handle42_done]) 42 (Some 1%nat))
    as (_ & _ & Hdone & _).
  destruct (@fetch_cases reference (opened (JsBool true) [handle42]) 42 (Some 1%nat))
    as (_ & _ & _ & Hmore).
  destruct (Hmissing Hnone) as [_ Hw].
  destruct (Hdone 0%nat handle42_done eq_refl eq_refl) as [_ Hw'].
  destruct (Hmore 0%nat handle42 eq_refl ltac:(cbn; lia))
    as (packet & Hp & _ & _ & _ & Hstart & Hsize).
  split; [exact Hnone|]. split; [exact Hw|]. split; [exact Hw'|].
  exists packet. split; [exact Hp|]. split; [|exact Hsize].
  apply Hstart. unfold int32. cbn. lia.
Defined.

(** C4, as stated, fails on a frame that the codec produces and on the
    responses of the spec's own scenarios.  The open-database request has
    neither length field nor CAS info: its first four bytes are the start
    of the database name, and 620 bytes follow the first eight.  The
    open-database response of the spec declares 15 bytes and has 16 after
    the CAS info, the close-database response declares 0 and has 4, and
    both are decoded: the decoders never compare the length field with
    the buffer. *)
Lemma response_length_counterexample :
  (length_field (_buffer (OpenDatabasePacket.write (OpenDatabasePacket.new test_options)
                                                   new_PacketWriter))
   = 1835101793
   /\ body_bytes (_buffer (OpenDatabasePacket.write (OpenDatabasePacket.new test_options)
                                                    new_PacketWriter))
      = 620
   /\ ~ length_counts_body
         (_buffer (OpenDatabasePacket.write (OpenDatabasePacket.new test_options)
                                            new_PacketWriter)))
  /\ (exists packet r,
     OpenDatabasePacket.parse (OpenDatabasePacket.new test_options)
                              (new_PacketReader open_database_response)
     = Some (packet, None, r)
     /\ OpenDatabasePacket.responseCode packet = Some 0
     /\ OpenDatabasePacket.sessionId packet = Some 3)
  /\ length_field open_database_response = 15
  /\ body_bytes open_database_response = 16
  /\ ~ length_counts_body open_database_response
  /\ (exists packet r,
     AckPacket.parse (new_PacketReader close_database_response) = Some (packet, r)
     /\ AckPacket.responseCode packet = 0
     /\ AckPacket.errorCode packet = 0
     /\ AckPacket.errorMsg packet = Some EmptyString)
  /\ length_field close_database_response = 0
  /\ body_bytes close_database_response = 4
  /\ ~ length_counts_body close_database_response.
Proof.
  split; [split; [reflexivity|]; split; [reflexivity|by vm_compute]|].
  split; [do 2 eexists; split; [vm_compute; reflexivity|]; split; reflexivity|].
  split; [reflexivity|]. split; [reflexivity|]. split; [by vm_compute|].
  split; [do 2 eexists; split; [vm_compute; reflexivity|]; repeat split|].
  split; [reflexivity|]. split; [reflexivity|]. by vm_compute.
Qed.

Lemma request_length_counts_body_witness :
  let l := fresh_listener (on_closeDatabase (cb_user None)) in
  let self := set__socket {| dataListeners := [(0%nat, l)] |} 1 fresh in
  listener_framed l
  /\ dataListeners (_socket self) = [(0%nat, l)]
  /\ outcome_of (receive 0 l execute_response self) = Done (Some execute_response)
  /\ length_counts_body execute_response
  /\ length_field execute_response = 12.
Proof.
  destruct (@request_length_counts_body reference [0; 255; 255; 255] handle42 42
              (JsBool true) test_options)
    as (_ & _ & _ & _ & _ & _ & _ & Hfresh & Hreceive & _).
  pose proof (Hreceive 0%nat (fresh_listener (on_closeDatabase (cb_user None)))
                execute_response
                (set__socket
                   {| dataListeners :=
                        [(0%nat, fresh_listener (on_closeDatabase (cb_user None)))] |}
                   1 fresh)
                (Hfresh _) eq_refl) as Hframe.
  split; [exact (Hfresh _)|]. split; [reflexivity|]. split; [reflexivity|].
  split; [exact (proj2 Hframe)|reflexivity].
Defined.

Lemma negative_response_decoded_witness :
  length [0; 255; 255; 255] = 4%nat
  /\ int32 (-1) /\ -1 < 0 /\ int32 (-1012)
  /\ int32 (8 + Z.of_nat (String.length "") + 1)
  /\ exists r,
       FetchPacket.parse (FetchPacket.new [0; 255; 255; 255]) handle42
                         (new_PacketReader no_more_data_response)
       = Some ({| FetchPacket.casInfo := [0; 255; 255; 255];
                  FetchPacket.responseCode := -1;
                  FetchPacket.errorCode := -1012;
                  FetchPacket.errorMsg := Some "CAS_ER_NO_MORE_DATA"%string;
                  FetchPacket.tupleCount := None |}, None, handle42, r).
Proof.
  assert (int32 (-1)) as H1 by (unfold int32; lia).
  assert (int32 (-1012)) as H2 by (unfold int32; lia).
  assert (int32 (8 + Z.of_nat (String.length "") + 1)) as H3 by (unfold int32; cbn; lia).
  destruct (@negative_response_decoded reference (FetchPacket.new [0; 255; 255; 255]) handle42
              [0; 255; 255; 255] (-1) (-1012) "" 0 [] eq_refl H1 ltac:(lia) H2 H3)
    as [(r & Hp & _) _].
  split; [reflexivity|]. split; [exact H1|]. split; [lia|]. split; [exact H2|].
  split; [exact H3|]. exists r. exact Hp.
Defined.



(** C8, as stated, fails: the decoder of a packet reads responses, and on
    the request that the encoder of the same packet has written it
    recovers none of the fields.  The fetch request for handle 42 from
    row 101 decodes as an error response; the open-database request for
    [manager_master] decodes with the letters of the name as CAS info,
    response code and broker info. *)
Lemma decoder_reads_request_as_response :
  (exists packet r,
     FetchPacket.parse (FetchPacket.new [0; 255; 255; 255]) handle42
       (new_PacketReader
          (_buffer (FetchPacket.write (FetchPacket.new [0; 255; 255; 255])
                                      new_PacketWriter handle42)))
     = Some (packet, None, handle42, r)
     /\ FetchPacket.responseCode packet = 134217728
     /\ FetchPacket.errorCode packet = 67108864
     /\ FetchPacket.tupleCount packet = None)
  /\ (exists packet info r,
     OpenDatabasePacket.parse (OpenDatabasePacket.new test_options)
       (new_PacketReader
          (_buffer (OpenDatabasePacket.write (OpenDatabasePacket.new test_options)
                                             new_PacketWriter)))
     = Some (packet, None, r)
     /\ OpenDatabasePacket.casInfo packet = Some [103; 101; 114; 95]
     /\ OpenDatabasePacket.responseCode packet = Some 1835103092
     /\ OpenDatabasePacket.brokerInfo packet = Some info
     /\ OpenDatabasePacket.dbType (fields info) = 101
     /\ OpenDatabasePacket.sessionId packet = Some 0).
Proof.
  split.
  - do 2 eexists. split; [vm_compute; reflexivity|]. repeat split.
  - do 3 eexists. split; [vm_compute; reflexivity|]. repeat split.
Qed.

Lemma requests_read_back_witness :
  (String.length (OpenDatabasePacket.database test_options) <= 32)%nat
  /\ (String.length (OpenDatabasePacket.user test_options) <= 32)%nat
  /\ (String.length (OpenDatabasePacket.password test_options) <= 32)%nat
  /\ length [0; 255; 255; 255] = 4%nat
  /\ Forall is_byte [0; 255; 255; 255]
  /\ is_byte CAS_FC_FETCH
  /\ int32 (ExecuteQueryPacket.handle handle42)
  /\ int32 (ExecuteQueryPacket.currentTupleCount handle42 + 1)
  /\ exists r,
       read_fetch_request
         (new_PacketReader
            (_buffer (FetchPacket.write (FetchPacket.new [0; 255; 255; 255])
                                        new_PacketWriter handle42)))
       = Some ((38, [0; 255; 255; 255], 8, 42, 101, 100, 0, 0), r).
Proof.
  assert (String.length (OpenDatabasePacket.database test_options) <= 32)%nat as Hd
    by (cbn; lia).
  assert (String.length (OpenDatabasePacket.user test_options) <= 32)%nat as Hu
    by (cbn; lia).
  assert (String.length (OpenDatabasePacket.password test_options) <= 32)%nat as Hp
    by (cbn; lia).
  assert (Forall is_byte [0; 255; 255; 255]) as Hb
    by (repeat constructor; unfold is_byte; lia).
  assert (is_byte CAS_FC_FETCH) as Hfc by (unfold is_byte; cbn; lia).
  assert (int32 (ExecuteQueryPacket.handle handle42)) as Hh by (unfold int32; cbn; lia).
  assert (int32 (ExecuteQueryPacket.currentTupleCount handle42 + 1)) as Hs
    by (unfold int32; cbn; lia).
  destruct (@requests_read_back reference test_options [0; 255; 255; 255] handle42
              Hd Hu Hp eq_refl Hb Hfc Hh Hs) as [_ (r & Hr & _)].
  split; [exact Hd|]. split; [exact Hu|]. split; [exact Hp|]. split; [reflexivity|].
  split; [exact Hb|]. split; [exact Hfc|]. split; [exact Hh|]. split; [exact Hs|].
  exists r. exact Hr.
Defined.



Lemma validation_error_callback_null_witness :
  queryPending fresh = false
  /\ _validateInputSQLString "" = false
  /\ _validateInputTimeout (-1) = false
  /\ query (call 0) "" (Some 1%nat) fresh
     = (Done tt, fresh,
        [Emit EVENT_ERROR [JsErr (Error_of ERROR_INPUT_VALIDATION)]; Invoke 1 [JsNull]])
  /\ closeQuery (call 1) (-1) (cb_user (Some 1%nat)) fresh
     = (Done tt, fresh,
        [Emit EVENT_ERROR [JsErr (Error_of ERROR_INPUT_VALIDATION)]; Invoke 1 [JsNull]]).
Proof.
  destruct (@validation_error_callback_null reference 0 fresh "" (-1) 1%nat) as [Hq Hc].
  do 3 (split; [reflexivity|]). split; [exact (Hq eq_refl eq_refl)|exact (Hc eq_refl)].
Defined.
End concrete_runs.

(** * Further properties of the connection *)

Lemma M_bind_ret (m : M unit) (self : CUBRIDConnection) :
  (_ ← m; mret tt) self = m self.
Proof.
  unfold mbind, M_bind, mret, M_ret.
  destruct (m self) as [[[[]|e|] s] out]; by rewrite ?app_nil_r.
Qed.

Lemma whole_frame_complete (k : ListenerKind) (data : list Z) :
  whole_frame data -> frame_complete (fresh_listener k) data.
Proof.
  intros [Hlen Hexp].
  unfold frame_complete, fresh_listener, _INVALID_RESPONSE_LENGTH, _combineData.
  cbn [responseData expectedResponseLength app].
  rewrite bool_decide_eq_true_2 by done.
  by rewrite bool_decide_eq_true_2 by done.
Qed.

Section connect_properties.
Context `{Collaborators}.

(** X1.  A [connect] call while a connection attempt is pending fails with
    the connection-already-pending error: the error is emitted and passed
    to the callback, nothing is written and the connection is unchanged. *)
Theorem connect_while_pending (n : nat) (self : CUBRIDConnection) (callback : UserCallback) :
  connectionPending self = true ->
  connect (call (S n)) (cb_user callback) self
  = (Done tt, self,
     Emit EVENT_ERROR [JsErr (Error_of ERROR_CONNECTION_ALREADY_PENDING)]
     :: invoked callback [JsErr (Error_of ERROR_CONNECTION_ALREADY_PENDING)]).
Proof.
  intros Hp. unfold connect. run_M. rewrite Hp. by destruct callback.
Qed.
End connect_properties.

Section listener_steps.
Context `{Collaborators}.
Variable call' : Callback -> list JsVal -> M unit.

Lemma socket_data_single (data : list Z) (entry : nat * DataListener)
    (self : CUBRIDConnection) :
  dataListeners (_socket self) = [entry] ->
  socket_data call' data self = listener_data call' data entry self.
Proof.
  intros Hl. unfold socket_data. unfold mbind at 1, M_bind at 1, get at 1.
  rewrite Hl. cbn [for_each].
  destruct (listener_data call' data entry self) as [[[[]|e|] s] out] eqn:E;
    unfold mbind, M_bind; rewrite E; cbn; by rewrite ?app_nil_r.
Qed.

Lemma receive_complete (id : nat) (l : DataListener) (data : list Z)
    (self : CUBRIDConnection) :
  frame_complete l data ->
  receive id l data self
  = (Done (Some (_combineData (responseData l) data)), without_listeners self, []).
Proof.
  unfold frame_complete, receive. intros Hc. run_M.
  by rewrite bool_decide_eq_true_2 by done.
Qed.

Lemma receive_whole (id : nat) (k : ListenerKind) (data : list Z) (self : CUBRIDConnection) :
  whole_frame data ->
  receive id (fresh_listener k) data self = (Done (Some data), without_listeners self, []).
Proof. intros Hw. by rewrite (receive_complete _ _ _ _ (whole_frame_complete k data Hw)). Qed.
End listener_steps.

Section autocommit_more.
Context `{Collaborators}.

(** X2.  [setAutoCommitMode] with a mode that fails validation emits the
    validation error and then, the wrapper being called with a null error,
    the completion event; the callback gets a null error, nothing is
    written and the connection is unchanged. *)
Theorem setAutoCommitMode_invalid_mode (n : nat) (self : CUBRIDConnection) (m : JsVal)
    (callback : UserCallback) :
  _validateInputBoolean m = false ->
  setAutoCommitMode (call (S n)) m callback self
  = (Done tt, self,
     [Emit EVENT_ERROR [JsErr (Error_of ERROR_INPUT_VALIDATION)];
      Emit EVENT_SET_AUTOCOMMIT_MODE_COMPLETED []] ++ invoked callback [JsNull]).
Proof.
  intros Hv. unfold setAutoCommitMode, _toggleAutoCommitMode. rewrite Hv. run_M.
  by destruct callback.
Qed.
End autocommit_more.

Section handle_list.
Context `{Collaborators}.

Lemma list_find_delete (h : Z) (l : list QueryHandle) :
  match list_find (fun q => ExecuteQueryPacket.handle q = h) l with
  | Some (i, q) =>
      other_handles h (delete i l) = other_handles h l
      /\ S (length (same_handles h (delete i l))) = length (same_handles h l)
      /\ take i (delete i l) = take i l
      /\ same_handles h (take i l) = []
  | None => same_handles h l = []
  end.
Proof.
  unfold other_handles, same_handles.
  induction l as [|q l IH]; [done|]. cbn [list_find].
  case_decide as Hq.
  - cbn -[filter]. rewrite !filter_cons. by repeat case_decide.
  - revert IH.
    match goal with |- context [list_find ?P l] => destruct (list_find P l) as [[i q']|] end;
      cbn -[filter]; intros IH.
    + destruct IH as (IH1 & IH2 & IH3 & IH4).
      rewrite !filter_cons. repeat case_decide; try done.
      repeat split; [f_equal; exact IH1 | exact IH2 | f_equal; exact IH3 | exact IH4].
    + rewrite filter_cons. by case_decide.
Qed.

Lemma list_find_first (h : Z) (pre post : list QueryHandle) (q : QueryHandle) :
  Forall (fun p => ExecuteQueryPacket.handle p ≠ h) pre ->
  ExecuteQueryPacket.handle q = h ->
  list_find (fun q => ExecuteQueryPacket.handle q = h) (pre ++ q :: post)
  = Some (length pre, q).
Proof.
  intros Hpre Hq. apply list_find_Some. split; [apply list_lookup_middle; done|].
  split; [done|]. intros j y Hj Hlt.
  rewrite lookup_app_l in Hj by done.
  exact (Forall_lookup_1 _ _ _ _ Hpre Hj).
Qed.

Lemma closeQuery_handle_list (call' : Callback -> list JsVal -> M unit)
    (self : CUBRIDConnection) (queryHandle : Z) (callback : Callback) :
  _validateInputTimeout queryHandle = true ->
  _queriesHandleList (state_of (closeQuery call' queryHandle callback self))
  = match list_find (fun q => ExecuteQueryPacket.handle q = queryHandle)
                    (_queriesHandleList self) with
    | Some (i, _) => delete i (_queriesHandleList self)
    | None => _queriesHandleList self
    end.
Proof.
  intros Hv. unfold closeQuery. rewrite Hv. run_M.
  by destruct (list_find _ _) as [[i q]|].
Qed.

(** X3.  [closeQuery] with a valid handle writes one close-query packet,
    whether the handle is in the list or not, and takes the first entry
    with that handle out of the list before the server has answered: when
    the list is [pre ++ q :: post], with [q] the first entry that has the
    handle, it becomes [pre ++ post]; when no entry has the handle it stays
    as it is.  So the other handles stay, in their order, and of several
    entries with the same handle one is removed. *)
Theorem closeQuery_removes_first (call' : Callback -> list JsVal -> M unit)
    (self : CUBRIDConnection) (queryHandle : Z) (callback : Callback) :
  _validateInputTimeout queryHandle = true ->
  let r := closeQuery call' queryHandle callback self in
  let before := _queriesHandleList self in
  let after := _queriesHandleList (state_of r) in
  effects_of r
  = [SocketWrite (_buffer (AckPacket.CloseQueryPacket_write (_CASInfo self) queryHandle
                                                            new_PacketWriter))]
  /\ (forall pre q post,
        before = pre ++ q :: post ->
        Forall (fun p => ExecuteQueryPacket.handle p ≠ queryHandle) pre ->
        ExecuteQueryPacket.handle q = queryHandle ->
        after = pre ++ post)
  /\ (Forall (fun p => ExecuteQueryPacket.handle p ≠ queryHandle) before -> after = before)
  /\ other_handles queryHandle after = other_handles queryHandle before
  /\ length (same_handles queryHandle after)
     = Nat.pred (length (same_handles queryHandle before))
  /\ after `sublist_of` before
  /\ dataListeners (_socket (state_of r))
     = dataListeners (_socket self)
       ++ [(registered self, fresh_listener (on_closeQuery queryHandle callback))].
Proof.
  intros Hv r before after.
  pose proof (closeQuery_handle_list call' self queryHandle callback Hv) as Hafter.
  fold r in Hafter. fold after before in Hafter.
  assert (effects_of r
          = [SocketWrite (_buffer (AckPacket.CloseQueryPacket_write (_CASInfo self)
                                     queryHandle new_PacketWriter))]
          /\ dataListeners (_socket (state_of r))
             = dataListeners (_socket self)
               ++ [(registered self, fresh_listener (on_closeQuery queryHandle callback))])
    as [Heff Hl].
  { subst r. unfold closeQuery. rewrite Hv. run_M.
    by destruct (list_find _ _) as [[i q]|]. }
  pose proof (list_find_delete queryHandle before) as Hfind.
  split; [exact Heff|]. split; [|split].
  - intros pre q post Hb Hpre Hq.
    rewrite Hb, (list_find_first queryHandle pre post q Hpre Hq) in Hafter.
    rewrite Hafter. apply delete_middle.
  - intros Hall.
    assert (list_find (fun q => ExecuteQueryPacket.handle q = queryHandle) before = None)
      as Hnone by (by apply list_find_None).
    by rewrite Hnone in Hafter.
  - rewrite Hafter. clear Hafter. revert Hfind. unfold other_handles, same_handles.
    match goal with
    | |- context [list_find ?P before] => destruct (list_find P before) as [[i q]|]
    end; intros Hfind.
    + destruct Hfind as (Ho & Hs & _). rewrite <- Hs.
      repeat split; try done. apply sublist_delete.
    + rewrite Hfind. by repeat split.
Qed.
End handle_list.

Section query_more.
Context `{Collaborators}.

(** X4.  A [query] on an open connection whose text is in the cache is
    answered from the cache: the cached result is emitted and passed to the
    callback with a null error and a null handle, nothing is written to the
    socket, no listener is registered and the connection, [queryPending]
    included, is as before. *)
Theorem query_cache_hit (n : nat) (self : CUBRIDConnection) (sql : string)
    (callback : UserCallback) (cache : gmap string JsVal) (cached : JsVal) :
  connectionOpened self = true ->
  queryPending self = false ->
  _validateInputSQLString sql = true ->
  _queryCache self = Some cache ->
  cache !! sql = Some cached ->
  query (call (2 + n)) sql callback self
  = (Done tt, self,
     Emit EVENT_QUERY_DATA_AVAILABLE [cached; JsNull]
     :: invoked callback [JsNull; cached; JsNull]).
Proof.
  intros Ho Hq Hv Hc Hhit. unfold query, enqueue. run_M. rewrite Hq, Hv. run_M.
  unfold run_action. run_M. rewrite Ho. run_M.
  unfold executeQuery. run_M. rewrite Hc. unfold Cache_contains, Cache_get. cbn.
  rewrite Hhit. rewrite bool_decide_eq_true_2 by by eexists. run_M.
  replace (set_queryPending false (set_queryPending true self)) with self
    by (destruct self; cbn in *; by subst).
  by destruct callback.
Qed.

(** X5.  When the server answers a [query] with an error, the error is
    emitted and passed to the callback, [queryPending] is reset, and
    neither the handle list nor the cache changes: the next [query] is
    sent. *)
Theorem query_error_response (n : nat) (self : CUBRIDConnection) (sql sql' : string)
    (callback callback' : UserCallback) (data : list Z) (q : QueryHandle) (result : JsVal)
    (rd : PacketReader) :
  connectionOpened self = true ->
  queryPending self = false ->
  dataListeners (_socket self) = [] ->
  _validateInputSQLString sql = true ->
  _validateInputSQLString sql' = true ->
  _queryCache self = None ->
  whole_frame data ->
  ExecuteQueryPacket_parse (new_PacketReader data) = Some ((q, result), rd) ->
  ExecuteQueryPacket.errorCode q ≠ 0 ->
  let r := and_then (query (call (2 + n)) sql callback self)
                    (socket_data (call (2 + n)) data) in
  let err := JsErr (Error_server (ExecuteQueryPacket.errorCode q)
                                 (ExecuteQueryPacket.errorMsg q)) in
  outcome_of r = Done tt
  /\ effects_of r
     = SocketWrite (_buffer (ExecuteQueryPacket_write sql (_CASInfo self) (autoCommitMode self)
                                                      new_PacketWriter))
       :: Emit EVENT_ERROR [err]
       :: invoked callback [err; result; JsNum (ExecuteQueryPacket.handle q)]
  /\ queryPending (state_of r) = false
  /\ _queriesHandleList (state_of r) = _queriesHandleList self
  /\ dataListeners (_socket (state_of r)) = []
  /\ socket_writes (effects_of (query (call (2 + n)) sql' callback' (state_of r)))
     = [_buffer (ExecuteQueryPacket_write sql' (_CASInfo self) (autoCommitMode self)
                                          new_PacketWriter)].
Proof.
  intros Ho Hq Hl Hv Hv' Hcache Hw Hp Herr r err.
  assert (match _queryCache self with
          | Some cache => Cache_contains sql cache
          | None => false
          end = false) as Hmiss by (by rewrite Hcache).
  assert (r = (Done tt,
               set_queryPending false
                 (without_listeners
                    (set__socket
                       {| dataListeners :=
                            [(registered self,
                              fresh_listener (on_query sql (cb_next [] (cb_query callback))))] |}
                       (S (registered self)) (set_queryPending true self))),
               SocketWrite (_buffer (ExecuteQueryPacket_write sql (_CASInfo self)
                                       (autoCommitMode self) new_PacketWriter))
               :: Emit EVENT_ERROR [err]
               :: invoked callback [err; result; JsNum (ExecuteQueryPacket.handle q)]))
    as ->.
  { subst r err. unfold and_then.
    rewrite (query_sent n self sql callback Ho Hq Hv Hmiss).
    unfold state_of, effects_of. cbn [fst snd].
    rewrite Hl. cbn [app].
    set (self1 := set__socket _ _ _).
    rewrite (socket_data_single (call (2 + n)) data
               (registered self,
                fresh_listener (on_query sql (cb_next [] (cb_query callback))))
               self1 eq_refl).
    unfold listener_data. cbn [fresh_listener kind].
    unfold mbind at 1, M_bind at 1.
    rewrite (receive_whole _ _ data self1 Hw).
    unfold query_complete. rewrite Hp.
    unfold error_of_code. apply Z.eqb_neq in Herr. rewrite Herr.
    run_M. by destruct callback. }
  unfold outcome_of, state_of, effects_of. cbn [fst snd].
  repeat split.
  rewrite (query_sent n _ sql' callback'); [done|done|done|done|].
  cbn. by rewrite Hcache.
Qed.
End query_more.

Section transaction_more.
Context `{Collaborators}.

Lemma end_tran_on_stale (n : nat) (self : CUBRIDConnection) (callback : UserCallback)
    (data : list Z) (k : ListenerKind) (rest : list (nat * DataListener)) (id : nat) :
  k = on_commit false callback \/ k = on_rollback false callback ->
  whole_frame data ->
  dataListeners (_socket self) = (id, fresh_listener k) :: rest ->
  socket_data (call n) data self = (Threw TypeError, without_listeners self, []).
Proof.
  intros Hk Hw Hl. unfold socket_data. unfold mbind at 1, M_bind at 1, get at 1.
  rewrite Hl. cbn [for_each]. unfold mbind at 1, M_bind at 1.
  unfold listener_data.
  destruct Hk as [-> | ->]; cbn [fresh_listener kind];
    unfold mbind at 1, M_bind at 1; by rewrite (receive_whole _ _ data self Hw).
Qed.

(** X6.  With auto-commit not off, [commit] and [rollback] call the
    callback at once and then register a data listener for a packet that
    was never created.  The next complete frame that arrives reaches this
    listener first: it removes all listeners and fails on the missing
    packet.  A [query] sent after such a [commit] or [rollback] therefore
    never completes: its callback is not called and [queryPending] stays
    set. *)
Theorem commit_autocommit_on_stale_listener (n : nat) (self : CUBRIDConnection)
    (callback callback' : UserCallback) (sql : string) (data : list Z) (rollback' : bool) :
  autoCommitMode self ≠ JsBool false ->
  connectionOpened self = true ->
  queryPending self = false ->
  _validateInputSQLString sql = true ->
  _queryCache self = None ->
  whole_frame data ->
  let end_tran := if rollback' then rollback callback else commit callback in
  let r1 := end_tran self in
  let r2 := and_then r1 (query (call (2 + n)) sql callback') in
  let r3 := and_then r2 (socket_data (call (2 + n)) data) in
  effects_of r1 = invoked callback [JsNull]
  /\ dataListeners (_socket (state_of r1))
     = [(registered self,
         fresh_listener (if rollback' then on_rollback false callback
                         else on_commit false callback))]
  /\ outcome_of r3 = Threw TypeError
  /\ invocations (effects_of r3) = invocations (invoked callback [JsNull])
  /\ queryPending (state_of r3) = true
  /\ dataListeners (_socket (state_of r3)) = [].
Proof.
  intros Hm Ho Hq Hv Hcache Hw end_tran r1 r2 r3.
  assert (js_strict_eq (autoCommitMode self) (JsBool false) = false) as Hoff
    by (unfold js_strict_eq; by rewrite bool_decide_eq_false_2).
  set (k := if rollback' then on_rollback false callback else on_commit false callback).
  set (self1 := set__socket {| dataListeners := [(registered self, fresh_listener k)] |}
                            (S (registered self)) self).
  assert (r1 = (Done tt, self1, invoked callback [JsNull])) as Hr1.
  { subst r1 end_tran self1 k. destruct rollback'; unfold rollback, commit; run_M;
      rewrite Hoff; run_M; by destruct callback. }
  assert (match _queryCache self1 with
          | Some cache => Cache_contains sql cache
          | None => false
          end = false) as Hmiss by (cbn; by rewrite Hcache).
  assert (r2 = (Done tt,
                set__socket
                  {| dataListeners :=
                       [(registered self, fresh_listener k);
                        (S (registered self),
                         fresh_listener (on_query sql (cb_next [] (cb_query callback'))))] |}
                  (S (S (registered self))) (set_queryPending true self1),
                invoked callback [JsNull]
                ++ [SocketWrite (_buffer (ExecuteQueryPacket_write sql (_CASInfo self)
                                            (autoCommitMode self) new_PacketWriter))]))
    as Hr2.
  { subst r2. rewrite Hr1. unfold and_then, state_of, effects_of. cbn [fst snd].
    by rewrite (query_sent n self1 sql callback' Ho Hq Hv Hmiss). }
  assert (r3 = (Threw TypeError,
                without_listeners
                  (set__socket
                     {| dataListeners :=
                          [(registered self, fresh_listener k);
                           (S (registered self),
                            fresh_listener (on_query sql (cb_next [] (cb_query callback'))))] |}
                     (S (S (registered self))) (set_queryPending true self1)),
                (invoked callback [JsNull]
                 ++ [SocketWrite (_buffer (ExecuteQueryPacket_write sql (_CASInfo self)
                                             (autoCommitMode self) new_PacketWriter))])
                ++ [])) as Hr3.
  { subst r3. rewrite Hr2. unfold and_then, state_of, effects_of. cbn [fst snd].
    erewrite (end_tran_on_stale (2 + n) _ callback data k); [done| |done|reflexivity].
    subst k. destruct rollback'; [by right | by left]. }
  rewrite Hr1, Hr3. unfold outcome_of, state_of, effects_of. cbn [fst snd].
  repeat split. unfold invocations. rewrite app_nil_r, omap_app. cbn. by rewrite app_nil_r.
Qed.

(** X7.  [beginTransaction] on a connection whose auto-commit mode is
    already off writes nothing: it emits its event and calls the callback
    with a null error.  Otherwise it writes the set-auto-commit packet for
    mode off, and once the server has acknowledged it the mode is off, the
    event is emitted, the callback gets a null error, and a [commit] that
    follows writes the commit packet instead of completing at once. *)
Theorem beginTransaction_then_commit (n : nat) (self : CUBRIDConnection)
    (callback callback' : UserCallback) (data : list Z) (packet : AckPacket.t)
    (rd : PacketReader) :
  _validateInputBoolean (JsBool false) = true ->
  (autoCommitMode self = JsBool false ->
     beginTransaction (call (S n)) callback self
     = (Done tt, self, Emit EVENT_BEGIN_TRANSACTION [] :: invoked callback [JsNull]))
  /\ (autoCommitMode self ≠ JsBool false ->
      dataListeners (_socket self) = [] ->
      whole_frame data ->
      AckPacket.parse (new_PacketReader data) = Some (packet, rd) ->
      AckPacket.errorCode packet = 0 ->
      let r1 := beginTransaction (call (S n)) callback self in
      let r2 := and_then r1 (socket_data (call (S n)) data) in
      let r3 := and_then r2 (commit callback') in
      outcome_of r3 = Done tt
      /\ effects_of r3
         = [SocketWrite (_buffer (AckPacket.SetAutoCommitModePacket_write
                                    (_CASInfo self) (JsBool false) new_PacketWriter));
            Emit EVENT_BEGIN_TRANSACTION []]
           ++ invoked callback [JsNull]
           ++ [SocketWrite (_buffer (AckPacket.CommitPacket_write (_CASInfo self)
                                                                  new_PacketWriter))]
      /\ autoCommitMode (state_of r3) = JsBool false
      /\ dataListeners (_socket (state_of r3))
         = [(S (registered self), fresh_listener (on_commit true callback'))]).
Proof.
  intros Hv. split.
  - intros Hm. unfold beginTransaction, _toggleAutoCommitMode. rewrite Hv. run_M.
    rewrite Hm. run_M. by destruct callback.
  - intros Hm Hl Hw Hp Hok r1 r2 r3.
    set (self1 := set__socket
                    {| dataListeners :=
                         [(registered self,
                           fresh_listener (on_toggle (JsBool false)
                                                     (cb_beginTransaction callback)))] |}
                    (S (registered self)) self).
    assert (r1 = (Done tt, self1,
                  [SocketWrite (_buffer (AckPacket.SetAutoCommitModePacket_write
                                           (_CASInfo self) (JsBool false) new_PacketWriter))]))
      as Hr1.
    { subst r1 self1. unfold beginTransaction, _toggleAutoCommitMode. rewrite Hv. run_M.
      unfold js_strict_eq. rewrite bool_decide_eq_false_2 by done. run_M. by rewrite Hl. }
    assert (socket_data (call (S n)) data self1
            = (Done tt, set_autoCommitMode (JsBool false) (without_listeners self1),
               Emit EVENT_BEGIN_TRANSACTION [] :: invoked callback [JsNull])) as Hdata.
    { rewrite (socket_data_single (call (S n)) data
                 (registered self,
                  fresh_listener (on_toggle (JsBool false) (cb_beginTransaction callback)))
                 self1 eq_refl).
      unfold listener_data. cbn [fresh_listener kind].
      unfold mbind at 1, M_bind at 1.
      rewrite (receive_whole _ _ data self1 Hw).
      unfold toggle_complete, parse_ack. rewrite Hp. run_M. rewrite Hok. run_M.
      unfold ack_error, error_of_code. rewrite Hok. run_M. by destruct callback. }
    assert (r2 = (Done tt, set_autoCommitMode (JsBool false) (without_listeners self1),
                  [SocketWrite (_buffer (AckPacket.SetAutoCommitModePacket_write
                                           (_CASInfo self) (JsBool false) new_PacketWriter))]
                  ++ Emit EVENT_BEGIN_TRANSACTION [] :: invoked callback [JsNull])) as Hr2.
    { subst r2. rewrite Hr1. unfold and_then, state_of, effects_of. cbn [fst snd].
      by rewrite Hdata. }
    subst r3. rewrite Hr2.
    unfold and_then, state_of, effects_of, outcome_of. cbn [fst snd].
    unfold commit. run_M. by destruct callback.
Qed.
End transaction_more.

Section fetch_more.
Context `{Collaborators}.

(** X8.  [fetch] registers its listener before it looks for the handle.
    When the handle is not in the list, or all its tuples have been read,
    it removes every data listener of the socket, those of other operations
    in flight included: nothing is written, and a chunk that arrives
    afterwards reaches no listener. *)
Theorem fetch_without_request_removes_listeners (n : nat) (self : CUBRIDConnection)
    (queryHandle : Z) (callback : UserCallback) (data : list Z) :
  match list_find (fun q => ExecuteQueryPacket.handle q = queryHandle)
                  (_queriesHandleList self) with
  | None => True
  | Some (_, q) => ExecuteQueryPacket.currentTupleCount q = ExecuteQueryPacket.totalTupleCount q
  end ->
  let r := fetch queryHandle callback self in
  outcome_of r = Done tt
  /\ dataListeners (_socket (state_of r)) = []
  /\ socket_writes (effects_of r) = []
  /\ length (invocations (effects_of r)) = length (invocations (invoked callback []))
  /\ socket_data (call n) data (state_of r) = (Done tt, state_of r, []).
Proof.
  intros Hfind. cbv zeta. unfold fetch. run_M.
  destruct (list_find _ _) as [[i q]|]; run_M.
  - rewrite bool_decide_eq_true_2 by done. run_M.
    repeat split; by destruct callback.
  - repeat split; by destruct callback.
Qed.

Lemma fetch_parse_error_keeps_handle (this : FetchPacket.t) (q q' : QueryHandle)
    (r r' : PacketReader) (packet : FetchPacket.t) :
  FetchPacket.parse this q r = Some (packet, None, q', r') -> q' = q.
Proof.
  unfold FetchPacket.parse, mbind, Parser_bind. intros Hp.
  do 3 parser_step Hp.
  destruct (a1 =? 0) eqn:Ez; cbn [negb] in Hp.
  - do 2 parser_step Hp.
    repeat match goal with x : (_ * _)%type |- _ => destruct x end.
    discriminate Hp.
  - do 2 parser_step Hp. by injection Hp as _ <-.
Qed.

(** X9.  The response to a fetch request is decoded against the handle at
    the position found by [fetch]: the handle as [_getData] leaves it is
    written back to that position and no other entry changes; the result,
    or the error of the response, is emitted and passed to the callback,
    and the listeners are removed.  A response that reports an error
    leaves the handle list as it was. *)
Theorem fetch_response (n : nat) (self : CUBRIDConnection) (queryHandle : Z)
    (callback : UserCallback) (i : nat) (q q' : QueryHandle) (data : list Z)
    (packet : FetchPacket.t) (returned : option JsVal) (rd : PacketReader) :
  dataListeners (_socket self) = [] ->
  list_find (fun q => ExecuteQueryPacket.handle q = queryHandle) (_queriesHandleList self)
  = Some (i, q) ->
  ExecuteQueryPacket.currentTupleCount q ≠ ExecuteQueryPacket.totalTupleCount q ->
  whole_frame data ->
  FetchPacket.parse (FetchPacket.new (_CASInfo self)) q (new_PacketReader data)
  = Some (packet, returned, q', rd) ->
  let r := and_then (fetch queryHandle callback self) (socket_data (call n) data) in
  let err := error_of_code JsNull (FetchPacket.errorCode packet)
                           (FetchPacket.errorMsg packet) in
  let result := default JsUndefined returned in
  outcome_of r = Done tt
  /\ effects_of r
     = SocketWrite (_buffer (FetchPacket.write (FetchPacket.new (_CASInfo self))
                                               new_PacketWriter q))
       :: (if is_error err then Emit EVENT_ERROR [err]
           else Emit EVENT_FETCH_DATA_AVAILABLE [result])
       :: invoked callback [err; result]
  /\ _queriesHandleList (state_of r) = <[i := q']> (_queriesHandleList self)
  /\ (returned = None -> _queriesHandleList (state_of r) = _queriesHandleList self)
  /\ dataListeners (_socket (state_of r)) = []
  /\ queryPending (state_of r) = queryPending self.
Proof.
  intros Hl Hfind Hmore Hw Hp r err result.
  pose proof Hfind as Hi. apply list_find_Some in Hi as (Hi & _).
  set (k := on_fetch (Some (FetchPacket.new (_CASInfo self), i)) callback).
  set (self1 := set__socket {| dataListeners := [(registered self, fresh_listener k)] |}
                            (S (registered self)) self).
  assert (fetch queryHandle callback self
          = (Done tt, self1,
             [SocketWrite (_buffer (FetchPacket.write (FetchPacket.new (_CASInfo self))
                                                      new_PacketWriter q))])) as Hfetch.
  { unfold fetch. run_M. rewrite Hfind. run_M.
    rewrite bool_decide_eq_false_2 by done. run_M. rewrite Hl. cbn.
    by rewrite bool_decide_eq_true_2 by done. }
  assert (r = (Done tt,
               set__queriesHandleList (<[i := q']> (_queriesHandleList self))
                                      (without_listeners self1),
               [SocketWrite (_buffer (FetchPacket.write (FetchPacket.new (_CASInfo self))
                                                        new_PacketWriter q))]
               ++ (if is_error err then Emit EVENT_ERROR [err]
                   else Emit EVENT_FETCH_DATA_AVAILABLE [result])
                  :: invoked callback [err; result])) as ->.
  { subst r. rewrite Hfetch. unfold and_then, state_of, effects_of. cbn [fst snd].
    rewrite (socket_data_single (call n) data (registered self, fresh_listener k) self1 eq_refl).
    unfold listener_data. subst k. cbn [fresh_listener kind].
    unfold mbind at 1, M_bind at 1.
    rewrite (receive_whole _ _ data self1 Hw).
    unfold fetch_complete. unfold mbind at 1, M_bind at 1, get at 1.
    change (_queriesHandleList (without_listeners self1)) with (_queriesHandleList self).
    match goal with
    | |- context [match ?x with Some _ => _ | None => _ end] =>
        match type of x with
        | option ?T => unify T QueryHandle; replace x with (Some q) by (symmetry; exact Hi)
        end
    end.
    rewrite Hp. subst err result.
    destruct (is_error _) eqn:He; run_M; rewrite He; by destruct callback. }
  unfold outcome_of, state_of, effects_of. cbn [fst snd].
  repeat split.
  intros ->. rewrite (fetch_parse_error_keeps_handle _ _ _ _ _ _ Hp).
  cbn. by apply list_insert_id.
Qed.
End fetch_more.

(** ** The open-database packet and the handshake *)

Lemma whole_frame_length_field (len : Z) (rest : list Z) :
  0 <= len < 4294967296 ->
  Z.of_nat (length rest) = len + 4 ->
  whole_frame (int32_bytes len ++ rest).
Proof.
  intros Hlen Hrest. unfold whole_frame, _getExpectedResponseLength.
  change (take 4 (int32_bytes len ++ rest)) with (int32_bytes len).
  rewrite be_u32_int32_bytes, Z.mod_small by done.
  rewrite length_app. change (length (int32_bytes len)) with 4%nat.
  unfold DATA_TYPES.DATA_LENGTH_SIZEOF, DATA_TYPES.CAS_INFO_SIZE. lia.
Qed.

Lemma whole_frame_open_database_frame (casInfo brokerInfo : list Z) (responseCode sid : Z) :
  length casInfo = 4%nat -> length brokerInfo = 8%nat ->
  whole_frame (open_database_frame casInfo responseCode brokerInfo sid).
Proof.
  intros Hc Hb. apply whole_frame_length_field; [lia|].
  rewrite !length_app, Hc, Hb. done.
Qed.

Lemma whole_frame_error_frame (casInfo : list Z) (responseCode errorCode : Z) (msg : string) :
  length casInfo = 4%nat ->
  int32 (8 + Z.of_nat (String.length msg) + 1) ->
  whole_frame (error_frame casInfo responseCode errorCode msg).
Proof.
  intros Hc Hlen. apply whole_frame_length_field; [unfold int32 in Hlen; lia|].
  rewrite !length_app, Hc, length_bytes_of_string.
  change (length (int32_bytes responseCode)) with 4%nat.
  change (length (int32_bytes errorCode)) with 4%nat. cbn [length]. lia.
Qed.

Section open_database_properties.
Context `{Collaborators}.

(** X10.  The open-database request has [getBufferLength()] bytes, 628,
    whatever the lengths of the database name, the user and the password:
    each of them takes exactly 32 bytes, a longer one being cut. *)
Theorem open_database_request_length (o : OpenDatabasePacket.options) (writer : PacketWriter) :
  Z.of_nat (length (_buffer (OpenDatabasePacket.write (OpenDatabasePacket.new o) writer)))
  = Z.of_nat (length (_buffer writer)) + OpenDatabasePacket.getBufferLength
  /\ OpenDatabasePacket.getBufferLength = 628.
Proof.
  split; [|done].
  unfold OpenDatabasePacket.write, _writeFixedLengthString, _writeFiller, put.
  cbn [_buffer]. rewrite !length_app, !length_fixed_length, !length_replicate.
  unfold OpenDatabasePacket.getBufferLength. lia.
Qed.

(** X11.  Whatever [OpenDatabasePacket.parse] decodes, it returns an error
    exactly when the response code is negative, and then it leaves the
    broker info and the session id of the packet as they were; otherwise
    it sets both, the broker info frozen, and returns nothing.  The CAS
    info and the response code are set in both cases. *)
Theorem open_database_parse_cases (this packet : OpenDatabasePacket.t)
    (returned : option (Z * option string)) (r r' : PacketReader) :
  OpenDatabasePacket.parse this r = Some (packet, returned, r') ->
  exists casInfo responseCode,
    OpenDatabasePacket.casInfo packet = Some casInfo
    /\ length casInfo = 4%nat
    /\ OpenDatabasePacket.responseCode packet = Some responseCode
    /\ OpenDatabasePacket.opts packet = OpenDatabasePacket.opts this
    /\ ((responseCode < 0
         /\ is_Some returned
         /\ OpenDatabasePacket.brokerInfo packet = OpenDatabasePacket.brokerInfo this
         /\ OpenDatabasePacket.sessionId packet = OpenDatabasePacket.sessionId this)
        \/ (0 <= responseCode
            /\ returned = None
            /\ (exists info, OpenDatabasePacket.brokerInfo packet = Some info
                             /\ frozen info = true)
            /\ is_Some (OpenDatabasePacket.sessionId packet))).
Proof.
  unfold OpenDatabasePacket.parse, mbind, Parser_bind, mret, Parser_ret. intros Hp.
  do 3 parser_step Hp.
  assert (length a0 = 4%nat) as Hlen.
  { unfold _parseBytes in E0. case_bool_decide as Hb; [|discriminate E0].
    injection E0 as <- _. exact Hb. }
  exists a0, a1.
  destruct (Z.ltb_spec a1 0) as [Hneg|Hpos].
  - parser_step Hp. injection Hp as <- <- _. cbn. repeat split; try done.
    left. repeat split; try done; by eexists.
  - do 2 parser_step Hp. injection Hp as <- <- _. cbn. repeat split; try done.
    right. repeat split; try done; by eexists.
Qed.
End open_database_properties.

Section handshake.
Context `{Collaborators}.

Lemma open_database_parse_frame (this : OpenDatabasePacket.t) (casInfo brokerInfo : list Z)
    (responseCode sid : Z) :
  length casInfo = 4%nat -> length brokerInfo = 8%nat ->
  int32 responseCode -> 0 <= responseCode -> int32 sid ->
  exists r',
    OpenDatabasePacket.parse this
      (new_PacketReader (open_database_frame casInfo responseCode brokerInfo sid))
    = Some ({| OpenDatabasePacket.opts := OpenDatabasePacket.opts this;
               OpenDatabasePacket.casInfo := Some casInfo;
               OpenDatabasePacket.responseCode := Some responseCode;
               OpenDatabasePacket.brokerInfo :=
                 Some (Object_freeze
                         {| OpenDatabasePacket.dbType := default 0 (brokerInfo !! 0%nat);
                            OpenDatabasePacket.protocolVersion :=
                              getProtocolVersion (default 0 (brokerInfo !! 4%nat));
                            OpenDatabasePacket.statementPolling :=
                              default 0 (brokerInfo !! 2%nat) |});
               OpenDatabasePacket.sessionId := Some sid |}, None, r').
Proof.
  intros Hcas Hb Hcode Hpos Hsid. unfold open_database_frame.
  set (frame := _ ++ _).
  destruct (parseInt_remaining 16 (new_PacketReader frame) _ eq_refl) as (r1 & E1 & R1);
    [unfold int32; lia|].
  destruct (parseBytes_remaining DATA_TYPES.CAS_INFO_SIZE r1 _ _ R1 Hcas) as (r2 & E2 & R2).
  destruct (parseInt_remaining _ r2 _ R2 Hcode) as (r3 & E3 & R3).
  destruct (parseBytes_remaining DATA_TYPES.BROKER_INFO_SIZEOF r3 _ _ R3 Hb)
    as (r4 & E4 & R4).
  rewrite <- (app_nil_r (int32_bytes sid)) in R4.
  destruct (parseInt_remaining _ r4 _ R4 Hsid) as (r5 & E5 & R5).
  exists r5.
  unfold OpenDatabasePacket.parse, mbind, Parser_bind, mret, Parser_ret.
  rewrite E1, E2, E3.
  destruct (Z.ltb_spec responseCode 0) as [Hneg|_]; [lia|].
  by rewrite E4, E5.
Qed.

Lemma open_database_parse_error_frame (this : OpenDatabasePacket.t) (casInfo : list Z)
    (responseCode errorCode : Z) (msg : string) :
  length casInfo = 4%nat ->
  int32 responseCode -> responseCode < 0 -> int32 errorCode ->
  int32 (8 + Z.of_nat (String.length msg) + 1) ->
  exists r',
    OpenDatabasePacket.parse this
      (new_PacketReader (error_frame casInfo responseCode errorCode msg))
    = Some ({| OpenDatabasePacket.opts := OpenDatabasePacket.opts this;
               OpenDatabasePacket.casInfo := Some casInfo;
               OpenDatabasePacket.responseCode := Some responseCode;
               OpenDatabasePacket.brokerInfo := OpenDatabasePacket.brokerInfo this;
               OpenDatabasePacket.sessionId := OpenDatabasePacket.sessionId this |},
            Some (errorCode,
                  if bool_decide (String.length msg = 0%nat)
                  then _resolveErrorCode errorCode else Some msg), r').
Proof.
  intros Hcas Hcode Hneg Hec Hlen. unfold error_frame.
  set (frame := _ ++ _).
  destruct (parseInt_remaining _ (new_PacketReader frame) _ eq_refl Hlen) as (r1 & E1 & R1).
  destruct (parseBytes_remaining DATA_TYPES.CAS_INFO_SIZE r1 _ _ R1 Hcas) as (r2 & E2 & R2).
  destruct (parseInt_remaining _ r2 _ R2 Hcode) as (r3 & E3 & R3).
  destruct (parseInt_remaining _ r3 _ R3 Hec) as (r4 & E4 & R4).
  destruct (parseNullTerminatedString_remaining msg 0 r4 [] R4) as (r5 & E5 & R5).
  exists r5.
  unfold OpenDatabasePacket.parse, readError, mbind, Parser_bind, mret, Parser_ret.
  rewrite E1, E2, E3.
  destruct (Z.ltb_spec responseCode 0) as [_|Hpos]; [|lia].
  rewrite E4.
  replace (8 + Z.of_nat (String.length msg) + 1 - 2 * DATA_TYPES.INT_SIZEOF)
    with (Z.of_nat (String.length msg) + 1) by (unfold DATA_TYPES.INT_SIZEOF; lia).
  by rewrite E5.
Qed.

(** X12.  [connect] on a connection without a pending attempt opens a
    socket to the initial broker port and writes the client-info request.
    The broker's reply is read from the first chunk; the port in it is
    stored and not checked: whether it is positive or not, the first
    socket is ended, a socket to that port is opened and the open-database
    request, of 628 bytes, is written.  No error is emitted and no
    callback is called; the attempt stays pending. *)
Theorem connect_sends_requests (n : nat) (self : CUBRIDConnection) (callback : UserCallback)
    (data : list Z) (port : Z) (rd : PacketReader) :
  connectionPending self = false ->
  ClientInfoExchangePacket_parse (new_PacketReader data) = Some (port, rd) ->
  let r1 := connect (call (2 + n)) (cb_user callback) self in
  let r2 := and_then r1 (socket_data (call (2 + n)) data) in
  let login := OpenDatabasePacket.write
                 (OpenDatabasePacket.new
                    {| OpenDatabasePacket.database := database self;
                       OpenDatabasePacket.user := user self;
                       OpenDatabasePacket.password := password self |})
                 new_PacketWriter in
  outcome_of r2 = Done tt
  /\ effects_of r2
     = [SocketConnect (initialBrokerPort self) (brokerServer self);
        SocketWrite (_buffer (ClientInfoExchangePacket_write new_PacketWriter));
        SocketEnd;
        SocketConnect port (brokerServer self);
        SocketWrite (_buffer login)]
  /\ length (_buffer login) = 628%nat
  /\ connectionBrokerPort (state_of r2) = port
  /\ connectionPending (state_of r2) = true
  /\ connectionOpened (state_of r2) = connectionOpened self
  /\ exists packet,
       dataListeners (_socket (state_of r2))
       = [(S (registered self),
           fresh_listener (on_login packet (cb_next [] (cb_connect (cb_user callback)))))].
Proof.
  intros Hc Hport r1 r2 login.
  assert (Z.of_nat (length (_buffer login)) = 628) as Hlen
    by (subst login; by rewrite (proj1 (open_database_request_length _ _))).
  assert (r2 = (Done tt,
                set__socket
                  {| dataListeners :=
                       [(S (registered self),
                         fresh_listener
                           (on_login (OpenDatabasePacket.new
                                        {| OpenDatabasePacket.database := database self;
                                           OpenDatabasePacket.user := user self;
                                           OpenDatabasePacket.password := password self |})
                                     (cb_next [] (cb_connect (cb_user callback)))))] |}
                  (S (S (registered self)))
                  (set_connectionBrokerPort port (set_connectionPending true self)),
                [SocketConnect (initialBrokerPort self) (brokerServer self);
                 SocketWrite (_buffer (ClientInfoExchangePacket_write new_PacketWriter));
                 SocketEnd;
                 SocketConnect port (brokerServer self);
                 SocketWrite (_buffer login)])) as ->.
  { subst r2 r1 login. unfold connect, enqueue. run_M. rewrite Hc. run_M.
    unfold _doGetBrokerPort. run_M.
    unfold socket_data, listener_data, brokerPort_data, removeListener. run_M.
    rewrite decide_False by (intros Hne; by apply Hne).
    run_M. rewrite Hport. run_M.
    destruct (0 <? port); unfold _doDatabaseLogin; run_M; reflexivity. }
  unfold outcome_of, state_of, effects_of. cbn [fst snd].
  repeat split; [lia|]. by eexists.
Qed.

(** X13.  The listener of the login, on a complete open-database response,
    removes the listeners and replaces the CAS info of the connection by
    the one of the response.  It then reads [errorCode] from the packet,
    where the decoder never stores it: whatever the response code, the
    login ends in the error whose message is ['undefined:undefined'].  The
    completion of [connect] resets the two pending flags, leaves the
    connection not open, emits the error and passes it to the callback;
    the session id and the auto-commit mode stay as they were. *)
Theorem login_response_completes (n : nat) (self : CUBRIDConnection) (callback : UserCallback)
    (packet : OpenDatabasePacket.t) (id : nat) (casInfo brokerInfo : list Z)
    (responseCode sid errorCode : Z) (msg : string) :
  dataListeners (_socket self)
  = [(id, fresh_listener (on_login packet (cb_next [] (cb_connect (cb_user callback)))))] ->
  length casInfo = 4%nat ->
  int32 responseCode ->
  let failed :=
    (Done tt,
     set_connectionOpened false
       (set_connectionPending false
          (set_queryPending false (set__CASInfo casInfo (without_listeners self)))),
     Emit EVENT_ERROR [JsErr Error_undefined] :: invoked callback [JsErr Error_undefined]) in
  (0 <= responseCode -> length brokerInfo = 8%nat -> int32 sid ->
     socket_data (call (3 + n)) (open_database_frame casInfo responseCode brokerInfo sid) self
     = failed)
  /\ (responseCode < 0 -> int32 errorCode ->
      int32 (8 + Z.of_nat (String.length msg) + 1) ->
      socket_data (call (3 + n)) (error_frame casInfo responseCode errorCode msg) self
      = failed).
Proof.
  intros Hl Hcas Hcode failed. subst failed. split.
  - intros Hpos Hb Hsid.
    destruct (open_database_parse_frame packet casInfo brokerInfo responseCode sid
                Hcas Hb Hcode Hpos Hsid) as (r' & Hp).
    rewrite (socket_data_single _ _ _ self Hl).
    unfold listener_data. cbn [fresh_listener kind].
    unfold mbind at 1, M_bind at 1.
    rewrite (receive_whole _ _ _ self
               (whole_frame_open_database_frame casInfo brokerInfo responseCode sid Hcas Hb)).
    unfold login_complete. rewrite Hp. run_M. by destruct callback.
  - intros Hneg Hec Hlen.
    destruct (open_database_parse_error_frame packet casInfo responseCode errorCode msg
                Hcas Hcode Hneg Hec Hlen) as (r' & Hp).
    rewrite (socket_data_single _ _ _ self Hl).
    unfold listener_data. cbn [fresh_listener kind].
    unfold mbind at 1, M_bind at 1.
    rewrite (receive_whole _ _ _ self
               (whole_frame_error_frame casInfo responseCode errorCode msg Hcas Hlen)).
    unfold login_complete. rewrite Hp. run_M. by destruct callback.
Qed.
End handshake.

(** ** Closing the connection *)

Lemma M_bind_done {A B} (m : M A) (f : A -> M B) (self self' : CUBRIDConnection) (a : A)
    (out : list Effect) :
  m self = (Done a, self', out) -> (m ≫= f) self = and_then (Done a, self', out) (f a).
Proof. intros Hm. unfold mbind, M_bind, and_then. by rewrite Hm. Qed.

Section close_properties.
Context `{Collaborators}.

Lemma closeQuery_head (call' : Callback -> list JsVal -> M unit) (self : CUBRIDConnection)
    (q : QueryHandle) (handles : list QueryHandle) (callback : Callback) :
  _queriesHandleList self = q :: handles ->
  _validateInputTimeout (ExecuteQueryPacket.handle q) = true ->
  closeQuery call' (ExecuteQueryPacket.handle q) callback self
  = (Done tt,
     set__socket
       {| dataListeners :=
            dataListeners (_socket self)
            ++ [(registered self,
                 fresh_listener (on_closeQuery (ExecuteQueryPacket.handle q) callback))] |}
       (S (registered self))
       (set__queriesHandleList handles (set_queryPending false self)),
     [SocketWrite (_buffer (AckPacket.CloseQueryPacket_write
                              (_CASInfo self) (ExecuteQueryPacket.handle q)
                              new_PacketWriter))]).
Proof.
  intros Hl Hv. unfold closeQuery. rewrite Hv. run_M. rewrite Hl. cbn [list_find].
  rewrite decide_True by done. run_M. reflexivity.
Qed.

Lemma closeQuery_acknowledged (m : nat) (self : CUBRIDConnection) (id : nat) (h : Z)
    (final : Callback) (data : list Z) :
  dataListeners (_socket self)
  = [(id, fresh_listener (on_closeQuery h (cb_whileNext final)))] ->
  acknowledged data ->
  socket_data (call (S m)) data self
  = and_then (Done tt, without_listeners self, [Emit EVENT_QUERY_CLOSED [JsNum h]])
             (while_handles (call m) final).
Proof.
  intros Hl (Hw & packet & rd & Hp & Hok).
  rewrite (socket_data_single _ _ _ self Hl).
  unfold listener_data. cbn [fresh_listener kind].
  unfold mbind at 1, M_bind at 1.
  rewrite (receive_whole _ _ _ self Hw).
  unfold closeQuery_complete, parse_ack. rewrite Hp. run_M.
  unfold ack_error, error_of_code. rewrite Hok. run_M.
  match goal with
  | |- context [while_handles ?c ?f ?s] => by destruct (while_handles c f s) as [[o s'] out]
  end.
Qed.

Lemma while_handles_done (n : nat) (self : CUBRIDConnection) (callback : UserCallback) :
  _queriesHandleList self = [] ->
  while_handles (call (2 + n))
    (cb_closeHandlesDone (cb_next [act_closeDatabase] (cb_close callback))) self
  = (Done tt,
     set__socket
       {| dataListeners :=
            dataListeners (_socket self)
            ++ [(registered self,
                 fresh_listener (on_closeDatabase (cb_next [] (cb_close callback))))] |}
       (S (registered self)) self,
     [SocketWrite (_buffer (AckPacket.CloseDatabasePacket_write (_CASInfo self)
                                                                new_PacketWriter))]).
Proof.
  intros Hh. unfold while_handles. run_M. rewrite Hh. run_M.
  unfold closeDatabase. run_M. reflexivity.
Qed.

Lemma while_handles_next (call' : Callback -> list JsVal -> M unit) (self : CUBRIDConnection)
    (q : QueryHandle) (handles : list QueryHandle) (final : Callback) :
  _queriesHandleList self = q :: handles ->
  while_handles call' final self
  = closeQuery call' (ExecuteQueryPacket.handle q) (cb_whileNext final) self.
Proof.
  intros Hh. unfold while_handles, mbind, M_bind, get. rewrite Hh.
  by destruct (closeQuery _ _ _ _) as [[o s] out].
Qed.

Lemma closeDatabase_acknowledged (n : nat) (self : CUBRIDConnection) (id : nat)
    (callback : UserCallback) (data : list Z) :
  dataListeners (_socket self)
  = [(id, fresh_listener (on_closeDatabase (cb_next [] (cb_close callback))))] ->
  acknowledged data ->
  socket_data (call (2 + n)) data self
  = (Done tt, without_listeners self,
     SocketDestroy :: Emit EVENT_CONNECTION_CLOSED [] :: invoked callback [JsNull]).
Proof.
  intros Hl (Hw & packet & rd & Hp & Hok).
  rewrite (socket_data_single _ _ _ self Hl).
  unfold listener_data. cbn [fresh_listener kind].
  unfold mbind at 1, M_bind at 1.
  rewrite (receive_whole _ _ _ self Hw).
  unfold closeDatabase_complete, parse_ack. rewrite Hp. run_M.
  unfold ack_error, error_of_code. rewrite Hok. run_M. by destruct callback.
Qed.

Lemma close_drains (n : nat) (callback : UserCallback) (handles : list QueryHandle) :
  forall (acks : list (list Z)) (self : CUBRIDConnection) (id : nat) (h : Z),
    dataListeners (_socket self)
    = [(id, fresh_listener
              (on_closeQuery h
                 (cb_whileNext (cb_closeHandlesDone
                                  (cb_next [act_closeDatabase] (cb_close callback))))))] ->
    _queriesHandleList self = handles ->
    Forall (fun q => _validateInputTimeout (ExecuteQueryPacket.handle q) = true) handles ->
    Forall acknowledged acks ->
    length acks = S (S (length handles)) ->
    queryPending self = false ->
    exists self',
      socket_chunks (3 + n) acks self
      = (Done tt, self',
         Emit EVENT_QUERY_CLOSED [JsNum h]
         :: close_trace (_CASInfo self) handles
            ++ SocketDestroy :: Emit EVENT_CONNECTION_CLOSED [] :: invoked callback [JsNull])
      /\ _queriesHandleList self' = []
      /\ dataListeners (_socket self') = []
      /\ _CASInfo self' = _CASInfo self
      /\ connectionOpened self' = connectionOpened self
      /\ connectionPending self' = connectionPending self
      /\ queryPending self' = false.
Proof.
  induction handles as [|q handles IH]; intros acks self id h Hl Hh Hv Hacks Hlen Hq'.
  - destruct acks as [|a1 [|a2 [|]]]; try discriminate Hlen.
    apply Forall_cons in Hacks as [Ha1 Hacks]. apply Forall_cons in Hacks as [Ha2 _].
    pose proof (closeQuery_acknowledged (2 + n) self id h _ a1 Hl Ha1) as E1.
    unfold and_then, state_of, effects_of in E1. cbn [fst snd] in E1.
    rewrite (while_handles_done n (without_listeners self) callback Hh) in E1.
    cbn [app] in E1.
    cbn [socket_chunks].
    rewrite (M_bind_done _ _ _ _ _ _ E1). unfold and_then, state_of, effects_of.
    cbn [fst snd].
    match goal with
    | |- context [(socket_data _ a2 ≫= _) ?s] =>
        rewrite (M_bind_done _ _ _ _ _ _
                   (closeDatabase_acknowledged (S n) s (registered self) callback a2
                                               eq_refl Ha2))
    end.
    unfold and_then, state_of, effects_of, mret, M_ret. cbn [fst snd app].
    rewrite app_nil_r.
    eexists. split; [reflexivity|]. done.
  - destruct acks as [|a1 acks]; [discriminate Hlen|].
    apply Forall_cons in Hacks as [Ha1 Hacks]. apply Forall_cons in Hv as [Hq Hv].
    injection Hlen as Hlen.
    pose proof (closeQuery_acknowledged (2 + n) self id h _ a1 Hl Ha1) as E1.
    unfold and_then, state_of, effects_of in E1. cbn [fst snd] in E1.
    rewrite (while_handles_next _ (without_listeners self) q handles _ Hh) in E1.
    rewrite (closeQuery_head _ (without_listeners self) q handles _ Hh Hq) in E1.
    cbn [app] in E1.
    cbn [socket_chunks].
    rewrite (M_bind_done _ _ _ _ _ _ E1). unfold and_then, state_of, effects_of.
    cbn [fst snd].
    match goal with
    | |- context [socket_chunks _ acks ?s] =>
        destruct (IH acks s (registered self) (ExecuteQueryPacket.handle q)
                    eq_refl eq_refl Hv Hacks Hlen eq_refl) as (self' & -> & Hrest)
    end.
    eexists. split; [reflexivity|]. exact Hrest.
Qed.

Lemma socket_writes_close_trace (casInfo : list Z) (handles : list QueryHandle) :
  socket_writes (close_trace casInfo handles)
  = ((fun q => _buffer (AckPacket.CloseQueryPacket_write
                          casInfo (ExecuteQueryPacket.handle q) new_PacketWriter))
       <$> handles)
    ++ [_buffer (AckPacket.CloseDatabasePacket_write casInfo new_PacketWriter)].
Proof.
  induction handles as [|q handles IH]; [done|].
  cbn [close_trace fmap list_fmap app].
  change (socket_writes (?a :: ?b :: ?l)) with (socket_writes [a; b] ++ socket_writes l).
  rewrite IH. reflexivity.
Qed.

Lemma close_starts (n : nat) (self : CUBRIDConnection) (callback : UserCallback) :
  close (call (3 + n)) callback self
  = while_handles (call (2 + n))
      (cb_closeHandlesDone (cb_next [act_closeDatabase] (cb_close callback)))
      (set_connectionOpened false (set_connectionPending false (set_queryPending false self))).
Proof.
  unfold close, enqueue. unfold mbind, M_bind, modify.
  change (call (3 + n) (cb_next [act_closeHandles; act_closeDatabase] (cb_close callback)) [])
    with (while_handles (call (2 + n))
            (cb_closeHandlesDone (cb_next [act_closeDatabase] (cb_close callback)))).
  destruct (while_handles _ _ _) as [[o s] out]. cbn. by destruct o.
Qed.

(** X14.  [close] resets the three flags and then closes the query handles
    one at a time, in the order of the list: the close-query request of a
    handle is written when the request before it has been acknowledged,
    and the close-database request after the last of them.  When the server
    acknowledges every request, one acknowledgement more than there are
    handles, the list ends empty, the socket is destroyed, the close event
    is emitted and the callback gets a null error. *)
Theorem close_closes_every_handle (n : nat) (self : CUBRIDConnection)
    (callback : UserCallback) (acks : list (list Z)) :
  dataListeners (_socket self) = [] ->
  Forall (fun q => _validateInputTimeout (ExecuteQueryPacket.handle q) = true)
         (_queriesHandleList self) ->
  Forall acknowledged acks ->
  length acks = S (length (_queriesHandleList self)) ->
  let r := and_then (close (call (3 + n)) callback self) (socket_chunks (3 + n) acks) in
  outcome_of r = Done tt
  /\ effects_of r
     = close_trace (_CASInfo self) (_queriesHandleList self)
       ++ SocketDestroy :: Emit EVENT_CONNECTION_CLOSED [] :: invoked callback [JsNull]
  /\ socket_writes (effects_of r)
     = ((fun q => _buffer (AckPacket.CloseQueryPacket_write
                             (_CASInfo self) (ExecuteQueryPacket.handle q) new_PacketWriter))
          <$> _queriesHandleList self)
       ++ [_buffer (AckPacket.CloseDatabasePacket_write (_CASInfo self) new_PacketWriter)]
  /\ _queriesHandleList (state_of r) = []
  /\ dataListeners (_socket (state_of r)) = []
  /\ connectionOpened (state_of r) = false
  /\ connectionPending (state_of r) = false
  /\ queryPending (state_of r) = false.
Proof.
  intros Hl Hv Hacks Hlen r.
  set (self0 := set_connectionOpened false
                  (set_connectionPending false (set_queryPending false self))).
  assert (exists self',
             r = (Done tt, self',
                  close_trace (_CASInfo self) (_queriesHandleList self)
                  ++ SocketDestroy :: Emit EVENT_CONNECTION_CLOSED []
                     :: invoked callback [JsNull])
             /\ _queriesHandleList self' = []
             /\ dataListeners (_socket self') = []
             /\ connectionOpened self' = false
             /\ connectionPending self' = false
             /\ queryPending self' = false) as (self' & -> & Hh' & Hl' & Ho' & Hc' & Hq').
  { subst r. rewrite close_starts. fold self0.
    destruct (_queriesHandleList self) as [|q handles] eqn:Hh.
    - destruct acks as [|a [|]]; try discriminate Hlen.
      apply Forall_cons in Hacks as [Ha _].
      rewrite (while_handles_done n self0 callback Hh).
      unfold and_then, state_of, effects_of. cbn [fst snd socket_chunks].
      match goal with
      | |- context [(socket_data _ a ≫= _) ?s] =>
          rewrite (M_bind_done _ _ _ _ _ _
                     (closeDatabase_acknowledged (S n) s (registered self) callback a
                        ltac:(cbn; by rewrite Hl) Ha))
      end.
      unfold and_then, state_of, effects_of, mret, M_ret. cbn [fst snd app close_trace].
      rewrite app_nil_r. eexists. split; [reflexivity|]. done.
    - apply Forall_cons in Hv as [Hq Hv].
      rewrite (while_handles_next _ self0 q handles _ Hh).
      rewrite (closeQuery_head _ self0 q handles _ Hh Hq).
      unfold and_then, state_of, effects_of. cbn [fst snd].
      match goal with
      | |- context [socket_chunks _ acks ?s] =>
          destruct (close_drains n callback handles acks s (registered self)
                      (ExecuteQueryPacket.handle q)
                      ltac:(cbn; by rewrite Hl) eq_refl Hv Hacks Hlen eq_refl)
            as (self' & -> & H1 & H2 & _ & H4 & H5 & H6)
      end.
      eexists. split; [reflexivity|]. repeat split; assumption. }
  unfold outcome_of, state_of, effects_of. cbn [fst snd].
  repeat split; try done.
  unfold socket_writes. rewrite omap_app. fold (socket_writes (close_trace (_CASInfo self)
                                                             (_queriesHandleList self))).
  rewrite socket_writes_close_trace.
  rewrite <- (app_nil_r (_ ++ [_])) at 2. f_equal. by destruct callback.
Qed.

Lemma closeQuery_refused (m : nat) (self : CUBRIDConnection) (id : nat) (h : Z)
    (final : Callback) (data : list Z) (packet : AckPacket.t) (rd : PacketReader) :
  dataListeners (_socket self)
  = [(id, fresh_listener (on_closeQuery h (cb_whileNext final)))] ->
  whole_frame data ->
  AckPacket.parse (new_PacketReader data) = Some (packet, rd) ->
  AckPacket.errorCode packet ≠ 0 ->
  let err := JsErr (Error_server (AckPacket.errorCode packet) (AckPacket.errorMsg packet)) in
  socket_data (call (S m)) data self
  = and_then (Done tt, without_listeners self, [Emit EVENT_ERROR [err]])
             (if while_ends_at_error then call m final [err]
              else while_handles (call m) final).
Proof.
  intros Hl Hw Hp Herr err. subst err.
  rewrite (socket_data_single _ _ _ self Hl).
  unfold listener_data. cbn [fresh_listener kind].
  unfold mbind at 1, M_bind at 1.
  rewrite (receive_whole _ _ _ self Hw).
  unfold closeQuery_complete, parse_ack. rewrite Hp. run_M.
  unfold ack_error, error_of_code. apply Z.eqb_neq in Herr. rewrite Herr. run_M.
  destruct while_ends_at_error; cbn [andb].
  - match goal with
    | |- context [call ?c ?f ?a ?s] => by destruct (call c f a s) as [[o s'] out]
    end.
  - match goal with
    | |- context [while_handles ?c ?f ?s] => by destruct (while_handles c f s) as [[o s'] out]
    end.
Qed.

Lemma close_handles_done_error (n : nat) (self : CUBRIDConnection) (callback : UserCallback)
    (err : JsVal) :
  is_error err = true ->
  call (2 + n) (cb_closeHandlesDone (cb_next [act_closeDatabase] (cb_close callback)))
       [err] self
  = (Done tt,
     set__socket
       {| dataListeners :=
            dataListeners (_socket self)
            ++ [(registered self,
                 fresh_listener (on_closeDatabase (cb_next [] (cb_close callback))))] |}
       (S (registered self)) self,
     [LogError ERROR_ON_CLOSE_QUERY_HANDLE err;
      SocketWrite (_buffer (AckPacket.CloseDatabasePacket_write (_CASInfo self)
                                                                new_PacketWriter))]).
Proof.
  intros He. cbn [call Nat.add]. unfold call_body at 1. cbn [arg lookup list_lookup default].
  run_M. rewrite He. run_M. unfold closeDatabase. run_M. reflexivity.
Qed.

Lemma invocations_app (out out' : list Effect) :
  invocations (out ++ out') = invocations out ++ invocations out'.
Proof. apply omap_app. Qed.

Lemma invocations_close_trace (casInfo : list Z) (handles : list QueryHandle) :
  invocations (close_trace casInfo handles) = [].
Proof. induction handles as [|q handles IH]; [done|]. exact IH. Qed.

(** X15.  An error of the server on the close-query request of the first
    handle is not fatal to [close]: the error is emitted, and whether
    [ActionQueue.while] then ends the loop, so that the error is logged
    and the handles after the first stay in the list without a request of
    their own, or goes on, so that they are closed in turn, the
    close-database request is written, and once the requests that follow
    are acknowledged the socket is destroyed, the close event is emitted
    and the callback gets a null error. *)
Theorem close_survives_error (n : nat) (self : CUBRIDConnection)
    (callback : UserCallback) (q : QueryHandle) (handles : list QueryHandle)
    (data : list Z) (acks : list (list Z)) (packet : AckPacket.t) (rd : PacketReader) :
  dataListeners (_socket self) = [] ->
  _queriesHandleList self = q :: handles ->
  _validateInputTimeout (ExecuteQueryPacket.handle q) = true ->
  Forall (fun q => _validateInputTimeout (ExecuteQueryPacket.handle q) = true) handles ->
  whole_frame data ->
  AckPacket.parse (new_PacketReader data) = Some (packet, rd) ->
  AckPacket.errorCode packet ≠ 0 ->
  Forall acknowledged acks ->
  length acks = (if while_ends_at_error then 1%nat else S (length handles)) ->
  let r := and_then (close (call (3 + n)) callback self)
                    (socket_chunks (3 + n) (data :: acks)) in
  let err := JsErr (Error_server (AckPacket.errorCode packet) (AckPacket.errorMsg packet)) in
  outcome_of r = Done tt
  /\ effects_of r
     = SocketWrite (_buffer (AckPacket.CloseQueryPacket_write
                               (_CASInfo self) (ExecuteQueryPacket.handle q)
                               new_PacketWriter))
       :: Emit EVENT_ERROR [err]
       :: (if while_ends_at_error
           then LogError ERROR_ON_CLOSE_QUERY_HANDLE err :: close_trace (_CASInfo self) []
           else close_trace (_CASInfo self) handles)
          ++ SocketDestroy :: Emit EVENT_CONNECTION_CLOSED [] :: invoked callback [JsNull]
  /\ invocations (effects_of r) = invocations (invoked callback [JsNull])
  /\ _queriesHandleList (state_of r) = (if while_ends_at_error then handles else [])
  /\ dataListeners (_socket (state_of r)) = [].
Proof.
  intros Hl Hh Hq Hv Hw Hp Herr Hacks Hlen r err.
  set (self0 := set_connectionOpened false
                  (set_connectionPending false (set_queryPending false self))).
  set (final := cb_closeHandlesDone (cb_next [act_closeDatabase] (cb_close callback))).
  set (self1 := set__socket
                  {| dataListeners :=
                       [(registered self,
                         fresh_listener (on_closeQuery (ExecuteQueryPacket.handle q)
                                                       (cb_whileNext final)))] |}
                  (S (registered self))
                  (set__queriesHandleList handles (set_queryPending false self0))).
  assert (close (call (3 + n)) callback self
          = (Done tt, self1,
             [SocketWrite (_buffer (AckPacket.CloseQueryPacket_write
                                      (_CASInfo self) (ExecuteQueryPacket.handle q)
                                      new_PacketWriter))])) as Hclose.
  { rewrite close_starts. fold self0 final.
    rewrite (while_handles_next _ self0 q handles _ Hh).
    rewrite (closeQuery_head _ self0 q handles _ Hh Hq).
    subst self1. cbn. by rewrite Hl. }
  pose proof (closeQuery_refused (2 + n) self1 (registered self)
                (ExecuteQueryPacket.handle q) final data packet rd eq_refl Hw Hp Herr)
    as Hdata.
  cbv zeta in Hdata. fold err in Hdata. unfold final in Hdata.
  assert (exists self',
             r = (Done tt, self',
                  SocketWrite (_buffer (AckPacket.CloseQueryPacket_write
                                          (_CASInfo self) (ExecuteQueryPacket.handle q)
                                          new_PacketWriter))
                  :: Emit EVENT_ERROR [err]
                  :: (if while_ends_at_error
                      then LogError ERROR_ON_CLOSE_QUERY_HANDLE err
                           :: close_trace (_CASInfo self) []
                      else close_trace (_CASInfo self) handles)
                     ++ SocketDestroy :: Emit EVENT_CONNECTION_CLOSED []
                        :: invoked callback [JsNull])
             /\ _queriesHandleList self' = (if while_ends_at_error then handles else [])
             /\ dataListeners (_socket self') = []) as (self' & -> & Hh' & Hl').
  { subst r. rewrite Hclose. unfold and_then at 1, state_of, effects_of.
    cbn [fst snd socket_chunks].
    destruct while_ends_at_error.
    - destruct acks as [|ack [|]]; try discriminate Hlen.
      apply Forall_cons in Hacks as [Hack _].
      unfold and_then, state_of, effects_of in Hdata. cbn [fst snd] in Hdata.
      rewrite (close_handles_done_error n (without_listeners self1) callback err eq_refl)
        in Hdata.
      cbn [app] in Hdata.
      change (call (3 + n)) with (call (S (2 + n))).
      rewrite (M_bind_done _ _ _ _ _ _ Hdata).
      unfold and_then at 1, state_of, effects_of. cbn [fst snd socket_chunks].
      match goal with
      | |- context [(socket_data _ ack ≫= _) ?s] =>
          rewrite (M_bind_done _ _ _ _ _ _
                     (closeDatabase_acknowledged (S n) s (S (registered self)) callback ack
                        eq_refl Hack))
      end.
      unfold and_then, state_of, effects_of, mret, M_ret. cbn [fst snd app close_trace].
      rewrite app_nil_r. eexists. split; [reflexivity|]. done.
    - unfold and_then, state_of, effects_of in Hdata. cbn [fst snd] in Hdata.
      destruct handles as [|q2 handles].
      + destruct acks as [|ack [|]]; try discriminate Hlen.
        apply Forall_cons in Hacks as [Hack _].
        rewrite (while_handles_done n (without_listeners self1) callback eq_refl) in Hdata.
        cbn [app] in Hdata.
        change (call (3 + n)) with (call (S (2 + n))).
        rewrite (M_bind_done _ _ _ _ _ _ Hdata).
        unfold and_then at 1, state_of, effects_of. cbn [fst snd socket_chunks].
        match goal with
        | |- context [(socket_data _ ack ≫= _) ?s] =>
            rewrite (M_bind_done _ _ _ _ _ _
                       (closeDatabase_acknowledged (S n) s (S (registered self)) callback ack
                          eq_refl Hack))
        end.
        unfold and_then, state_of, effects_of, mret, M_ret. cbn [fst snd app close_trace].
        rewrite app_nil_r. eexists. split; [reflexivity|]. done.
      + apply Forall_cons in Hv as [Hq2 Hv].
        rewrite (while_handles_next _ (without_listeners self1) q2 handles _ eq_refl)
          in Hdata.
        rewrite (closeQuery_head _ (without_listeners self1) q2 handles _ eq_refl Hq2)
          in Hdata.
        cbn [app] in Hdata.
        change (call (3 + n)) with (call (S (2 + n))).
        rewrite (M_bind_done _ _ _ _ _ _ Hdata).
        unfold and_then at 1, state_of, effects_of. cbn [fst snd].
        match goal with
        | |- context [socket_chunks _ acks ?s] =>
            destruct (close_drains n callback handles acks s (S (registered self))
                        (ExecuteQueryPacket.handle q2)
                        eq_refl eq_refl Hv Hacks Hlen eq_refl)
              as (self' & -> & H1 & H2 & _)
        end.
        eexists. split; [reflexivity|]. by split. }
  unfold outcome_of, state_of, effects_of. cbn [fst snd].
  split; [done|]. split; [done|]. split; [|by split].
  destruct while_ends_at_error; [by destruct callback|].
  change (invocations (?a :: ?b :: ?l ++ ?t))
    with (invocations ([a; b] ++ l ++ t)).
  rewrite !invocations_app, invocations_close_trace. by destruct callback.
Qed.
End close_properties.

(** ** Frames that arrive in several chunks *)

Section reassembly.
Context `{Collaborators}.
Variable n : nat.
Variable k : ListenerKind.
Variable handler : list Z -> M unit.
Hypothesis listener_assembles :
  forall (id : nat) (l : DataListener) (data : list Z) (self : CUBRIDConnection),
    kind l = k ->
    listener_data (call n) data (id, l) self
    = (complete ← receive id l data;
       match complete with
       | None => mret tt
       | Some responseData' => handler responseData'
       end) self.

Lemma receive_last (id : nat) (acc last : list Z) (self : CUBRIDConnection) :
  whole_frame (acc ++ last) ->
  receive id (listener_at k (acc ++ last) acc) last self
  = (Done (Some (acc ++ last)), without_listeners self, []).
Proof using Type.
  intros [Hlen Hexp]. apply receive_complete.
  unfold frame_complete, listener_at, _combineData, _INVALID_RESPONSE_LENGTH in *.
  cbn [responseData expectedResponseLength].
  unfold DATA_TYPES.DATA_LENGTH_SIZEOF in *.
  repeat case_bool_decide; cbn [andb]; try done; try lia.
Qed.

Lemma receive_more (id : nat) (acc data rest : list Z) (self : CUBRIDConnection) :
  whole_frame (acc ++ data ++ rest) ->
  rest ≠ [] ->
  dataListeners (_socket self) = [(id, listener_at k (acc ++ data ++ rest) acc)] ->
  receive id (listener_at k (acc ++ data ++ rest) acc) data self
  = (Done None,
     set__socket
       {| dataListeners := [(id, listener_at k (acc ++ data ++ rest) (acc ++ data))] |}
       (registered self) self, []).
Proof using Type.
  intros [Hlen Hexp] Hrest Hl.
  assert (length rest ≠ 0%nat) as Hnz by (by destruct rest).
  unfold receive, listener_at, _combineData, _INVALID_RESPONSE_LENGTH in *.
  cbn [responseData expectedResponseLength kind].
  unfold store_listener, mbind, M_bind, modify. rewrite Hl. cbn [fmap list_fmap fst].
  rewrite (bool_decide_eq_true_2 (id = id)) by done.
  rewrite !length_app in *.
  assert (DATA_TYPES.DATA_LENGTH_SIZEOF <= Z.of_nat (length acc + length data) ->
          _getExpectedResponseLength (acc ++ data)
          = Z.of_nat (length acc + (length data + length rest))) as Hsame.
  { intros Hge. rewrite Hexp. unfold _getExpectedResponseLength.
    rewrite (app_assoc acc data rest).
    rewrite (take_app_le (acc ++ data) rest); [done|]. rewrite length_app.
    unfold DATA_TYPES.DATA_LENGTH_SIZEOF in Hge. lia. }
  unfold DATA_TYPES.DATA_LENGTH_SIZEOF in *.
  destruct (Z_lt_le_dec (Z.of_nat (length acc + length data)) 4) as [Hlt|Hge];
    [|rewrite (Hsame Hge)];
    destruct (Z_lt_le_dec (Z.of_nat (length acc)) 4) as [Hacc|Hacc];
    repeat match goal with
           | |- context [bool_decide ?P] =>
               first [rewrite (bool_decide_eq_true_2 P) by lia
                     |rewrite (bool_decide_eq_false_2 P) by lia]
           end;
    cbn [andb];
    repeat match goal with
           | |- context [bool_decide ?P] =>
               first [rewrite (bool_decide_eq_true_2 P) by lia
                     |rewrite (bool_decide_eq_false_2 P) by lia]
           end;
    try reflexivity; lia.
Qed.

Lemma chunks_assembled (id : nat) (last : list Z) (chunks : list (list Z)) :
  forall (acc : list Z) (self : CUBRIDConnection),
    last ≠ [] ->
    whole_frame (acc ++ mjoin chunks ++ last) ->
    dataListeners (_socket self) = [(id, listener_at k (acc ++ mjoin chunks ++ last) acc)] ->
    socket_chunks n (chunks ++ [last]) self
    = handler (acc ++ mjoin chunks ++ last) (without_listeners self).
Proof using listener_assembles.
  induction chunks as [|data chunks IH]; intros acc self Hlast Hw Hl.
  - cbn [app mjoin list_join socket_chunks] in *. rewrite M_bind_ret.
    rewrite (socket_data_single _ _ _ self Hl).
    rewrite listener_assembles by done.
    unfold mbind at 1, M_bind at 1. rewrite (receive_last _ _ _ _ Hw).
    by destruct (handler _ _) as [[o s] out].
  - cbn [app mjoin list_join socket_chunks] in *.
    unfold mbind at 1, M_bind at 1.
    rewrite (socket_data_single _ _ _ self Hl).
    rewrite listener_assembles by done.
    rewrite <- app_assoc in *.
    unfold mbind at 1, M_bind at 1.
    rewrite (receive_more id acc data (mjoin chunks ++ last) self Hw); [|by intros [_ ?]%app_eq_nil|done].
    unfold mret at 1, M_ret at 1. cbn [app].
    rewrite (app_assoc acc data) in *.
    match goal with
    | |- context [socket_chunks _ _ ?s] => rewrite (IH (acc ++ data) s Hlast Hw eq_refl)
    end.
    by destruct (handler _ _) as [[o s] out].
Qed.
End reassembly.

Section reassembly_theorem.
Context `{Collaborators}.

(** X16.  For the listeners of the login, of [query] and of [fetch], a
    frame that arrives in several chunks has the effect of the same frame
    arriving in one chunk: the chunks are appended, the expected length is
    read once from the first four bytes, nothing happens before the last
    byte is there, and the assembled bytes are decoded. *)
Theorem chunks_reassembled (n : nat) (self : CUBRIDConnection) (id : nat)
    (k : ListenerKind) (chunks : list (list Z)) (last : list Z) :
  decodes_assembled k ->
  dataListeners (_socket self) = [(id, fresh_listener k)] ->
  last ≠ [] ->
  whole_frame (mjoin chunks ++ last) ->
  socket_chunks n (chunks ++ [last]) self
  = socket_data (call n) (mjoin chunks ++ last) self.
Proof.
  intros Hk Hl Hlast Hw.
  assert (mjoin chunks ++ last ≠ []) as Hne by (by intros [_ ?]%app_eq_nil).
  assert (forall handler,
            (forall (id : nat) (l : DataListener) (data : list Z) (self : CUBRIDConnection),
               kind l = k ->
               listener_data (call n) data (id, l) self
               = (complete ← receive id l data;
                  match complete with
                  | None => mret tt
                  | Some responseData' => handler responseData'
                  end) self) ->
            socket_chunks n (chunks ++ [last]) self
            = socket_data (call n) (mjoin chunks ++ last) self) as Hgen.
  { intros handler Hh.
    rewrite (chunks_assembled n k handler Hh id last chunks [] self Hlast Hw Hl).
    rewrite <- (M_bind_ret (socket_data (call n) (mjoin chunks ++ last)) self).
    change ((_ ← socket_data (call n) (mjoin chunks ++ last); mret tt) self)
      with (socket_chunks n ([] ++ [mjoin chunks ++ last]) self).
    rewrite (chunks_assembled n k handler Hh id (mjoin chunks ++ last) [] [] self Hne);
      [done| |].
    - cbn [mjoin list_join app]. exact Hw.
    - cbn [mjoin list_join app]. exact Hl. }
  destruct k as [cb|packet cb|sql cb|fp cb| | | | |]; try done.
  - apply (Hgen (login_complete (call n) packet cb)).
    intros id' [k' rd e] data self' Hkind. cbn in Hkind. by subst k'.
  - apply (Hgen (query_complete (call n) sql cb)).
    intros id' [k' rd e] data self' Hkind. cbn in Hkind. by subst k'.
  - apply (Hgen (fetch_complete fp cb)).
    intros id' [k' rd e] data self' Hkind. cbn in Hkind. by subst k'.
Qed.
End reassembly_theorem.


(** ** What sets [queryPending] *)

Section query_pending_invariant.
Context `{Collaborators}.

Lemma listener_data_keeps (n : nat) (data : list Z) (entry : nat * DataListener) :
  keeps not_query_pending (listener_data (call n) data entry).
Proof.
  pose proof (call_keeps_not_query_pending n) as Hcall.
  unfold listener_data. destruct entry as [id [k rd e]]. cbn [kind].
  destruct k;
    repeat first
      [ keeps_step
      | progress unfold receive, store_listener, removeAllListeners, removeListener,
          brokerPort_data, login_complete, query_complete, fetch_complete,
          closeQuery_complete, closeDatabase_complete, end_tran_complete, toggle_complete,
          parse_ack, if_function, invoke_user, _emitEvent ].
  apply keeps_modify. intros self Hq. unfold not_query_pending in *.
  by destruct (_queryCache self).
Qed.

Lemma for_each_keeps {A} (f : A -> M unit) (l : list A) :
  (forall x, keeps not_query_pending (f x)) -> keeps not_query_pending (for_each f l).
Proof.
  intros Hf. induction l as [|x l IH]; cbn [for_each]; [apply keeps_ret|].
  apply keeps_bind; [apply Hf|by intros _].
Qed.

(** X17.  Only [query] sets [queryPending]: on a connection whose flag is
    not set, no chunk that arrives, whatever listeners are registered, and
    no call of [connect], [fetch], [closeQuery], [close], [commit],
    [rollback], [setAutoCommitMode] or [beginTransaction] sets it. *)
Theorem only_query_sets_queryPending (n : nat) (data : list Z) (queryHandle : Z)
    (mode : JsVal) (callback : UserCallback) :
  keeps not_query_pending (socket_data (call n) data)
  /\ keeps not_query_pending (connect (call n) (cb_user callback))
  /\ keeps not_query_pending (fetch queryHandle callback)
  /\ keeps not_query_pending (closeQuery (call n) queryHandle (cb_user callback))
  /\ keeps not_query_pending (close (call n) callback)
  /\ keeps not_query_pending (commit callback)
  /\ keeps not_query_pending (rollback callback)
  /\ keeps not_query_pending (setAutoCommitMode (call n) mode callback)
  /\ keeps not_query_pending (beginTransaction (call n) callback).
Proof.
  pose proof (call_keeps_not_query_pending n) as Hcall.
  pose proof (closeQuery_keeps (call n) Hcall) as Hclose.
  repeat split.
  - unfold socket_data. apply keeps_bind; [apply keeps_get|].
    intros self. apply for_each_keeps. apply listener_data_keeps.
  - unfold connect, enqueue, if_function, _emitEvent. repeat keeps_step.
  - unfold fetch, on_data, removeAllListeners, store_listener, socket_write, invoke_user,
      _emitEvent.
    repeat keeps_step.
  - apply Hclose.
  - unfold close, enqueue. repeat keeps_step.
  - unfold commit, on_data, removeAllListeners, socket_write, invoke_user, _emitEvent.
    repeat keeps_step.
  - unfold rollback, on_data, removeAllListeners, socket_write, invoke_user, _emitEvent.
    repeat keeps_step.
  - unfold setAutoCommitMode, _toggleAutoCommitMode, on_data, socket_write, if_function,
      _emitEvent.
    repeat keeps_step.
  - unfold beginTransaction, _toggleAutoCommitMode, on_data, socket_write, if_function,
      _emitEvent.
    repeat keeps_step.
Qed.
End query_pending_invariant.

(** ** Further operations *)

Section further_operations.
Context `{Collaborators}.

(** X18.  Before it queues anything, [batchExecuteNoQuery] completes an
    empty array at once, with its event and a null error, and rejects a
    call in which a statement fails validation: unlike [query] and
    [closeQuery], it passes the validation error to the callback.  Only
    when there is a statement and all are valid does the call reach the
    queue; nothing is emitted before. *)
Theorem batchExecuteNoQuery_validation (self : CUBRIDConnection)
    (sqls : list string + string) (callback : UserCallback) :
  let validation := JsErr (Error_of ERROR_INPUT_VALIDATION) in
  let r := batchExecuteNoQuery_checks sqls callback self in
  (sqls = inl [] ->
     r = (Done None, self,
          Emit EVENT_BATCH_COMMANDS_COMPLETED [] :: invoked callback [JsNull]))
  /\ (Exists (fun sql => _validateInputSQLString sql = false) (statements sqls) ->
      r = (Done None, self, Emit EVENT_ERROR [validation] :: invoked callback [validation]))
  /\ (sqls ≠ inl [] ->
      Forall (fun sql => _validateInputSQLString sql = true) (statements sqls) ->
      r = (Done (Some (statements sqls)), self, [])).
Proof.
  cbv zeta. split; [|split].
  - intros ->. unfold batchExecuteNoQuery_checks. run_M. by destruct callback.
  - intros Hex.
    assert (forallb _validateInputSQLString (statements sqls) = false) as Hall.
    { apply not_true_is_false. intros Hall. rewrite forallb_forall in Hall.
      apply Exists_exists in Hex as (sql & Hin & Hsql).
      apply list_elem_of_In, Hall in Hin. congruence. }
    unfold batchExecuteNoQuery_checks.
    destruct sqls as [[|sql sqlsArr]|sql].
    + by apply Exists_nil in Hex.
    + rewrite Hall. run_M. by destruct callback.
    + rewrite Hall. run_M. by destruct callback.
  - intros Hne Hall.
    assert (forallb _validateInputSQLString (statements sqls) = true) as Hall'.
    { apply forallb_forall. intros sql Hin.
      rewrite Forall_forall in Hall. by apply Hall, list_elem_of_In. }
    unfold batchExecuteNoQuery_checks.
    destruct sqls as [[|sql sqlsArr]|sql]; [done| |]; by rewrite Hall'.
Qed.

(** X19.  The handle that [closeQuery] has taken out of the list stays out
    whatever the server answers.  On a complete acknowledgement the
    close-query event, with the handle, or the error of the response is
    emitted, the callback gets a null error or that error, and the
    listeners are removed. *)
Theorem closeQuery_response (n : nat) (self : CUBRIDConnection) (q : QueryHandle)
    (handles : list QueryHandle) (callback : UserCallback) (data : list Z)
    (packet : AckPacket.t) (rd : PacketReader) :
  dataListeners (_socket self) = [] ->
  _queriesHandleList self = q :: handles ->
  _validateInputTimeout (ExecuteQueryPacket.handle q) = true ->
  whole_frame data ->
  AckPacket.parse (new_PacketReader data) = Some (packet, rd) ->
  let r := and_then (closeQuery (call (S n)) (ExecuteQueryPacket.handle q)
                                (cb_user callback) self)
                    (socket_data (call (S n)) data) in
  let err := ack_error packet in
  outcome_of r = Done tt
  /\ effects_of r
     = SocketWrite (_buffer (AckPacket.CloseQueryPacket_write
                               (_CASInfo self) (ExecuteQueryPacket.handle q)
                               new_PacketWriter))
       :: (if is_error err then Emit EVENT_ERROR [err]
           else Emit EVENT_QUERY_CLOSED [JsNum (ExecuteQueryPacket.handle q)])
       :: invoked callback [err]
  /\ (AckPacket.errorCode packet ≠ 0 -> is_error err = true)
  /\ _queriesHandleList (state_of r) = handles
  /\ queryPending (state_of r) = false
  /\ dataListeners (_socket (state_of r)) = [].
Proof.
  intros Hl Hh Hq Hw Hp r err.
  assert (r = (Done tt,
               without_listeners
                 (set__socket
                    {| dataListeners :=
                         [(registered self,
                           fresh_listener (on_closeQuery (ExecuteQueryPacket.handle q)
                                                         (cb_user callback)))] |}
                    (S (registered self))
                    (set__queriesHandleList handles (set_queryPending false self))),
               [SocketWrite (_buffer (AckPacket.CloseQueryPacket_write
                                        (_CASInfo self) (ExecuteQueryPacket.handle q)
                                        new_PacketWriter))]
               ++ (if is_error err then Emit EVENT_ERROR [err]
                   else Emit EVENT_QUERY_CLOSED [JsNum (ExecuteQueryPacket.handle q)])
                  :: invoked callback [err])) as ->.
  { subst r. rewrite (closeQuery_head _ self q handles _ Hh Hq).
    unfold and_then, state_of, effects_of. cbn [fst snd]. rewrite Hl. cbn [app].
    set (self1 := set__socket _ _ _).
    rewrite (socket_data_single _ _ _ self1 eq_refl).
    unfold listener_data. cbn [fresh_listener kind].
    unfold mbind at 1, M_bind at 1.
    rewrite (receive_whole _ _ _ self1 Hw).
    unfold closeQuery_complete, parse_ack. rewrite Hp. subst err.
    destruct (is_error (ack_error packet)) eqn:He; run_M; rewrite He;
      by destruct callback. }
  unfold outcome_of, state_of, effects_of. cbn [fst snd].
  repeat split.
  intros Herr. subst err. unfold ack_error, error_of_code.
  apply Z.eqb_neq in Herr. by rewrite Herr.
Qed.

(** X20.  When [query] has started the connection itself, the error in
    which every login ends goes on to the query: the completion of
    [connect] emits it, the queue of [query] skips the execute request,
    and the completion of [query] emits it again and passes it to the
    callback, with [undefined] for the result and the handle.  Nothing is
    written; both pending flags are reset and the connection is not
    open. *)
Theorem query_fails_at_login (n : nat) (self : CUBRIDConnection) (sql : string)
    (callback : UserCallback) (packet : OpenDatabasePacket.t) (id : nat)
    (casInfo brokerInfo : list Z) (responseCode sid : Z) :
  dataListeners (_socket self)
  = [(id, fresh_listener
            (on_login packet
               (cb_next [] (cb_connect (cb_next [act_executeQuery sql callback]
                                                (cb_query callback))))))] ->
  length casInfo = 4%nat -> length brokerInfo = 8%nat ->
  int32 responseCode -> 0 <= responseCode -> int32 sid ->
  let r := socket_data (call (4 + n))
             (open_database_frame casInfo responseCode brokerInfo sid) self in
  let err := JsErr Error_undefined in
  outcome_of r = Done tt
  /\ effects_of r
     = [Emit EVENT_ERROR [err]; Emit EVENT_ERROR [err]]
       ++ invoked callback [err; JsUndefined; JsUndefined]
  /\ socket_writes (effects_of r) = []
  /\ queryPending (state_of r) = false
  /\ connectionPending (state_of r) = false
  /\ connectionOpened (state_of r) = false
  /\ sessionId (state_of r) = sessionId self
  /\ autoCommitMode (state_of r) = autoCommitMode self
  /\ dataListeners (_socket (state_of r)) = [].
Proof.
  intros Hl Hcas Hb Hcode Hpos Hsid r err.
  destruct (open_database_parse_frame packet casInfo brokerInfo responseCode sid
              Hcas Hb Hcode Hpos Hsid) as (r' & Hp).
  assert (exists self',
             r = (Done tt, self',
                  [Emit EVENT_ERROR [err]; Emit EVENT_ERROR [err]]
                  ++ invoked callback [err; JsUndefined; JsUndefined])
             /\ queryPending self' = false
             /\ connectionPending self' = false
             /\ connectionOpened self' = false
             /\ sessionId self' = sessionId self
             /\ autoCommitMode self' = autoCommitMode self
             /\ dataListeners (_socket self') = [])
    as (self' & -> & Hrest).
  { subst r err. rewrite (socket_data_single _ _ _ self Hl).
    unfold listener_data. cbn [fresh_listener kind].
    unfold mbind at 1, M_bind at 1.
    rewrite (receive_whole _ _ _ self
               (whole_frame_open_database_frame casInfo brokerInfo responseCode sid Hcas Hb)).
    unfold login_complete. rewrite Hp. run_M.
    destruct callback; (eexists; split; [reflexivity|]; done). }
  unfold outcome_of, state_of, effects_of. cbn [fst snd].
  split; [done|]. split; [done|]. split; [by destruct callback|]. exact Hrest.
Qed.
End further_operations.

(** * Further runs on concrete inputs *)

Section further_runs.
#[local] Existing Instance reference.

Lemma whole_frame_ack_response : whole_frame ack_response.
Proof. split; [vm_compute; discriminate|reflexivity]. Defined.

Lemma whole_frame_no_more_data_response : whole_frame no_more_data_response.
Proof. split; [vm_compute; discriminate|reflexivity]. Defined.

Lemma whole_frame_execute_response : whole_frame execute_response.
Proof. split; [vm_compute; discriminate|reflexivity]. Defined.

Lemma acknowledged_ack_response : acknowledged ack_response.
Proof.
  split; [exact whole_frame_ack_response|]. do 2 eexists. split; reflexivity.
Defined.

Lemma connect_while_pending_witness :
  connectionPending (set_connectionPending true fresh) = true
  /\ connect (call 1) (cb_user (Some 1%nat)) (set_connectionPending true fresh)
     = (Done tt, set_connectionPending true fresh,
        [Emit EVENT_ERROR [JsErr (Error_of ERROR_CONNECTION_ALREADY_PENDING)];
         Invoke 1 [JsErr (Error_of ERROR_CONNECTION_ALREADY_PENDING)]]).
Proof.
  split; [reflexivity|].
  exact (@connect_while_pending reference 0 (set_connectionPending true fresh) (Some 1%nat)
           eq_refl).
Defined.

Lemma setAutoCommitMode_invalid_mode_witness :
  _validateInputBoolean (JsNum 1) = false
  /\ setAutoCommitMode (call 1) (JsNum 1) (Some 1%nat) (opened (JsBool true) [])
     = (Done tt, opened (JsBool true) [],
        [Emit EVENT_ERROR [JsErr (Error_of ERROR_INPUT_VALIDATION)];
         Emit EVENT_SET_AUTOCOMMIT_MODE_COMPLETED []; Invoke 1 [JsNull]]).
Proof.
  split; [reflexivity|].
  exact (@setAutoCommitMode_invalid_mode reference 0 (opened (JsBool true) []) (JsNum 1)
           (Some 1%nat) eq_refl).
Defined.

Lemma closeQuery_removes_first_witness :
  _validateInputTimeout 42 = true
  /\ _queriesHandleList (opened (JsBool true) [handle42; handle42_done])
     = [] ++ handle42 :: [handle42_done]
  /\ _queriesHandleList
       (state_of (closeQuery (call 0) 42 (cb_user None)
                             (opened (JsBool true) [handle42; handle42_done])))
     = [handle42_done]
  /\ effects_of (closeQuery (call 0) 42 (cb_user None)
                            (opened (JsBool true) [handle42; handle42_done]))
     = [SocketWrite [0; 0; 0; 5; 0; 255; 255; 255; 6; 0; 0; 0; 42]].
Proof.
  destruct (@closeQuery_removes_first reference (call 0)
              (opened (JsBool true) [handle42; handle42_done]) 42 (cb_user None) eq_refl)
    as (Hw & Hfirst & _).
  split; [reflexivity|]. split; [reflexivity|].
  split; [exact (Hfirst [] handle42 [handle42_done] eq_refl (Forall_nil_2 _) eq_refl)|].
  exact Hw.
Defined.

Lemma query_cache_hit_witness :
  connectionOpened cached = true
  /\ queryPending cached = false
  /\ query (call 2) "SELECT 1" (Some 1%nat) cached
     = (Done tt, cached,
        [Emit EVENT_QUERY_DATA_AVAILABLE [JsStr "rows"; JsNull];
         Invoke 1 [JsNull; JsStr "rows"; JsNull]]).
Proof.
  do 2 (split; [reflexivity|]).
  exact (@query_cache_hit reference 0 cached "SELECT 1" (Some 1%nat)
           {[ "SELECT 1"%string := JsStr "rows" ]} (JsStr "rows")
           eq_refl eq_refl eq_refl eq_refl (lookup_singleton_eq _ _)).
Defined.

Lemma query_error_response_witness :
  let r := and_then (query (call 2) "SELECT 1" (Some 1%nat) (opened (JsBool true) []))
                    (socket_data (call 2) no_more_data_response) in
  whole_frame no_more_data_response
  /\ queryPending (state_of r) = false
  /\ _queriesHandleList (state_of r) = []
  /\ effects_of r
     = [SocketWrite (bytes_of_string "SELECT 1");
        Emit EVENT_ERROR [JsErr (Error_server (-1012) (Some "CAS_ER_NO_MORE_DATA"%string))];
        Invoke 1 [JsErr (Error_server (-1012) (Some "CAS_ER_NO_MORE_DATA"%string));
                  JsUndefined; JsNum 0]].
Proof.
  destruct (@query_error_response reference 0 (opened (JsBool true) []) "SELECT 1" "SELECT 2"
              (Some 1%nat) None no_more_data_response _ _ _
              eq_refl eq_refl eq_refl eq_refl eq_refl eq_refl
              whole_frame_no_more_data_response eq_refl ltac:(discriminate))
    as (_ & Heff & Hq & Hh & _).
  split; [exact whole_frame_no_more_data_response|].
  split; [exact Hq|]. split; [exact Hh|exact Heff].
Defined.

Lemma commit_autocommit_on_stale_listener_witness :
  let r1 := commit (Some 1%nat) (opened (JsBool true) []) in
  let r2 := and_then r1 (query (call 2) "SELECT 1" (Some 2%nat)) in
  let r3 := and_then r2 (socket_data (call 2) execute_response) in
  autoCommitMode (opened (JsBool true) []) = JsBool true
  /\ outcome_of r3 = Threw TypeError
  /\ invocations (effects_of r3) = [(1%nat, [JsNull])]
  /\ queryPending (state_of r3) = true.
Proof.
  destruct (@commit_autocommit_on_stale_listener reference 0 (opened (JsBool true) [])
              (Some 1%nat) (Some 2%nat) "SELECT 1" execute_response false
              ltac:(discriminate) eq_refl eq_refl eq_refl eq_refl
              whole_frame_execute_response)
    as (_ & _ & Ho & Hi & Hq & _).
  split; [reflexivity|]. split; [exact Ho|]. split; [exact Hi|exact Hq].
Defined.

Lemma beginTransaction_then_commit_witness :
  let r1 := beginTransaction (call 1) (Some 1%nat) (opened (JsBool true) []) in
  let r2 := and_then r1 (socket_data (call 1) ack_response) in
  let r3 := and_then r2 (commit (Some 2%nat)) in
  _validateInputBoolean (JsBool false) = true
  /\ beginTransaction (call 1) (Some 1%nat) (opened (JsBool false) [])
     = (Done tt, opened (JsBool false) [],
        [Emit EVENT_BEGIN_TRANSACTION []; Invoke 1 [JsNull]])
  /\ autoCommitMode (state_of r3) = JsBool false
  /\ effects_of r3
     = [SocketWrite [0; 0; 0; 2; 0; 255; 255; 255; 5; 0];
        Emit EVENT_BEGIN_TRANSACTION []; Invoke 1 [JsNull];
        SocketWrite [0; 0; 0; 1; 0; 255; 255; 255; 1]].
Proof.
  set (packet := {| AckPacket.casInfo := [0; 255; 255; 255]; AckPacket.responseCode := 0;
                    AckPacket.errorCode := 0; AckPacket.errorMsg := Some EmptyString |}).
  set (rd := {| r_buffer := ack_response; _offset := 12 |}).
  destruct (@beginTransaction_then_commit reference 0 (opened (JsBool false) [])
              (Some 1%nat) None ack_response packet rd eq_refl) as [Hoff _].
  destruct (@beginTransaction_then_commit reference 0 (opened (JsBool true) [])
              (Some 1%nat) (Some 2%nat) ack_response packet rd eq_refl) as [_ Hon].
  destruct (Hon ltac:(discriminate) eq_refl whole_frame_ack_response eq_refl eq_refl)
    as (_ & Heff & Hmode & _).
  split; [reflexivity|]. split; [exact (Hoff eq_refl)|]. split; [exact Hmode|exact Heff].
Defined.

Lemma fetch_without_request_removes_listeners_witness :
  let self := state_of (query (call 2) "SELECT 1" (Some 1%nat)
                              (opened (JsBool true) [handle42_done])) in
  let r := fetch 42 (Some 2%nat) self in
  length (dataListeners (_socket self)) = 1%nat
  /\ dataListeners (_socket (state_of r)) = []
  /\ socket_data (call 2) execute_response (state_of r) = (Done tt, state_of r, []).
Proof.
  pose proof (@fetch_without_request_removes_listeners reference 2
              (state_of (query (call 2) "SELECT 1" (Some 1%nat)
                               (opened (JsBool true) [handle42_done])))
              42 (Some 2%nat) execute_response) as Hthm.
  cbv zeta in Hthm.
  destruct (Hthm ltac:(vm_compute; exact eq_refl)) as (_ & Hl & _ & _ & Hdata).
  split; [reflexivity|]. split; [exact Hl|exact Hdata].
Defined.

Lemma fetch_response_witness :
  let r := and_then (fetch 42 (Some 1%nat) (opened (JsBool true) [handle42]))
                    (socket_data (call 0) fetch_response_frame) in
  whole_frame fetch_response_frame
  /\ invocations (effects_of r)
     = [(1%nat,
         [JsNull;
          JsStr (String "{" (String "034" ("ColumnValues" ++ String "034" ":[]}")))])]
  /\ _queriesHandleList (state_of r) = [handle42].
Proof.
  assert (whole_frame fetch_response_frame) as Hw
    by (split; [vm_compute; discriminate|reflexivity]).
  destruct (@fetch_response reference 0 (opened (JsBool true) [handle42]) 42 (Some 1%nat)
              0%nat handle42 _ fetch_response_frame _ _ _
              eq_refl eq_refl ltac:(discriminate) Hw eq_refl)
    as (_ & Heff & Hh & _).
  split; [exact Hw|]. split; [|exact Hh].
  exact (f_equal invocations Heff).
Defined.

Lemma open_database_parse_cases_witness :
  exists packet r',
    OpenDatabasePacket.parse (OpenDatabasePacket.new test_options)
                             (new_PacketReader login_response)
    = Some (packet, None, r')
    /\ OpenDatabasePacket.casInfo packet = Some [0; 255; 255; 255]
    /\ OpenDatabasePacket.sessionId packet = Some 3
    /\ exists casInfo responseCode,
         OpenDatabasePacket.casInfo packet = Some casInfo
         /\ length casInfo = 4%nat
         /\ OpenDatabasePacket.responseCode packet = Some responseCode
         /\ OpenDatabasePacket.opts packet = test_options
         /\ ((responseCode < 0
              /\ is_Some (@None (Z * option string))
              /\ OpenDatabasePacket.brokerInfo packet = None
              /\ OpenDatabasePacket.sessionId packet = None)
             \/ (0 <= responseCode
                 /\ @None (Z * option string) = None
                 /\ (exists info, OpenDatabasePacket.brokerInfo packet = Some info
                                  /\ frozen info = true)
                 /\ is_Some (OpenDatabasePacket.sessionId packet))).
Proof.
  do 2 eexists. split; [cbv; reflexivity|]. do 2 (split; [reflexivity|]).
  exact (@open_database_parse_cases reference (OpenDatabasePacket.new test_options) _ _
           (new_PacketReader login_response) _ eq_refl).
Defined.

Lemma connect_sends_requests_witness :
  let r1 := connect (call 2) (cb_user (Some 1%nat)) fresh in
  let r2 := and_then r1 (socket_data (call 2) broker_port_response) in
  connectionPending fresh = false
  /\ ClientInfoExchangePacket_parse (new_PacketReader broker_port_response)
     = Some (32768, {| r_buffer := broker_port_response; _offset := 4 |})
  /\ connectionBrokerPort (state_of r2) = 32768
  /\ connectionPending (state_of r2) = true
  /\ length (socket_writes (effects_of r2)) = 2%nat.
Proof.
  destruct (@connect_sends_requests reference 0 fresh (Some 1%nat) broker_port_response
              32768 {| r_buffer := broker_port_response; _offset := 4 |} eq_refl eq_refl)
    as (_ & Heff & _ & Hport & Hpending & _).
  do 2 (split; [reflexivity|]). split; [exact Hport|]. split; [exact Hpending|].
  exact (f_equal (fun out => length (socket_writes out)) Heff).
Defined.

Lemma login_response_completes_witness :
  let self := state_of (and_then (connect (call 2) (cb_user (Some 1%nat)) fresh)
                                 (socket_data (call 2) broker_port_response)) in
  let ok := socket_data (call 3)
              (open_database_frame [0; 255; 255; 255] 0 [5; 5; 5; 5; 5; 5; 5; 5] 3) self in
  let refused := socket_data (call 3)
                   (error_frame [0; 255; 255; 255] (-1) (-1012) "") self in
  effects_of ok = [Emit EVENT_ERROR [JsErr Error_undefined]; Invoke 1 [JsErr Error_undefined]]
  /\ connectionOpened (state_of ok) = false
  /\ sessionId (state_of ok) = 0
  /\ autoCommitMode (state_of ok) = JsNull
  /\ effects_of refused
     = [Emit EVENT_ERROR [JsErr Error_undefined]; Invoke 1 [JsErr Error_undefined]]
  /\ connectionOpened (state_of refused) = false.
Proof.
  destruct (@login_response_completes reference 0
              (state_of (and_then (connect (call 2) (cb_user (Some 1%nat)) fresh)
                                  (socket_data (call 2) broker_port_response)))
              (Some 1%nat) _ 1%nat [0; 255; 255; 255] [5; 5; 5; 5; 5; 5; 5; 5] 0 3 (-1012) ""
              eq_refl eq_refl ltac:(unfold int32; lia)) as [Hok _].
  destruct (@login_response_completes reference 0
              (state_of (and_then (connect (call 2) (cb_user (Some 1%nat)) fresh)
                                  (socket_data (call 2) broker_port_response)))
              (Some 1%nat) _ 1%nat [0; 255; 255; 255] [5; 5; 5; 5; 5; 5; 5; 5] (-1) 3 (-1012) ""
              eq_refl eq_refl ltac:(unfold int32; lia)) as [_ Herr].
  specialize (Hok ltac:(lia) eq_refl ltac:(unfold int32; lia)).
  specialize (Herr ltac:(lia) ltac:(unfold int32; lia) ltac:(unfold int32; cbn; lia)).
  split; [exact (f_equal effects_of Hok)|].
  split; [exact (f_equal (fun r => connectionOpened (state_of r)) Hok)|].
  split; [exact (f_equal (fun r => sessionId (state_of r)) Hok)|].
  split; [exact (f_equal (fun r => autoCommitMode (state_of r)) Hok)|].
  split; [exact (f_equal effects_of Herr)|].
  exact (f_equal (fun r => connectionOpened (state_of r)) Herr).
Defined.

Lemma close_closes_every_handle_witness :
  let r := and_then (close (call 3) (Some 1%nat)
                           (opened (JsBool true) [handle42; handle42_done]))
                    (socket_chunks 3 [ack_response; ack_response; ack_response]) in
  Forall acknowledged [ack_response; ack_response; ack_response]
  /\ _queriesHandleList (state_of r) = []
  /\ socket_writes (effects_of r)
     = [[0; 0; 0; 5; 0; 255; 255; 255; 6; 0; 0; 0; 42];
        [0; 0; 0; 5; 0; 255; 255; 255; 6; 0; 0; 0; 42];
        [0; 0; 0; 1; 0; 255; 255; 255; 7]]
  /\ invocations (effects_of r) = [(1%nat, [JsNull])].
Proof.
  assert (Forall acknowledged [ack_response; ack_response; ack_response]) as Hacks
    by (do 3 (constructor; [exact acknowledged_ack_response|]); constructor).
  destruct (@close_closes_every_handle reference 0
              (opened (JsBool true) [handle42; handle42_done]) (Some 1%nat)
              [ack_response; ack_response; ack_response]
              eq_refl ltac:(by repeat constructor) Hacks eq_refl)
    as (_ & Heff & Hw & Hh & _).
  split; [exact Hacks|]. split; [exact Hh|]. split; [exact Hw|].
  exact (f_equal invocations Heff).
Defined.

Lemma close_survives_error_witness :
  let r := and_then (close (call 3) (Some 1%nat)
                           (opened (JsBool true) [handle42; handle42_done]))
                    (socket_chunks 3 [no_more_data_response; ack_response]) in
  _queriesHandleList (opened (JsBool true) [handle42; handle42_done])
  = [handle42; handle42_done]
  /\ while_ends_at_error = true
  /\ _queriesHandleList (state_of r) = [handle42_done]
  /\ invocations (effects_of r) = [(1%nat, [JsNull])]
  /\ outcome_of r = Done tt.
Proof.
  destruct (@close_survives_error reference 0
              (opened (JsBool true) [handle42; handle42_done]) (Some 1%nat)
              handle42 [handle42_done] no_more_data_response [ack_response] _ _
              eq_refl eq_refl eq_refl ltac:(by repeat constructor)
              whole_frame_no_more_data_response eq_refl
              ltac:(discriminate)
              ltac:(constructor; [exact acknowledged_ack_response|constructor]) eq_refl)
    as (Ho & _ & Hi & Hh & _).
  split; [reflexivity|]. split; [reflexivity|]. split; [exact Hh|].
  split; [exact Hi|exact Ho].
Defined.

Lemma chunks_reassembled_witness :
  let self := state_of (query (call 2) "SELECT 1" (Some 1%nat) (opened (JsBool true) [])) in
  mjoin execute_response_chunks ++ execute_response_last = execute_response
  /\ socket_chunks 2 (execute_response_chunks ++ [execute_response_last]) self
     = socket_data (call 2) execute_response self.
Proof.
  split; [reflexivity|].
  exact (@chunks_reassembled reference 2
           (state_of (query (call 2) "SELECT 1" (Some 1%nat) (opened (JsBool true) [])))
           0%nat (on_query "SELECT 1" (cb_next [] (cb_query (Some 1%nat))))
           execute_response_chunks execute_response_last
           I eq_refl ltac:(discriminate) whole_frame_execute_response).
Defined.

Lemma only_query_sets_queryPending_witness :
  queryPending (state_of (socket_data (call 2) ack_response
                            (state_of (commit (Some 1%nat) (opened (JsBool false) [])))))
  = false.
Proof.
  exact (proj1 (@only_query_sets_queryPending reference 2 ack_response 0 JsNull None)
           (state_of (commit (Some 1%nat) (opened (JsBool false) []))) eq_refl).
Defined.

Lemma batchExecuteNoQuery_validation_witness :
  Exists (fun sql => _validateInputSQLString sql = false)
         (statements (inl ["SELECT 1"; ""]%string))
  /\ batchExecuteNoQuery_checks (inl ["SELECT 1"; ""]%string) (Some 1%nat) fresh
     = (Done None, fresh,
        [Emit EVENT_ERROR [JsErr (Error_of ERROR_INPUT_VALIDATION)];
         Invoke 1 [JsErr (Error_of ERROR_INPUT_VALIDATION)]])
  /\ batchExecuteNoQuery_checks (inl []) (Some 1%nat) fresh
     = (Done None, fresh, [Emit EVENT_BATCH_COMMANDS_COMPLETED []; Invoke 1 [JsNull]])
  /\ batchExecuteNoQuery_checks (inr "SELECT 1"%string) (Some 1%nat) fresh
     = (Done (Some ["SELECT 1"%string]), fresh, []).
Proof.
  assert (Exists (fun sql => _validateInputSQLString sql = false)
                 (statements (inl ["SELECT 1"; ""]%string))) as Hex
    by (apply Exists_cons_tl, Exists_cons_hd; reflexivity).
  destruct (@batchExecuteNoQuery_validation reference fresh (inl ["SELECT 1"; ""]%string)
              (Some 1%nat)) as (_ & Hinvalid & _).
  destruct (@batchExecuteNoQuery_validation reference fresh (inl []) (Some 1%nat))
    as (Hempty & _).
  destruct (@batchExecuteNoQuery_validation reference fresh (inr "SELECT 1"%string)
              (Some 1%nat)) as (_ & _ & Hvalid).
  split; [exact Hex|]. split; [exact (Hinvalid Hex)|]. split; [exact (Hempty eq_refl)|].
  exact (Hvalid ltac:(discriminate) ltac:(by repeat constructor)).
Defined.

Lemma closeQuery_response_witness :
  let r := and_then (closeQuery (call 1) 42 (cb_user (Some 1%nat))
                                (opened (JsBool true) [handle42]))
                    (socket_data (call 1) no_more_data_response) in
  _validateInputTimeout 42 = true
  /\ _queriesHandleList (state_of r) = []
  /\ invocations (effects_of r)
     = [(1%nat, [JsErr (Error_server (-1012) (Some "CAS_ER_NO_MORE_DATA"%string))])].
Proof.
  destruct (@closeQuery_response reference 0 (opened (JsBool true) [handle42]) handle42 []
              (Some 1%nat) no_more_data_response _ _
              eq_refl eq_refl eq_refl whole_frame_no_more_data_response eq_refl)
    as (_ & Heff & _ & Hh & _).
  split; [reflexivity|]. split; [exact Hh|].
  exact (f_equal invocations Heff).
Defined.

Lemma query_fails_at_login_witness :
  let login := on_login (OpenDatabasePacket.new test_options)
                 (cb_next [] (cb_connect (cb_next [act_executeQuery "SELECT 1" (Some 1%nat)]
                                                  (cb_query (Some 1%nat))))) in
  let self := set__socket {| dataListeners := [(1%nat, fresh_listener login)] |} 2
                (set_connectionBrokerPort 32768
                   (set_connectionPending true (set_queryPending true fresh))) in
  let r := socket_data (call 4)
             (open_database_frame [0; 255; 255; 255] 0 [5; 5; 5; 5; 5; 5; 5; 5] 3) self in
  queryPending self = true
  /\ effects_of r
     = [Emit EVENT_ERROR [JsErr Error_undefined]; Emit EVENT_ERROR [JsErr Error_undefined];
        Invoke 1 [JsErr Error_undefined; JsUndefined; JsUndefined]]
  /\ queryPending (state_of r) = false
  /\ connectionOpened (state_of r) = false.
Proof.
  destruct (@query_fails_at_login reference 0
              (set__socket
                 {| dataListeners :=
                      [(1%nat,
                        fresh_listener
                          (on_login (OpenDatabasePacket.new test_options)
                             (cb_next []
                                (cb_connect
                                   (cb_next [act_executeQuery "SELECT 1" (Some 1%nat)]
                                            (cb_query (Some 1%nat)))))))] |} 2
                 (set_connectionBrokerPort 32768
                    (set_connectionPending true (set_queryPending true fresh))))
              "SELECT 1" (Some 1%nat) (OpenDatabasePacket.new test_options)
              1%nat [0; 255; 255; 255] [5; 5; 5; 5; 5; 5; 5; 5] 0 3
              eq_refl eq_refl eq_refl
              ltac:(unfold int32; lia) ltac:(lia) ltac:(unfold int32; lia))
    as (_ & Heff & _ & Hq & _ & Ho & _).
  split; [reflexivity|]. split; [exact Heff|]. split; [exact Hq|exact Ho].
Defined.
End further_runs.
